(** * A shallow embedding of the chess engine of [chess.py]

    The development follows the source file top-down: the piece classes
    with their [is_valid_move] predicates, the [ChessBoard] class
    ([get_piece], [save_state], [undo_move], [move_piece],
    [is_king_in_check], [is_game_over]) and the mouse handling of [main].
    Of the drawing functions the rectangles of the squares and the keys of
    the images are modelled; the painting itself, the score counters and
    the attribute [last_moved_piece] (written by [move_piece], never read)
    are left out.

    Representation.  Python integers are [Z].  The board is the list of
    eight rows of eight cells that [ChessBoard.__init__] builds and that is
    never resized.  A piece object is referenced by at most one cell, so a
    cell stores the record of the object it references; an attribute
    assignment on an object ([piece.move], [p.can_be_captured_en_passant =
    ...], [piece.has_moved = True]) is mirrored on the local variable and on
    the cell that references the object at that point.  Exceptions and
    early returns are explicit in the [outcome] type. *)

From Stdlib Require Import ZArith Bool Lia.
From stdpp Require Import base option list strings.

Local Open Scope Z_scope.

(** ** Pieces *)

(** The colour strings ['w'] and ['b']. *)
Inductive Color := White | Black.

(** The six subclasses of [Piece]. *)
Inductive Kind := Pawn | Rook | Knight | Bishop | Queen | King.

Definition Pos : Type := Z * Z.

(** [can_be_captured_en_passant] only exists on [Pawn] objects; the source
    reads and writes it behind an [isinstance(_, Pawn)] test only. *)
Record Piece := mkPiece {
  kind : Kind;
  color : Color;
  position : Pos;
  has_moved : bool;
  can_be_captured_en_passant : bool
}.

Definition color_eqb (a b : Color) : bool :=
  match a, b with
  | White, White | Black, Black => true
  | _, _ => false
  end.

Definition kind_eqb (a b : Kind) : bool :=
  match a, b with
  | Pawn, Pawn | Rook, Rook | Knight, Knight
  | Bishop, Bishop | Queen, Queen | King, King => true
  | _, _ => false
  end.

Definition pos_eqb (a b : Pos) : bool :=
  (fst a =? fst b) && (snd a =? snd b).

(** ['b' if color == 'w' else 'w'] *)
Definition opponent (c : Color) : Color :=
  match c with White => Black | Black => White end.

(** [Piece.__init__] and the subclasses' constructors. *)
Definition new_piece (k : Kind) (c : Color) (p : Pos) : Piece :=
  mkPiece k c p false false.

(** [Piece.move] *)
Definition move (self : Piece) (new_position : Pos) : Piece :=
  mkPiece (kind self) (color self) new_position (has_moved self)
          (can_be_captured_en_passant self).

Definition set_en_passant (v : bool) (self : Piece) : Piece :=
  mkPiece (kind self) (color self) (position self) (has_moved self) v.

Definition set_has_moved (self : Piece) : Piece :=
  mkPiece (kind self) (color self) (position self) true
          (can_be_captured_en_passant self).

Definition isinstance (o : option Piece) (k : Kind) : bool :=
  match o with
  | Some p => kind_eqb (kind p) k
  | None => false
  end.

(** ** The grid *)

Abbreviation Grid := (list (list (option Piece))).

Definition on_board (x y : Z) : bool :=
  (0 <=? x) && (x <? 8) && (0 <=? y) && (y <? 8).

(** The cell of an on-board square; [None] off the board. *)
Definition cell (g : Grid) (x y : Z) : option Piece :=
  if on_board x y then
    match g !! Z.to_nat x with
    | Some row =>
        match row !! Z.to_nat y with
        | Some c => c
        | None => None
        end
    | None => None
    end
  else None.

(** [ChessBoard.get_piece] *)
Definition get_piece (g : Grid) (position : Pos) : option Piece :=
  let '(x, y) := position in cell g x y.

Definition set_cell (g : Grid) (x y : Z) (v : option Piece) : Grid :=
  if on_board x y then
    match g !! Z.to_nat x with
    | Some row => <[Z.to_nat x := <[Z.to_nat y := v]> row]> g
    | None => g
    end
  else g.

(** Python list indexing on a list of length eight: [-8 .. -1] count from
    the end, anything outside [-8 .. 7] raises [IndexError]. *)
Definition wrap (i : Z) : option Z :=
  if (0 <=? i) && (i <? 8) then Some i
  else if (-8 <=? i) && (i <? 0) then Some (i + 8)
  else None.

(** [self.board[x][y]] *)
Definition index (g : Grid) (x y : Z) : option (option Piece) :=
  match wrap x, wrap y with
  | Some x', Some y' => Some (cell g x' y')
  | _, _ => None
  end.

(** [self.board[x][y] = v] *)
Definition store (g : Grid) (x y : Z) (v : option Piece) : option Grid :=
  match wrap x, wrap y with
  | Some x', Some y' => Some (set_cell g x' y' v)
  | _, _ => None
  end.

(** [range(a, b, step)] for a non-zero [step]. *)
Definition py_range (a b step : Z) : list Z :=
  let n := if 0 <? step then (b - a + step - 1) / step
           else (a - b - step - 1) / (- step) in
  List.map (fun i => a + step * Z.of_nat i) (seq 0 (Z.to_nat n)).

(** The squares in the order of [for row in range(8): for col in range(8)]. *)
Definition squares : list Pos :=
  List.flat_map (fun r => List.map (fun c => (r, c)) (py_range 0 8 1))
                (py_range 0 8 1).

(** ** Computations that mutate the board and may raise *)

Inductive exn := IndexError | ValueError | UnboundLocalError | AttributeError.

Inductive outcome (S A : Type) : Type :=
| Done (a : A) (s : S)      (* returned [a], leaving state [s] *)
| Raised (e : exn) (s : S)  (* an exception propagated, leaving state [s] *)
| OutOfFuel.                (* the recursion budget of the model ran out *)
Arguments Done {S A} a s.
Arguments Raised {S A} e s.
Arguments OutOfFuel {S A}.

Definition M (S A : Type) : Type := S -> outcome S A.

Definition ret {S A} (a : A) : M S A := fun s => Done a s.

Definition bind {S A B} (c : M S A) (k : A -> M S B) : M S B :=
  fun s =>
    match c s with
    | Done a s' => k a s'
    | Raised e s' => Raised e s'
    | OutOfFuel => OutOfFuel
    end.

Definition raise {S A} (e : exn) : M S A := fun s => Raised e s.

Definition gets {S A} (f : S -> A) : M S A := fun s => Done (f s) s.

Definition modify {S} (f : S -> S) : M S unit := fun s => Done tt (f s).

Notation "'let*' x := c 'in' k" := (bind c (fun x => k))
  (at level 10, x name, c at level 100, k at level 200).
Notation "c ;; k" := (bind c (fun _ => k))
  (at level 100, k at level 200, right associativity).

(** [self.board[x][y]] as a step. *)
Definition read (x y : Z) : M Grid (option Piece) :=
  fun g =>
    match index g x y with
    | Some c => Done c g
    | None => Raised IndexError g
    end.

(** [self.board[x][y] = v] as a step. *)
Definition write (x y : Z) (v : option Piece) : M Grid unit :=
  fun g =>
    match store g x y v with
    | Some g' => Done tt g'
    | None => Raised IndexError g
    end.

(** ** Legality predicates of the pieces that only read the board *)

Definition is_empty (g : Grid) (p : Pos) : bool :=
  match get_piece g p with
  | Some _ => false
  | None => true
  end.

(** [Pawn.is_valid_move] *)
Definition Pawn_is_valid_move (self : Piece) (end_position : Pos) (g : Grid)
  : bool :=
  let '(start_x, start_y) := position self in
  let '(end_x, end_y) := end_position in
  let direction := match color self with White => -1 | Black => 1 end in
  let start_row := match color self with White => 6 | Black => 1 end in
  if (end_y =? start_y) && (end_x =? start_x + direction)
     && is_empty g end_position
  then true
  else if (start_x =? start_row) && (end_y =? start_y)
          && (end_x =? start_x + 2 * direction)
          && is_empty g (start_x + direction, start_y)
          && is_empty g end_position
  then true
  else if (Z.abs (end_y - start_y) =? 1) && (end_x =? start_x + direction)
  then
    let target := get_piece g end_position in
    if match target with
       | Some t => negb (color_eqb (color t) (color self))
       | None => false
       end
    then true
    else
      let adjacent_pawn := get_piece g (start_x, end_y) in
      match adjacent_pawn with
      | Some a =>
          kind_eqb (kind a) Pawn
          && negb (color_eqb (color a) (color self))
          && can_be_captured_en_passant a
      | None => false
      end
  else false.

(** [Rook.is_valid_move] *)
Definition Rook_is_valid_move (self : Piece) (end_position : Pos) (g : Grid)
  : bool :=
  let '(start_x, start_y) := position self in
  let '(end_x, end_y) := end_position in
  if negb (start_x =? end_x) && negb (start_y =? end_y) then false
  else if start_x =? end_x then
    let step := if end_y >? start_y then 1 else -1 in
    forallb (fun y => is_empty g (start_x, y))
            (py_range (start_y + step) end_y step)
  else
    let step := if end_x >? start_x then 1 else -1 in
    forallb (fun x => is_empty g (x, start_y))
            (py_range (start_x + step) end_x step).

(** [Knight.is_valid_move] *)
Definition Knight_is_valid_move (self : Piece) (end_position : Pos) (g : Grid)
  : bool :=
  let '(start_x, start_y) := position self in
  let '(end_x, end_y) := end_position in
  let dx := Z.abs (end_x - start_x) in
  let dy := Z.abs (end_y - start_y) in
  ((dx =? 2) && (dy =? 1)) || ((dx =? 1) && (dy =? 2)).

(** [Bishop.is_valid_move] *)
Definition Bishop_is_valid_move (self : Piece) (end_position : Pos) (g : Grid)
  : bool :=
  let '(start_x, start_y) := position self in
  let '(end_x, end_y) := end_position in
  let dx := end_x - start_x in
  let dy := end_y - start_y in
  if negb (Z.abs dx =? Z.abs dy) then false
  else
    let step_x := if dx >? 0 then 1 else -1 in
    let step_y := if dy >? 0 then 1 else -1 in
    forallb (fun i => is_empty g (start_x + i * step_x, start_y + i * step_y))
            (py_range 1 (Z.abs dx) 1).

(** [Queen.is_valid_move]: a fresh rook and a fresh bishop of the queen's
    colour on the queen's position; only their position is read. *)
Definition Queen_is_valid_move (self : Piece) (end_position : Pos) (g : Grid)
  : bool :=
  let rook := new_piece Rook (color self) (position self) in
  let bishop := new_piece Bishop (color self) (position self) in
  Rook_is_valid_move rook end_position g
  || Bishop_is_valid_move bishop end_position g.

(** ** The king and the check test

    [King.is_valid_move] calls [board.is_king_in_check], which calls
    [is_valid_move] on every opposing piece, kings included.  The mutual
    recursion is tied through [fuel]: [is_king_in_check 0] is [OutOfFuel]. *)

(** One round of the castling loop: the king is put on [(start_x, y)], the
    check test runs, and the two cells are written back. *)
Definition probe (check : Color -> M Grid bool) (self : Piece)
    (start_x start_y y : Z) : M Grid bool :=
  write start_x start_y None ;;
  write start_x y (Some self) ;;
  let* in_check := check (color self) in
  write start_x y None ;;
  write start_x start_y (Some self) ;;
  ret in_check.

(** [for y in range(start_y, start_y + 3 * direction, direction)]; the
    result is what [is_valid_move] returns. *)
Fixpoint probe_path (check : Color -> M Grid bool) (self : Piece)
    (start_x start_y rook_y : Z) (ys : list Z) : M Grid bool :=
  match ys with
  | [] => ret true
  | y :: ys' =>
      if negb (y =? rook_y) then
        let* in_check := probe check self start_x start_y y in
        if in_check then ret false
        else probe_path check self start_x start_y rook_y ys'
      else probe_path check self start_x start_y rook_y ys'
  end.

(** [King.is_valid_move] *)
Definition King_is_valid_move (check : Color -> M Grid bool) (self : Piece)
    (end_position : Pos) : M Grid bool :=
  fun g =>
    let '(start_x, start_y) := position self in
    let '(end_x, end_y) := end_position in
    if (Z.abs (end_x - start_x) <=? 1) && (Z.abs (end_y - start_y) <=? 1)
    then
      Done match get_piece g end_position with
           | None => true
           | Some target => negb (color_eqb (color target) (color self))
           end g
    else if negb (has_moved self) && (start_x =? end_x)
            && (Z.abs (end_y - start_y) =? 2)
    then
      let direction := if end_y >? start_y then 1 else -1 in
      let rook_y := if direction =? 1 then 7 else 0 in
      let rook := get_piece g (start_x, rook_y) in
      if isinstance rook Rook
         && negb match rook with Some r => has_moved r | None => false end
      then
        if forallb (fun y => is_empty g (start_x, y))
                   (py_range (start_y + direction) rook_y direction)
        then
          probe_path check self start_x start_y rook_y
            (py_range start_y (start_y + 3 * direction) direction) g
        else Done false g
      else Done false g
    else Done false g.

(** The dispatch of [piece.is_valid_move(end_position, board)] on the class
    of [piece]. *)
Definition is_valid_move_with (check : Color -> M Grid bool) (self : Piece)
    (end_position : Pos) : M Grid bool :=
  match kind self with
  | Pawn => gets (Pawn_is_valid_move self end_position)
  | Rook => gets (Rook_is_valid_move self end_position)
  | Knight => gets (Knight_is_valid_move self end_position)
  | Bishop => gets (Bishop_is_valid_move self end_position)
  | Queen => gets (Queen_is_valid_move self end_position)
  | King => King_is_valid_move check self end_position
  end.

Definition is_king_of (c : Color) (o : option Piece) : bool :=
  match o with
  | Some p => kind_eqb (kind p) King && color_eqb (color p) c
  | None => false
  end.

(** First loop of [is_king_in_check]: the first square, in row-major order,
    that holds a king of the colour. *)
Definition find_king (c : Color) (g : Grid) : option Pos :=
  List.find (fun sq => is_king_of c (get_piece g sq)) squares.

(** Second loop of [is_king_in_check]; every cell is read when its turn
    comes. *)
Fixpoint attack_scan (valid : Piece -> Pos -> M Grid bool)
    (opponent_color : Color) (king_position : Pos) (sqs : list Pos)
  : M Grid bool :=
  match sqs with
  | [] => ret false
  | sq :: rest =>
      let* piece := gets (fun g => get_piece g sq) in
      match piece with
      | Some p =>
          if color_eqb (color p) opponent_color then
            let* v := valid p king_position in
            if v then ret true
            else attack_scan valid opponent_color king_position rest
          else attack_scan valid opponent_color king_position rest
      | None => attack_scan valid opponent_color king_position rest
      end
  end.

Definition is_king_in_check_with (valid : Piece -> Pos -> M Grid bool)
    (c : Color) : M Grid bool :=
  let opponent_color := opponent c in
  let* king_position := gets (find_king c) in
  match king_position with
  | None => raise ValueError
  | Some kp => attack_scan valid opponent_color kp squares
  end.

(** [ChessBoard.is_king_in_check] *)
Fixpoint is_king_in_check (fuel : nat) (c : Color) : M Grid bool :=
  match fuel with
  | O => fun _ => OutOfFuel
  | S n => is_king_in_check_with (is_valid_move_with (is_king_in_check n)) c
  end.

(** [piece.is_valid_move(end_position, board)] *)
Definition is_valid_move (fuel : nat) (self : Piece) (end_position : Pos)
  : M Grid bool :=
  is_valid_move_with (is_king_in_check fuel) self end_position.

(** ** The board object *)

Record ChessBoard := mkBoard {
  board : Grid;
  last_state : option Grid
}.

(** A step on [self.board] as a step on the [ChessBoard]. *)
Definition on_grid {A} (c : M Grid A) : M ChessBoard A :=
  fun s =>
    match c (board s) with
    | Done a g => Done a (mkBoard g (last_state s))
    | Raised e g => Raised e (mkBoard g (last_state s))
    | OutOfFuel => OutOfFuel
    end.

(** [copy.deepcopy(self.board)]: a structure that shares no object with the
    board; on records this is the grid itself. *)
Definition deepcopy (g : Grid) : Grid := g.

(** [ChessBoard.save_state] *)
Definition save_state (s : ChessBoard) : ChessBoard :=
  mkBoard (board s) (Some (deepcopy (board s))).

(** [ChessBoard.undo_move]; [if self.last_state] is false for [None] and
    for an empty list. *)
Definition undo_move (s : ChessBoard) : ChessBoard :=
  match last_state s with
  | Some (r :: rs) => mkBoard (r :: rs) None
  | _ => s
  end.

(** The body of the loop that clears the en-passant flag. *)
Definition clear_flag (c : Color) (p : Piece) : Piece :=
  if kind_eqb (kind p) Pawn && color_eqb (color p) c
  then set_en_passant false p else p.

Definition clear_en_passant (c : Color) (g : Grid) : Grid :=
  fmap (M:=list) (fmap (M:=list) (fmap (M:=option) (clear_flag c))) g.

(** The locals [direction], [rook_y] and [rook] of [move_piece]; they are
    bound by the castling block only. *)
Definition CastleVars : Type := Z * Z * option Piece.

(** The locals of [move_piece] that the blocks after the placement read:
    [captured_pawn_pos] and [captured_pawn] (bound by the en-passant block
    only), the castling locals, [original_piece], and the object [piece];
    [same_cell] records that [end_pos] indexes the cell of [start_pos], in
    which case [original_piece] is the object [piece]. *)
Record MoveLocals := mkLocals {
  captured : option (Pos * option Piece);
  castle : option CastleVars;
  original_piece : option Piece;
  same_cell : bool;
  moved : Piece
}.

(** [move_piece] from "Handle en passant capture" to [piece.move(end_pos)];
    [piece] is the object found on [start_pos]. *)
Definition simulate_move (piece : Piece) (start_pos end_pos : Pos) (c : Color)
  : M Grid MoveLocals :=
  let '(start_x, start_y) := start_pos in
  let '(end_x, end_y) := end_pos in
  (* Handle en passant capture *)
  let* empty_end := gets (fun g => is_empty g end_pos) in
  let* captured :=
    if kind_eqb (kind piece) Pawn && (Z.abs (end_y - start_y) =? 1)
       && empty_end
    then
      let* captured_pawn := gets (fun g => get_piece g (start_x, end_y)) in
      write start_x end_y None ;;
      ret (Some ((start_x, end_y), captured_pawn))
    else ret None in
  (* Clear en passant eligibility for all pawns of the same color *)
  modify (clear_en_passant c) ;;
  let piece := clear_flag c piece in
  (* Handle double square pawn move *)
  let double := kind_eqb (kind piece) Pawn
                && (Z.abs (end_x - start_x) =? 2) in
  let piece := if double then set_en_passant true piece else piece in
  (if double then modify (fun g => set_cell g start_x start_y (Some piece))
   else ret tt) ;;
  (* Handle castling *)
  let* castle :=
    if kind_eqb (kind piece) King && (Z.abs (end_y - start_y) =? 2) then
      let direction := if end_y >? start_y then 1 else -1 in
      let rook_y := if direction =? 1 then 7 else 0 in
      let* rook := gets (fun g => get_piece g (start_x, rook_y)) in
      match rook with
      | Some r =>
          if kind_eqb (kind r) Rook then
            let r' := move r (start_x, start_y + direction) in
            write start_x rook_y None ;;
            write start_x (start_y + direction) (Some r') ;;
            ret (Some (direction, rook_y, Some r'))
          else ret (Some (direction, rook_y, rook))
      | None => ret (Some (direction, rook_y, None))
      end
    else ret (@None CastleVars) in
  (* Simulate the move *)
  let same_cell :=
    match wrap end_x, wrap end_y with
    | Some x, Some y => pos_eqb (x, y) start_pos
    | _, _ => false
    end in
  let* original_piece := read end_x end_y in
  let piece := move piece end_pos in
  write end_x end_y (Some piece) ;;
  write start_x start_y None ;;
  ret (mkLocals captured castle original_piece same_cell piece).

(** The block under [if self.is_king_in_check(color):], up to its
    [return False]. *)
Definition revert_move (l : MoveLocals) (start_pos end_pos : Pos)
  : M Grid unit :=
  let '(start_x, start_y) := start_pos in
  let '(end_x, end_y) := end_pos in
  let piece := move (moved l) start_pos in
  write start_x start_y (Some piece) ;;
  write end_x end_y (if same_cell l then Some piece else original_piece l) ;;
  (* Undo en passant capture, if applicable *)
  (if kind_eqb (kind piece) Pawn && (Z.abs (end_y - start_y) =? 1) then
     match castle l with
     | None => raise UnboundLocalError
     | Some (direction, _, _) =>
         let* free :=
           gets (fun g => is_empty g (start_x + direction, start_y)) in
         if free then
           match captured l with
           | None => raise UnboundLocalError
           | Some (captured_pawn_pos, captured_pawn) =>
               write (fst captured_pawn_pos) (snd captured_pawn_pos)
                     captured_pawn
           end
         else ret tt
     end
   else ret tt) ;;
  (* Undo castling rook move, if applicable *)
  match castle l with
  | Some (direction, rook_y, rook) =>
      write start_x (start_y + direction) None ;;
      match rook with
      | Some r => write start_x rook_y (Some (move r (start_x, rook_y)))
      | None => write start_x rook_y None ;; raise AttributeError
      end
  | None => ret tt
  end.

(** [move_piece] from the call of [is_valid_move] on. *)
Definition move_attempt (fuel : nat) (piece : Piece) (start_pos end_pos : Pos)
    (c : Color) : M Grid bool :=
  let* valid := is_valid_move fuel piece end_pos in
  if valid then
    let* l := simulate_move piece start_pos end_pos c in
    (* Check if the move leaves the king in check *)
    let* in_check := is_king_in_check fuel c in
    if in_check then
      revert_move l start_pos end_pos ;;
      ret false
    else
      (* piece.has_moved = True *)
      (if same_cell l then ret tt
       else write (fst end_pos) (snd end_pos) (Some (set_has_moved (moved l)))) ;;
      ret true
  else ret false.

(** [ChessBoard.move_piece] *)
Definition move_piece (fuel : nat) (start_pos end_pos : Pos) (c : Color)
  : M ChessBoard bool :=
  let* piece := gets (fun s => get_piece (board s) start_pos) in
  match piece with
  | None => ret false
  | Some p =>
      if negb (color_eqb (color p) c) then ret false
      else
        modify save_state ;;
        on_grid (move_attempt fuel p start_pos end_pos c)
  end.

(** The result of [is_game_over]: [False], ["checkmate"] or ["stalemate"]. *)
Inductive GameStatus := NotOver | Checkmate | Stalemate.

(** The two inner loops of [is_game_over] for the piece found on
    [(row, col)].  [original_start_piece] is the object [piece], read from
    that cell by the outer loop; [original_end_piece] is the same object
    when the destination is the piece's own square.  The result says whether
    the function returned [False] from inside the loop. *)
Fixpoint scan_targets (fuel : nat) (c : Color) (row col : Z) (piece : Piece)
    (targets : list Pos) : M Grid bool :=
  match targets with
  | [] => ret false
  | end_position :: rest =>
      let '(end_row, end_col) := end_position in
      let* v := is_valid_move fuel piece end_position in
      if v then
        let* target_piece := gets (fun g => get_piece g end_position) in
        if negb (isinstance target_piece King) then
          let* original_start_piece := read row col in
          let* original_end_piece := read end_row end_col in
          write row col None ;;
          write end_row end_col (Some (move piece end_position)) ;;
          let* in_check := is_king_in_check fuel c in
          let piece := move piece (row, col) in
          write row col (Some piece) ;;
          write end_row end_col
            (if pos_eqb end_position (row, col) then Some piece
             else original_end_piece) ;;
          if negb in_check then ret true
          else scan_targets fuel c row col piece rest
        else scan_targets fuel c row col piece rest
      else scan_targets fuel c row col piece rest
  end.

(** The two outer loops of [is_game_over]. *)
Fixpoint scan_pieces (fuel : nat) (c : Color) (sqs : list Pos)
  : M Grid bool :=
  match sqs with
  | [] => ret false
  | (row, col) :: rest =>
      let* piece := gets (fun g => get_piece g (row, col)) in
      match piece with
      | Some p =>
          if color_eqb (color p) c then
            let* found := scan_targets fuel c row col p squares in
            if found then ret true else scan_pieces fuel c rest
          else scan_pieces fuel c rest
      | None => scan_pieces fuel c rest
      end
  end.

(** [ChessBoard.is_game_over] *)
Definition is_game_over (fuel : nat) (c : Color) : M Grid GameStatus :=
  let* found := scan_pieces fuel c squares in
  if found then ret NotOver
  else
    let* in_check := is_king_in_check fuel c in
    if in_check then ret Checkmate else ret Stalemate.

(** [ChessBoard.setup_board] on the empty grid of [__init__]. *)
Definition empty_grid : Grid := replicate 8 (replicate 8 None).

Definition place (k : Kind) (c : Color) (x y : Z) (g : Grid) : Grid :=
  set_cell g x y (Some (new_piece k c (x, y))).

Definition setup_board (g : Grid) : Grid :=
  let g := fold_left (fun g i => place Pawn White 6 i (place Pawn Black 1 i g))
                     (py_range 0 8 1) g in
  let g := place Rook Black 0 0 g in
  let g := place Rook Black 0 7 g in
  let g := place Rook White 7 0 g in
  let g := place Rook White 7 7 g in
  let g := place Knight Black 0 1 g in
  let g := place Knight Black 0 6 g in
  let g := place Knight White 7 1 g in
  let g := place Knight White 7 6 g in
  let g := place Bishop Black 0 2 g in
  let g := place Bishop Black 0 5 g in
  let g := place Bishop White 7 2 g in
  let g := place Bishop White 7 5 g in
  let g := place Queen Black 0 3 g in
  let g := place Queen White 7 3 g in
  let g := place King Black 0 4 g in
  place King White 7 4 g.

(** [ChessBoard.__init__] *)
Definition new_board : ChessBoard := mkBoard (setup_board empty_grid) None.

(** ** The mouse handling of [main] *)

Record Game := mkGame {
  chess : ChessBoard;
  selected_piece : option Pos;
  player_turn : Color;
  promoting_pawn : option Pos;
  promotion_color : option Color
}.

(** The state at the top of the [while] loop. *)
Definition new_game : Game := mkGame new_board None White None None.

Definition CELLSIZE : Z := 100.

(** [pygame.Rect(x, y, CELLSIZE, CELLSIZE).collidepoint(mouse_x, mouse_y)] *)
Definition collidepoint (x y mouse_x mouse_y : Z) : bool :=
  (x <=? mouse_x) && (mouse_x <? x + CELLSIZE)
  && (y <=? mouse_y) && (mouse_y <? y + CELLSIZE).

(** The promotion menu: letter [i] of ['q', 'r', 'n', 'b'] and its
    rectangle. *)
Definition promotion_choices : list (Kind * (Z * Z)) :=
  [ (Queen, (600, 400)); (Rook, (600 + CELLSIZE, 400));
    (Knight, (600, 400 + CELLSIZE)); (Bishop, (600 + CELLSIZE, 400 + CELLSIZE)) ].

(** The [if promoting_pawn:] block; it also rebinds [row] and [col]. *)
Definition handle_promotion (mouse_x mouse_y row col : Z) (gm : Game)
  : outcome Game (Z * Z) :=
  match promoting_pawn gm with
  | None => Done (row, col) gm
  | Some (prow, pcol) =>
      match List.find (fun ch => collidepoint (fst (snd ch)) (snd (snd ch))
                                   mouse_x mouse_y) promotion_choices with
      | None => Done (row, col) gm
      | Some (k, _) =>
          match promotion_color gm with
          | None => Raised AttributeError gm
          | Some pc =>
              match store (board (chess gm)) prow pcol
                          (Some (new_piece k pc (prow, pcol))) with
              | None => Raised IndexError gm
              | Some g =>
                  Done (prow, pcol)
                       (mkGame (mkBoard g (last_state (chess gm)))
                               (selected_piece gm)
                               (opponent (player_turn gm)) None None)
              end
          end
      end
  end.

(** The [if selected_piece: ... else: ...] block. *)
Definition handle_square (fuel : nat) (row col : Z) (gm : Game)
  : outcome Game unit :=
  let here := get_piece (board (chess gm)) (row, col) in
  let own := match here with
             | Some p => color_eqb (color p) (player_turn gm)
             | None => false
             end in
  match selected_piece gm with
  | Some sel =>
      if own then
        Done tt (mkGame (chess gm) (Some (row, col)) (player_turn gm)
                        (promoting_pawn gm) (promotion_color gm))
      else
        match move_piece fuel sel (row, col) (player_turn gm) (chess gm) with
        | Done true cb =>
            let piece := get_piece (board cb) (row, col) in
            if isinstance piece Pawn && ((row =? 0) || (row =? 7)) then
              Done tt (mkGame cb None (player_turn gm) (Some (row, col))
                              (option_map color piece))
            else
              Done tt (mkGame cb None (opponent (player_turn gm))
                              (promoting_pawn gm) (promotion_color gm))
        | Done false cb =>
            Done tt (mkGame cb (selected_piece gm) (player_turn gm)
                            (promoting_pawn gm) (promotion_color gm))
        | Raised e cb =>
            Raised e (mkGame cb (selected_piece gm) (player_turn gm)
                             (promoting_pawn gm) (promotion_color gm))
        | OutOfFuel => OutOfFuel
        end
  | None =>
      if own then
        Done tt (mkGame (chess gm) (Some (row, col)) (player_turn gm)
                        (promoting_pawn gm) (promotion_color gm))
      else Done tt gm
  end.

(** The buttons left of the board: [row] is [mouse_y // CELLSIZE]. *)
Definition handle_button (row : Z) (gm : Game) : Game :=
  if row =? 4 then
    mkGame new_board None White (promoting_pawn gm) (promotion_color gm)
  else if row =? 5 then
    match last_state (chess gm) with
    | Some _ =>
        mkGame (undo_move (chess gm)) None (opponent (player_turn gm))
               (promoting_pawn gm) (promotion_color gm)
    | None => gm
    end
  else if row =? 6 then
    mkGame (chess gm) None White (promoting_pawn gm) (promotion_color gm)
  else if row =? 7 then
    mkGame new_board None White (promoting_pawn gm) (promotion_color gm)
  else gm.

(** The [pygame.MOUSEBUTTONDOWN] branch of the event loop. *)
Definition handle_click (fuel : nat) (mouse_x mouse_y : Z) (gm : Game)
  : outcome Game unit :=
  if (mouse_x >=? 300) && ((mouse_y >=? 100) && (mouse_y <=? 900)) then
    let row := (mouse_y - 100) / CELLSIZE in
    let col := (mouse_x - 300) / CELLSIZE in
    match handle_promotion mouse_x mouse_y row col gm with
    | Done (row, col) gm' => handle_square fuel row col gm'
    | Raised e gm' => Raised e gm'
    | OutOfFuel => OutOfFuel
    end
  else
    Done tt (handle_button (mouse_y / CELLSIZE) gm).

(** The game-over test at the end of every frame. *)
Definition end_of_frame (fuel : nat) (gm : Game) : outcome Game unit :=
  match on_grid (is_game_over fuel (player_turn gm)) (chess gm) with
  | Done NotOver cb =>
      Done tt (mkGame cb (selected_piece gm) (player_turn gm)
                      (promoting_pawn gm) (promotion_color gm))
  | Done _ cb =>
      Done tt (mkGame new_board None White
                      (promoting_pawn gm) (promotion_color gm))
  | Raised e cb =>
      Raised e (mkGame cb (selected_piece gm) (player_turn gm)
                       (promoting_pawn gm) (promotion_color gm))
  | OutOfFuel => OutOfFuel
  end.

(** ** Invariants of the board

    [ChessBoard.__init__] builds eight rows of eight cells.  Every piece is
    created with the coordinates of its cell and [move_piece] moves the
    object and its [position] together; a king is created on file 4 and
    [has_moved] is set by its first completed move; no king is created
    after [setup_board]. *)

Definition shape (g : Grid) : Prop :=
  length g = 8%nat /\ Forall (fun row => length row = 8%nat) g.

(** The pieces of colour [c] carry the coordinates of their cell, and a king
    of colour [c] that has not moved stands on file 4. *)
Definition side_ok (c : Color) (g : Grid) : Prop :=
  forall x y p, cell g x y = Some p -> color p = c ->
    position p = (x, y) /\ (kind p = King -> has_moved p = false -> y = 4).

Definition one_king (g : Grid) : Prop :=
  forall x y p x' y' p',
    cell g x y = Some p -> cell g x' y' = Some p' ->
    kind p = King -> kind p' = King -> color p = color p' ->
    (x, y) = (x', y').

Record wf (g : Grid) : Prop := mkWf {
  wf_shape : shape g;
  wf_side : forall c, side_ok c g
}.

(** The same invariants as a test that can be run on a given board. *)
Definition shapeb (g : Grid) : bool :=
  (length g =? 8)%nat && forallb (fun row => (length row =? 8)%nat) g.

Definition piece_okb (sq : Pos) (o : option Piece) : bool :=
  match o with
  | Some p =>
      pos_eqb (position p) sq
      && (negb (kind_eqb (kind p) King) || has_moved p || (snd sq =? 4))
  | None => true
  end.

Definition one_kingb (g : Grid) : bool :=
  forallb (fun sq =>
    forallb (fun sq' =>
      match get_piece g sq, get_piece g sq' with
      | Some p, Some p' =>
          negb (kind_eqb (kind p) King && kind_eqb (kind p') King
                && color_eqb (color p) (color p'))
          || pos_eqb sq sq'
      | _, _ => true
      end) squares) squares.

Definition wfb (g : Grid) : bool :=
  shapeb g && forallb (fun sq => piece_okb sq (get_piece g sq)) squares.

(** The answer of [is_valid_move] when it is reached without the castling
    probes: the check test is never consulted. *)
Definition threat (q : Piece) (target : Pos) (g : Grid) : bool :=
  match is_valid_move_with (fun _ _ => OutOfFuel) q target g with
  | Done v _ => v
  | _ => false
  end.

(** The answer of the second loop of [is_king_in_check] on a board whose
    opposing pieces need no probe. *)
Definition threatened (c : Color) (kp : Pos) (g : Grid) : bool :=
  existsb (fun sq =>
             match get_piece g sq with
             | Some q => color_eqb (color q) (opponent c) && threat q kp g
             | None => false
             end) squares.

(** A square is attacked, for the side [c], when an opposing piece on the
    board accepts it as a destination. *)
Definition attacked (fuel : nat) (c : Color) (sq : Pos) (g : Grid) : Prop :=
  exists x y q g',
    cell g x y = Some q /\ color q = opponent c /\
    is_valid_move fuel q sq g = Done true g'.

(** The board on which the castling loop runs the check test for file [y]:
    the king taken from its square and put on [(start_x, y)]. *)
Definition probe_board (g : Grid) (self : Piece) (y : Z) : Grid :=
  let '(start_x, start_y) := position self in
  set_cell (set_cell g start_x start_y None) start_x y (Some self).

(** ** Boards used in the examples *)

Definition put (p : Piece) (g : Grid) : Grid :=
  set_cell g (fst (position p)) (snd (position p)) (Some p).

Definition grid_of (ps : list Piece) : Grid := fold_right put empty_grid ps.

(** A white pawn on e2 shields its king from a rook on e8 and can take a
    pawn on d3. *)
Definition pinned_pawn : Grid :=
  grid_of [ mkPiece King White (7, 4) false false;
            mkPiece Pawn White (6, 4) false false;
            mkPiece Rook Black (0, 4) true false;
            mkPiece Pawn Black (5, 3) true false;
            mkPiece King Black (0, 0) true false ].

(** The white king is in check from a rook on e8; the pawn on a2 has not
    moved. *)
Definition king_in_check : Grid :=
  grid_of [ mkPiece King White (7, 4) false false;
            mkPiece Pawn White (6, 0) false false;
            mkPiece Rook Black (0, 4) true false;
            mkPiece King Black (0, 7) true false ].

(** White has just played b2-b4 with check; the black king on a5 has no
    square, and the pawn on a4 can take b4 en passant. *)
Definition en_passant_escape : Grid :=
  grid_of [ mkPiece King Black (3, 0) true false;
            mkPiece Pawn Black (4, 0) true false;
            mkPiece Pawn White (4, 1) true true;
            mkPiece Rook White (2, 7) true false;
            mkPiece Rook White (7, 1) true false;
            mkPiece Bishop White (5, 3) true false;
            mkPiece King White (7, 7) true false ].

(** What the check test answers on the probe board for file [y]. *)
Definition probe_check (g : Grid) (self : Piece) (y : Z) : bool :=
  let gy := probe_board g self y in
  match find_king (color self) gy with
  | Some kp => threatened (color self) kp gy
  | None => false
  end.

(** The object [piece] after the two en-passant blocks of [move_piece]. *)
Definition flagged (piece : Piece) (start_pos end_pos : Pos) (c : Color)
  : Piece :=
  let piece := clear_flag c piece in
  if kind_eqb (kind piece) Pawn
     && (Z.abs (fst end_pos - fst start_pos) =? 2)
  then set_en_passant true piece else piece.

(** The board before the placement: the en-passant capture, the cleared
    flags, the flag of a double advance and the castling rook, as the
    source writes them. *)
Definition prepared_board (g : Grid) (piece : Piece) (start_pos end_pos : Pos)
    (c : Color) : Grid :=
  let '(start_x, start_y) := start_pos in
  let '(end_x, end_y) := end_pos in
  let g :=
    if kind_eqb (kind piece) Pawn && (Z.abs (end_y - start_y) =? 1)
       && is_empty g end_pos
    then set_cell g start_x end_y None else g in
  let g := clear_en_passant c g in
  let double := kind_eqb (kind (clear_flag c piece)) Pawn
                && (Z.abs (end_x - start_x) =? 2) in
  let piece := flagged piece start_pos end_pos c in
  let g := if double then set_cell g start_x start_y (Some piece) else g in
  if kind_eqb (kind piece) King && (Z.abs (end_y - start_y) =? 2) then
    let direction := if end_y >? start_y then 1 else -1 in
    let rook_y := if direction =? 1 then 7 else 0 in
    match get_piece g (start_x, rook_y) with
    | Some r =>
        if kind_eqb (kind r) Rook then
          set_cell (set_cell g start_x rook_y None)
                   start_x (start_y + direction)
                   (Some (move r (start_x, start_y + direction)))
        else g
    | None => g
    end
  else g.

(** The board on which [move_piece] runs its check test. *)
Definition tentative_board (g : Grid) (piece : Piece) (start_pos end_pos : Pos)
    (c : Color) : Grid :=
  set_cell
    (set_cell (prepared_board g piece start_pos end_pos c)
              (fst end_pos) (snd end_pos)
              (Some (move (flagged piece start_pos end_pos c) end_pos)))
    (fst start_pos) (snd start_pos) None.

(** The piece object as [move_piece] leaves it on a completed move. *)
Definition moved_piece (piece : Piece) (start_pos end_pos : Pos) (c : Color)
  : Piece :=
  set_has_moved (move (flagged piece start_pos end_pos c) end_pos).

(** The board of a completed move. *)
Definition final_board (g : Grid) (piece : Piece) (start_pos end_pos : Pos)
    (c : Color) : Grid :=
  let g5 := tentative_board g piece start_pos end_pos c in
  if pos_eqb end_pos start_pos then g5
  else set_cell g5 (fst end_pos) (snd end_pos)
                (Some (moved_piece piece start_pos end_pos c)).

(** The position after 1. e2-e4 e7-e5, played through [move_piece]. *)
Definition play (fuel : nat) (start_pos end_pos : Pos) (c : Color)
    (s : ChessBoard) : ChessBoard :=
  match move_piece fuel start_pos end_pos c s with
  | Done _ s' => s'
  | _ => s
  end.

Definition after_e4_e5 : ChessBoard :=
  play 1 (1, 4) (3, 4) Black (play 1 (6, 4) (4, 4) White new_board).

(** White may not castle short: the rook on f8 attacks f1. *)
Definition castle_through_check : Grid :=
  grid_of [ mkPiece King White (7, 4) false false;
            mkPiece Rook White (7, 7) false false;
            mkPiece Rook Black (0, 5) true false;
            mkPiece King Black (0, 0) true false ].

(** A black pawn on d4 next to the e-file; the white e-pawn has not moved. *)
Definition before_double_advance : Grid :=
  grid_of [ mkPiece King White (7, 4) false false;
            mkPiece Pawn White (6, 4) false false;
            mkPiece Pawn Black (4, 3) true false;
            mkPiece King Black (0, 4) false false ].

(** Two boards that agree on every cell up to the en-passant flags. *)
Definition same_modulo_flags (g g' : Grid) : Prop :=
  forall x y,
    option_map (set_en_passant false) (cell g' x y)
    = option_map (set_en_passant false) (cell g x y).

(** ** Plies

    The event loop lets the side to move try moves until [move_piece]
    completes one, replaces a pawn that has reached row 0 or row 7 by the
    chosen piece, and passes the turn. *)

Definition promote (k : Kind) (c : Color) (sq : Pos) (s : ChessBoard)
  : ChessBoard :=
  mkBoard (set_cell (board s) (fst sq) (snd sq) (Some (new_piece k c sq)))
          (last_state s).

(** The attempts of the side to move that [move_piece] answers with
    [False]; the turn does not pass. *)
Inductive rejected_attempts (n : nat) (c : Color)
  : ChessBoard -> ChessBoard -> Prop :=
| no_attempt s : rejected_attempts n c s s
| one_more_attempt s s1 s2 start_pos end_pos :
    on_board (fst end_pos) (snd end_pos) = true ->
    move_piece (S n) start_pos end_pos c s = Done false s1 ->
    rejected_attempts n c s1 s2 ->
    rejected_attempts n c s s2.

Inductive ply (n : nat) (c : Color) (s : ChessBoard) : ChessBoard -> Prop :=
| ply_move s0 start_pos end_pos s' :
    rejected_attempts n c s s0 ->
    on_board (fst end_pos) (snd end_pos) = true ->
    move_piece (S n) start_pos end_pos c s0 = Done true s' ->
    ply n c s s'
| ply_promotion s0 start_pos end_pos s' k :
    rejected_attempts n c s s0 ->
    on_board (fst end_pos) (snd end_pos) = true ->
    move_piece (S n) start_pos end_pos c s0 = Done true s' ->
    isinstance (get_piece (board s') end_pos) Pawn = true ->
    fst end_pos = 0 \/ fst end_pos = 7 ->
    k <> Pawn -> k <> King ->
    ply n c s (promote k c end_pos s').

(** [black_to_move n f s2 s]: from [s2], with White to move, the players
    have alternated plies up to [s], where Black is to move; whenever White
    was to move, the square [(4, f)] was occupied. *)
Inductive black_to_move (n : nat) (f : Z) (s2 : ChessBoard)
  : ChessBoard -> Prop :=
| btm_first s3 :
    cell (board s2) 4 f <> None -> ply n White s2 s3 ->
    black_to_move n f s2 s3
| btm_next s sb sw :
    black_to_move n f s2 s -> ply n Black s sb ->
    cell (board sb) 4 f <> None -> ply n White sb sw ->
    black_to_move n f s2 sw.


(** ** Answers of the methods on a board they leave unchanged *)

(** The answer of [piece.is_valid_move(end_position, board)], read off a
    run of the method. *)
Definition accepts (p : Piece) (end_position : Pos) (g : Grid) : bool :=
  match is_valid_move 1 p end_position g with
  | Done v _ => v
  | _ => false
  end.

(** The answer of [is_king_in_check(color)], read off a run of the
    method. *)
Definition in_check (c : Color) (g : Grid) : bool :=
  match is_king_in_check 1 c g with
  | Done v _ => v
  | _ => false
  end.

(** ** The scan of [is_game_over] *)

(** The board on which [is_game_over] runs its check test: the piece is
    taken from its square and put on the destination, nothing else
    changes. *)
Definition trial_board (g : Grid) (piece : Piece) (start_pos end_pos : Pos)
  : Grid :=
  set_cell (set_cell g (fst start_pos) (snd start_pos) None)
           (fst end_pos) (snd end_pos) (Some (move piece end_pos)).

(** The test of the innermost loop of [is_game_over] for the piece on
    [start_pos] and the destination [end_pos]. *)
Definition escape (c : Color) (g : Grid) (start_pos end_pos : Pos) : bool :=
  match get_piece g start_pos with
  | Some p =>
      color_eqb (color p) c
      && accepts p end_pos g
      && negb (isinstance (get_piece g end_pos) King)
      && negb (in_check c (trial_board g p start_pos end_pos))
  | None => false
  end.

Definition has_escape (c : Color) (g : Grid) : bool :=
  existsb (fun start_pos => existsb (escape c g start_pos) squares) squares.

(** What [is_game_over] answers. *)
Definition game_status (c : Color) (g : Grid) : GameStatus :=
  if has_escape c g then NotOver
  else if in_check c g then Checkmate else Stalemate.

(** ** Outcomes of a computation *)

(** A computation that, from any state, returns a value satisfying [P] or
    raises an exception satisfying [E]; it does not exhaust its budget. *)
Definition ends_with {S A} (E : exn -> Prop) (P : A -> Prop) (c : M S A)
  : Prop :=
  forall s, match c s with
            | Done a _ => P a
            | Raised e _ => E e
            | OutOfFuel => False
            end.

(** ** The states of the event loop *)

(** The state after a click, when the click is handled without an
    exception. *)
Definition click (fuel : nat) (mouse_x mouse_y : Z) (gm : Game) : Game :=
  match handle_click fuel mouse_x mouse_y gm with
  | Done _ gm' => gm'
  | _ => gm
  end.

(** The states of the event loop: the state at the start of [main], and
    what a click or the game-over test at the end of a frame makes of a
    reached state when no exception ends the program. *)
Inductive reachable (fuel : nat) : Game -> Prop :=
| reach_start : reachable fuel new_game
| reach_click gm mouse_x mouse_y gm' :
    reachable fuel gm ->
    handle_click fuel mouse_x mouse_y gm = Done tt gm' ->
    reachable fuel gm'
| reach_frame_end gm gm' :
    reachable fuel gm ->
    end_of_frame fuel gm = Done tt gm' ->
    reachable fuel gm'.

Definition board_ok (g : Grid) : Prop := wf g /\ one_king g.

(** The board and the snapshot are well formed with at most one king of a
    colour, and a pending promotion names a square of the board. *)
Definition game_ok (gm : Game) : Prop :=
  board_ok (board (chess gm))
  /\ (forall g, last_state (chess gm) = Some g -> board_ok g)
  /\ (forall sq, promoting_pawn gm = Some sq ->
                 on_board (fst sq) (snd sq) = true).

(** ** Lines of squares *)

(** The squares strictly between two coordinates of a line. *)
Definition between (a b i : Z) : Prop := a < i < b \/ b < i < a.

(** ** Rectangles and image keys of the drawing functions *)

(** The rectangle in which [draw_board] paints the square [(row, col)]:
    its left and top edge; the sides are [CELLSIZE]. *)
Definition square_rect (row col : Z) : Z * Z :=
  (col * CELLSIZE + 300, row * CELLSIZE + 100).

(** The colour attribute as the source stores it. *)
Definition color_str (c : Color) : string :=
  match c with White => "w" | Black => "b" end.

(** [get_image_key] of the six subclasses: [f'{self.color}p'] and so on. *)
Definition get_image_key (p : Piece) : string :=
  String.append (color_str (color p))
    match kind p with
    | Pawn => "p" | Rook => "r" | Knight => "n"
    | Bishop => "b" | Queen => "q" | King => "k"
    end.

(** The names under which [load_images] stores an image in
    [PIECE_IMAGES]. *)
Definition pieces : list string :=
  ["wp"; "wr"; "wn"; "wb"; "wq"; "wk"; "bp"; "br"; "bn"; "bb"; "bq"; "bk"].

(** [promotion_pieces] of [draw_promotion_choices] and of [main]. *)
Definition promotion_pieces : list string := ["q"; "r"; "n"; "b"].

(** The key [draw_promotion_choices] looks up: [f'{color}{piece}']. *)
Definition promotion_key (c : Color) (piece : string) : string :=
  String.append (color_str c) piece.

(** The class [main] instantiates for a letter of the menu. *)
Definition promoted_kind (piece : string) : option Kind :=
  if String.eqb piece "n" then Some Knight
  else if String.eqb piece "b" then Some Bishop
  else if String.eqb piece "r" then Some Rook
  else if String.eqb piece "q" then Some Queen
  else None.

(** ** Further boards used in the examples *)

(** White may castle short. *)
Definition castle_ready : Grid :=
  grid_of [ mkPiece King White (7, 4) false false;
            mkPiece Rook White (7, 7) false false;
            mkPiece King Black (0, 0) true false ].

(** A black rook that has not moved stands on White's king-side corner. *)
Definition opposing_rook_corner : Grid :=
  grid_of [ mkPiece King White (7, 4) false false;
            mkPiece Rook Black (7, 7) false false;
            mkPiece King Black (0, 0) true false ].

(** A black pawn on d4 beside a white pawn on e4 that carries the
    en-passant flag; a black knight stands on e3. *)
Definition pawn_beside_flagged : Grid :=
  grid_of [ mkPiece King White (7, 4) false false;
            mkPiece Pawn White (4, 4) true true;
            mkPiece Pawn Black (4, 3) true false;
            mkPiece Knight Black (5, 4) true false;
            mkPiece King Black (0, 4) false false ].

(** A white pawn has reached a8. *)
Definition pawn_on_last_row : Grid :=
  grid_of [ mkPiece King White (7, 4) false false;
            mkPiece Pawn White (0, 0) true false;
            mkPiece King Black (2, 7) true false ].

(** ** The conditions under which a rook, bishop, queen or knight moves *)






(** * Properties *)

(** ** The grid *)

Lemma on_board_iff x y : on_board x y = true <-> 0 <= x < 8 /\ 0 <= y < 8.
Proof. unfold on_board. rewrite !andb_true_iff, !Z.leb_le, !Z.ltb_lt. lia. Qed.

Lemma cell_Some_on_board g x y p : cell g x y = Some p -> on_board x y = true.
Proof. unfold cell. destruct (on_board x y); congruence. Qed.

Lemma cell_off_board g x y : on_board x y = false -> cell g x y = None.
Proof. unfold cell. now intros ->. Qed.

Lemma shape_row g x :
  shape g -> 0 <= x < 8 ->
  exists row, g !! Z.to_nat x = Some row /\ length row = 8%nat.
Proof.
  intros [Hl Hr] Hx.
  destruct (lookup_lt_is_Some_2 g (Z.to_nat x)) as [row Hrow]; [lia|].
  exists row. split; [exact Hrow|].
  rewrite Forall_lookup in Hr. exact (Hr _ _ Hrow).
Qed.

Lemma shape_set_cell g x y v : shape g -> shape (set_cell g x y v).
Proof.
  intros [Hl Hr]. unfold set_cell.
  destruct (on_board x y); [|now split].
  destruct (g !! Z.to_nat x) as [row|] eqn:Hrow; [|now split].
  split.
  - now rewrite length_insert.
  - apply Forall_insert; [exact Hr|].
    cbv beta. rewrite length_insert.
    rewrite Forall_lookup in Hr. exact (Hr _ _ Hrow).
Qed.

Lemma cell_set_cell g x y v x' y' :
  shape g ->
  cell (set_cell g x y v) x' y'
  = if on_board x y && (x =? x') && (y =? y') then v else cell g x' y'.
Proof.
  intros Hs. unfold set_cell.
  destruct (on_board x y) eqn:Hxy; [|reflexivity].
  apply on_board_iff in Hxy.
  destruct (shape_row g x Hs) as [row [Hrow Hlen]]; [lia|].
  rewrite Hrow. cbn [andb]. unfold cell.
  destruct (on_board x' y') eqn:Hxy'.
  - apply on_board_iff in Hxy'.
    destruct (Z.eqb_spec x x') as [->|Hx]; cbn [andb].
    + rewrite list_lookup_insert_eq
        by (destruct Hs as [Hl _]; rewrite Hl; lia).
      rewrite Hrow.
      destruct (Z.eqb_spec y y') as [->|Hy].
      * rewrite list_lookup_insert_eq by (rewrite Hlen; lia). reflexivity.
      * rewrite list_lookup_insert_ne by lia. reflexivity.
    + rewrite list_lookup_insert_ne by lia. reflexivity.
  - destruct (Z.eqb_spec x x') as [->|Hx]; cbn [andb]; [|reflexivity].
    destruct (Z.eqb_spec y y') as [->|Hy]; [|reflexivity].
    apply on_board_iff in Hxy. congruence.
Qed.

Lemma cell_set_cell_eq g x y v :
  shape g -> on_board x y = true -> cell (set_cell g x y v) x y = v.
Proof.
  intros Hs Hb. rewrite cell_set_cell by exact Hs.
  now rewrite Hb, !Z.eqb_refl.
Qed.

Lemma cell_set_cell_ne g x y v x' y' :
  (x, y) <> (x', y') -> cell (set_cell g x y v) x' y' = cell g x' y'.
Proof.
  intros Hne. unfold set_cell.
  destruct (on_board x y) eqn:Hxy; [|reflexivity].
  destruct (g !! Z.to_nat x) as [row|] eqn:Hrow; [|reflexivity].
  unfold cell. destruct (on_board x' y') eqn:Hxy'; [|reflexivity].
  apply on_board_iff in Hxy, Hxy'.
  destruct (Z.eq_dec x x') as [->|Hx].
  - destruct (lt_dec (Z.to_nat x') (length g)) as [Hlt|Hge].
    + rewrite list_lookup_insert_eq by exact Hlt. rewrite Hrow.
      rewrite list_lookup_insert_ne; [reflexivity|].
      intros E. apply Hne. f_equal. lia.
    + apply lookup_lt_Some in Hrow. contradiction.
  - rewrite list_lookup_insert_ne by lia. reflexivity.
Qed.

Lemma grid_ext g g' :
  shape g -> shape g' ->
  (forall x y, on_board x y = true -> cell g x y = cell g' x y) ->
  g = g'.
Proof.
  intros [Hl Hr] [Hl' Hr'] H.
  apply list_eq. intros i.
  destruct (lt_dec i 8) as [Hi|Hi].
  2:{ rewrite !(proj2 (lookup_ge_None _ _)) by lia. reflexivity. }
  destruct (lookup_lt_is_Some_2 g i) as [row Hrow]; [lia|].
  destruct (lookup_lt_is_Some_2 g' i) as [row' Hrow']; [lia|].
  rewrite Hrow, Hrow'. f_equal.
  rewrite Forall_lookup in Hr, Hr'.
  pose proof (Hr _ _ Hrow) as Hlen. pose proof (Hr' _ _ Hrow') as Hlen'.
  apply list_eq. intros j.
  destruct (lt_dec j 8) as [Hj|Hj].
  2:{ rewrite !(proj2 (lookup_ge_None _ _)) by lia. reflexivity. }
  destruct (lookup_lt_is_Some_2 row j) as [c Hc]; [lia|].
  destruct (lookup_lt_is_Some_2 row' j) as [c' Hc']; [lia|].
  rewrite Hc, Hc'. f_equal.
  specialize (H (Z.of_nat i) (Z.of_nat j)).
  unfold cell in H.
  rewrite (proj2 (on_board_iff _ _)) in H by lia.
  rewrite !Nat2Z.id, Hrow, Hrow', Hc, Hc' in H. now apply H.
Qed.

Lemma cell_clear_en_passant c g x y :
  cell (clear_en_passant c g) x y = fmap (clear_flag c) (cell g x y).
Proof.
  unfold cell, clear_en_passant.
  destruct (on_board x y); [|reflexivity].
  rewrite list_lookup_fmap.
  destruct (g !! Z.to_nat x) as [row|]; [|reflexivity]. cbn.
  rewrite list_lookup_fmap.
  destruct (row !! Z.to_nat y) as [o|]; reflexivity.
Qed.

Lemma shape_clear_en_passant c g : shape g -> shape (clear_en_passant c g).
Proof.
  intros [Hl Hr]. unfold clear_en_passant. split.
  - now rewrite length_fmap.
  - apply Forall_fmap. eapply Forall_impl; [exact Hr|].
    intros row Hrow. cbn. now rewrite length_fmap.
Qed.

Lemma wrap_on_board x : 0 <= x < 8 -> wrap x = Some x.
Proof.
  intros H. unfold wrap.
  now rewrite (proj2 (Z.leb_le _ _)), (proj2 (Z.ltb_lt _ _)) by lia.
Qed.

Lemma write_on_board x y v g :
  on_board x y = true -> write x y v g = Done tt (set_cell g x y v).
Proof.
  intros H. apply on_board_iff in H. unfold write, store.
  now rewrite !wrap_on_board by lia.
Qed.

Lemma read_on_board x y g :
  on_board x y = true -> read x y g = Done (cell g x y) g.
Proof.
  intros H. apply on_board_iff in H. unfold read, index.
  now rewrite !wrap_on_board by lia.
Qed.

Lemma in_squares x y : In (x, y) squares <-> on_board x y = true.
Proof.
  rewrite on_board_iff. split.
  - intros H. vm_compute in H.
    repeat (destruct H as [H|H]; [inversion H; lia|]). contradiction.
  - intros [Hx Hy].
    assert (x = 0 \/ x = 1 \/ x = 2 \/ x = 3 \/ x = 4 \/ x = 5 \/ x = 6 \/ x = 7)
      as Hx' by lia.
    assert (y = 0 \/ y = 1 \/ y = 2 \/ y = 3 \/ y = 4 \/ y = 5 \/ y = 6 \/ y = 7)
      as Hy' by lia.
    clear Hx Hy.
    repeat (destruct Hx' as [->|Hx']); try subst x;
      repeat (destruct Hy' as [->|Hy']); try subst y;
      vm_compute; tauto.
Qed.

(** ** The invariants and their test *)

Lemma pos_eqb_eq a b : pos_eqb a b = true <-> a = b.
Proof.
  destruct a as [a1 a2], b as [b1 b2]. unfold pos_eqb. cbn [fst snd].
  rewrite andb_true_iff, !Z.eqb_eq. split.
  - intros [-> ->]. reflexivity.
  - intros E. inversion E. split; reflexivity.
Qed.

Lemma color_eqb_eq a b : color_eqb a b = true <-> a = b.
Proof. destruct a, b; cbn; split; congruence. Qed.

Lemma kind_eqb_eq a b : kind_eqb a b = true <-> a = b.
Proof. destruct a, b; cbn; split; congruence. Qed.

Lemma color_eqb_refl c : color_eqb c c = true.
Proof. now destruct c. Qed.

Lemma color_eqb_opponent c : color_eqb c (opponent c) = false.
Proof. now destruct c. Qed.

Lemma opponent_neq c : opponent c <> c.
Proof. now destruct c. Qed.

Lemma shapeb_shape g : shapeb g = true -> shape g.
Proof.
  unfold shapeb, shape. rewrite andb_true_iff, Nat.eqb_eq.
  intros [Hl Hr]. split; [exact Hl|]. clear Hl.
  induction g as [|row g IH]; [constructor|].
  cbn in Hr. apply andb_true_iff in Hr as [H1 H2].
  constructor; [now apply Nat.eqb_eq|now apply IH].
Qed.

Lemma wfb_wf g : wfb g = true -> wf g.
Proof.
  unfold wfb. rewrite !andb_true_iff. intros [Hs Hp].
  rewrite forallb_forall in Hp.
  split.
  - now apply shapeb_shape.
  - intros c x y p Hc _.
    pose proof (cell_Some_on_board _ _ _ _ Hc) as Hb.
    specialize (Hp (x, y) (proj2 (in_squares x y) Hb)).
    cbn [get_piece] in Hp. rewrite Hc in Hp. cbn [piece_okb snd] in Hp.
    apply andb_true_iff in Hp as [H1 H2].
    apply pos_eqb_eq in H1. split; [exact H1|].
    intros HK Hm. rewrite Hm in H2.
    apply (proj2 (kind_eqb_eq _ _)) in HK. rewrite HK in H2. cbn in H2.
    now apply Z.eqb_eq.
Qed.

Lemma one_kingb_one_king g : one_kingb g = true -> one_king g.
Proof.
  intros Hk x y p x' y' p' Hc Hc' HK HK' Hcol.
  unfold one_kingb in Hk. rewrite forallb_forall in Hk.
  pose proof (cell_Some_on_board _ _ _ _ Hc) as Hb.
  pose proof (cell_Some_on_board _ _ _ _ Hc') as Hb'.
  specialize (Hk (x, y) (proj2 (in_squares x y) Hb)).
  rewrite forallb_forall in Hk.
  specialize (Hk (x', y') (proj2 (in_squares x' y') Hb')).
  cbn [get_piece] in Hk. rewrite Hc, Hc' in Hk.
  apply (proj2 (kind_eqb_eq _ _)) in HK, HK'.
  apply (proj2 (color_eqb_eq _ _)) in Hcol.
  rewrite HK, HK', Hcol in Hk. cbn in Hk.
  now apply pos_eqb_eq.
Qed.

Lemma side_ok_set_cell c g x y v :
  shape g -> side_ok c g ->
  (forall p, v = Some p -> color p = c ->
     position p = (x, y) /\ (kind p = King -> has_moved p = false -> y = 4)) ->
  side_ok c (set_cell g x y v).
Proof.
  intros Hs Hok Hv x' y' p Hc Hcol.
  rewrite cell_set_cell in Hc by exact Hs.
  destruct (on_board x y && (x =? x') && (y =? y')) eqn:E.
  - apply andb_true_iff in E as [E Ey]. apply andb_true_iff in E as [_ Ex].
    apply Z.eqb_eq in Ex, Ey. subst x' y'. now apply Hv.
  - now apply Hok.
Qed.

Lemma side_ok_clear c c' g : side_ok c g -> side_ok c (clear_en_passant c' g).
Proof.
  intros Hok x y p Hc Hcol.
  rewrite cell_clear_en_passant in Hc.
  destruct (cell g x y) as [q|] eqn:Hq; [|discriminate].
  cbn in Hc. injection Hc as <-.
  unfold clear_flag in *.
  destruct (kind_eqb (kind q) Pawn && color_eqb (color q) c');
    cbn in *; now apply (Hok x y q).
Qed.

(** ** The check test needs no probe of its own *)

Lemma King_no_probe q kp g x y :
  cell g x y = Some q -> position q = (x, y) ->
  (has_moved q = false -> y = 4) ->
  get_piece g kp <> None ->
  exists v, forall check, King_is_valid_move check q kp g = Done v g.
Proof.
  intros Hq Hpos Hhome Hkp. destruct kp as [ex ey].
  unfold King_is_valid_move. rewrite Hpos.
  destruct ((Z.abs (ex - x) <=? 1) && (Z.abs (ey - y) <=? 1)); [eauto|].
  destruct (negb (has_moved q) && (x =? ex) && (Z.abs (ey - y) =? 2)) eqn:E;
    [|eauto].
  apply andb_true_iff in E as [E E3]. apply andb_true_iff in E as [E1 E2].
  apply negb_true_iff in E1. apply Z.eqb_eq in E2, E3.
  specialize (Hhome E1). subst y ex.
  assert (ey = 6 \/ ey = 2) as [-> | ->] by lia.
  - change (6 >? 4) with true. cbv iota. change (1 =? 1) with true. cbv iota.
    destruct (isinstance _ Rook && _); [|eauto].
    change (py_range (4 + 1) 7 1) with [5; 6]. cbn [forallb].
    unfold is_empty at 2. destruct (get_piece g (x, 6)); [|contradiction].
    rewrite andb_false_r. eauto.
  - change (2 >? 4) with false. cbv iota. change (-1 =? 1) with false. cbv iota.
    destruct (isinstance _ Rook && _); [|eauto].
    change (py_range (4 + -1) 0 (-1)) with [3; 2; 1]. cbn [forallb].
    unfold is_empty at 2. destruct (get_piece g (x, 2)); [|contradiction].
    cbn [andb]. rewrite andb_false_r. eauto.
Qed.

Lemma threat_pure check q kp g x y :
  cell g x y = Some q -> position q = (x, y) ->
  (kind q = King -> has_moved q = false -> y = 4) ->
  get_piece g kp <> None ->
  is_valid_move_with check q kp g = Done (threat q kp g) g.
Proof.
  intros Hq Hpos Hhome Hkp. unfold threat, is_valid_move_with.
  destruct (kind q) eqn:K; try reflexivity.
  destruct (King_no_probe q kp g x y Hq Hpos (Hhome eq_refl) Hkp) as [v Hv].
  now rewrite !Hv.
Qed.

Lemma attack_scan_pure valid opp kp g sqs :
  (forall sq q, In sq sqs -> get_piece g sq = Some q -> color q = opp ->
     valid q kp g = Done (threat q kp g) g) ->
  attack_scan valid opp kp sqs g
  = Done (existsb (fun sq =>
                     match get_piece g sq with
                     | Some q => color_eqb (color q) opp && threat q kp g
                     | None => false
                     end) sqs) g.
Proof.
  induction sqs as [|sq rest IH]; intros H; [reflexivity|].
  cbn [attack_scan existsb]. unfold bind at 1, gets at 1.
  destruct (get_piece g sq) as [q|] eqn:Hq.
  - destruct (color_eqb (color q) opp) eqn:Hc; cbn [andb orb].
    + unfold bind. rewrite (H sq q); [|now left|exact Hq|now apply color_eqb_eq].
      destruct (threat q kp g); [reflexivity|].
      cbn [orb]. apply IH. intros sq' q' Hin. apply H. now right.
    + apply IH. intros sq' q' Hin. apply H. now right.
  - cbn [orb]. apply IH. intros sq' q' Hin. apply H. now right.
Qed.

Lemma find_king_Some c g kp :
  find_king c g = Some kp -> get_piece g kp <> None.
Proof.
  unfold find_king. intros H. apply find_some in H as [_ H].
  destruct (get_piece g kp); [congruence|discriminate].
Qed.

Lemma find_king_exists c g x y k :
  cell g x y = Some k -> kind k = King -> color k = c ->
  exists kp, find_king c g = Some kp.
Proof.
  intros Hc HK Hcol. unfold find_king.
  destruct (find _ squares) as [kp|] eqn:E; [eauto|].
  pose proof (find_none _ _ E (x, y)) as H.
  cbn [get_piece] in H. rewrite Hc in H. cbn [is_king_of] in H.
  rewrite HK, Hcol, color_eqb_refl in H. cbn in H.
  specialize (H (proj2 (in_squares x y) (cell_Some_on_board _ _ _ _ Hc))).
  discriminate.
Qed.

Lemma is_king_in_check_pure n c g kp :
  side_ok (opponent c) g -> find_king c g = Some kp ->
  is_king_in_check (S n) c g = Done (threatened c kp g) g.
Proof.
  intros Hok Hk. cbn [is_king_in_check].
  unfold is_king_in_check_with, bind at 1, gets at 1. rewrite Hk.
  unfold threatened. apply attack_scan_pure.
  intros [x y] q _ Hq Hcol. cbn [get_piece] in Hq.
  destruct (Hok x y q Hq Hcol) as [Hpos Hhome].
  apply (threat_pure _ q kp g x y Hq Hpos Hhome).
  now apply (find_king_Some c).
Qed.

Lemma is_king_in_check_no_king n c g :
  find_king c g = None -> is_king_in_check (S n) c g = Raised ValueError g.
Proof.
  intros Hk. cbn [is_king_in_check].
  unfold is_king_in_check_with, bind at 1, gets at 1. now rewrite Hk.
Qed.

(** ** The castling probes put everything back *)

Lemma probe_pure n K sx sy y g :
  shape g -> cell g sx sy = Some K -> kind K = King ->
  position K = (sx, sy) ->
  on_board sx y = true -> (y = sy \/ cell g sx y = None) ->
  side_ok (opponent (color K)) g ->
  probe (is_king_in_check (S n)) K sx sy y g = Done (probe_check g K y) g.
Proof.
  intros Hs HK Hkind Hpos Hy Hfree Hok.
  pose proof (cell_Some_on_board _ _ _ _ HK) as Hb.
  unfold probe_check, probe_board. rewrite Hpos.
  set (g1 := set_cell g sx sy None).
  set (gy := set_cell g1 sx y (Some K)).
  assert (shape g1) as Hs1 by now apply shape_set_cell.
  assert (shape gy) as Hsy by now apply shape_set_cell.
  assert (side_ok (opponent (color K)) gy) as Hoky.
  { apply side_ok_set_cell; [exact Hs1| |].
    - apply side_ok_set_cell; [exact Hs|exact Hok|discriminate].
    - intros p [= <-] Hc. now destruct (opponent_neq (color K)). }
  destruct (find_king_exists (color K) gy sx y K) as [kp Hkp];
    [now apply cell_set_cell_eq|exact Hkind|reflexivity|].
  cbv zeta. rewrite Hkp.
  unfold probe, bind.
  rewrite (write_on_board sx sy None g Hb). fold g1.
  rewrite (write_on_board sx y (Some K) g1 Hy). fold gy.
  rewrite (is_king_in_check_pure n (color K) gy kp Hoky Hkp).
  rewrite (write_on_board sx y None gy Hy).
  rewrite (write_on_board sx sy (Some K) _ Hb).
  unfold ret. f_equal.
  apply grid_ext; [now repeat apply shape_set_cell|exact Hs|].
  intros x' y' Hb'. subst gy g1.
  rewrite !cell_set_cell by (repeat apply shape_set_cell; exact Hs).
  rewrite Hb, Hy. cbn [andb].
  destruct (Z.eqb_spec sx x') as [<-|Hx]; cbn [andb]; [|reflexivity].
  destruct (Z.eqb_spec sy y') as [<-|Hy']; [now rewrite HK|].
  destruct (Z.eqb_spec y y') as [<-|Hy'']; [|reflexivity].
  destruct Hfree as [->|Hfree]; [contradiction|now rewrite Hfree].
Qed.

Lemma probe_path_pure n K sx sy rook_y g ys :
  shape g -> cell g sx sy = Some K -> kind K = King ->
  position K = (sx, sy) -> side_ok (opponent (color K)) g ->
  (forall y, In y ys ->
     y <> rook_y /\ on_board sx y = true /\ (y = sy \/ cell g sx y = None)) ->
  probe_path (is_king_in_check (S n)) K sx sy rook_y ys g
  = Done (forallb (fun y => negb (probe_check g K y)) ys) g.
Proof.
  intros Hs HK Hkind Hpos Hok.
  induction ys as [|y ys IH]; intros Hys; [reflexivity|].
  destruct (Hys y (or_introl eq_refl)) as [Hne [Hon Hfree]].
  cbn [probe_path forallb].
  rewrite (proj2 (Z.eqb_neq y rook_y) Hne). cbn [negb]. unfold bind.
  rewrite (probe_pure n K sx sy y g Hs HK Hkind Hpos Hon Hfree Hok).
  destruct (probe_check g K y); [reflexivity|]. cbn [negb andb].
  apply IH. intros y' Hin. apply Hys. now right.
Qed.

(** The castling branch of [King.is_valid_move] for a king on file 4 that
    has not moved: rook test, corridor, probes. *)
Lemma King_castle_eq n K sx ey g :
  shape g -> cell g sx 4 = Some K -> kind K = King ->
  position K = (sx, 4) -> side_ok (opponent (color K)) g ->
  has_moved K = false -> Z.abs (ey - 4) = 2 ->
  let direction := if ey >? 4 then 1 else -1 in
  let rook_y := if direction =? 1 then 7 else 0 in
  let rook := cell g sx rook_y in
  King_is_valid_move (is_king_in_check (S n)) K (sx, ey) g
  = Done (isinstance rook Rook
          && negb match rook with Some r => has_moved r | None => false end
          && forallb (fun y => is_empty g (sx, y))
                     (py_range (4 + direction) rook_y direction)
          && forallb (fun y => negb (probe_check g K y))
                     (py_range 4 (4 + 3 * direction) direction)) g.
Proof.
  intros Hs HK Hkind Hpos Hopp Hm Habs.
  pose proof (cell_Some_on_board _ _ _ _ HK) as Hb. apply on_board_iff in Hb.
  assert (forall y, 0 <= y < 8 -> on_board sx y = true) as Hon
    by (intros; apply on_board_iff; lia).
  unfold King_is_valid_move. rewrite Hpos, Hm, Z.eqb_refl.
  replace (Z.abs (ey - 4) <=? 1) with false by (symmetry; apply Z.leb_gt; lia).
  rewrite andb_false_r.
  rewrite (proj2 (Z.eqb_eq _ _) Habs). cbn [negb andb get_piece].
  assert (ey = 6 \/ ey = 2) as [-> | ->] by lia.
  - change (6 >? 4) with true. cbv iota zeta.
    change (1 =? 1) with true. cbv iota.
    destruct (isinstance _ Rook && _); [|reflexivity].
    change (py_range (4 + 1) 7 1) with [5; 6].
    change (py_range 4 (4 + 3 * 1) 1) with [4; 5; 6].
    cbn [andb].
    destruct (forallb _ [5; 6]) eqn:Hcor; [|reflexivity].
    cbn [forallb] in Hcor. unfold is_empty in Hcor. cbn [get_piece] in Hcor.
    destruct (cell g sx 5) eqn:H5; [discriminate|].
    destruct (cell g sx 6) eqn:H6; [discriminate|].
    cbn [andb].
    apply (probe_path_pure n K sx 4 7 g [4; 5; 6] Hs HK Hkind Hpos Hopp).
    intros y [<-|[<-|[<-|[]]]]; (split; [lia|split; [apply Hon; lia|auto]]).
  - change (2 >? 4) with false. cbv iota zeta.
    change (-1 =? 1) with false. cbv iota.
    destruct (isinstance _ Rook && _); [|reflexivity].
    change (py_range (4 + -1) 0 (-1)) with [3; 2; 1].
    change (py_range 4 (4 + 3 * -1) (-1)) with [4; 3; 2].
    cbn [andb].
    destruct (forallb _ [3; 2; 1]) eqn:Hcor; [|reflexivity].
    cbn [forallb] in Hcor. unfold is_empty in Hcor. cbn [get_piece] in Hcor.
    destruct (cell g sx 3) eqn:H3; [discriminate|].
    destruct (cell g sx 2) eqn:H2; [discriminate|].
    cbn [andb].
    apply (probe_path_pure n K sx 4 0 g [4; 3; 2] Hs HK Hkind Hpos Hopp).
    intros y [<-|[<-|[<-|[]]]]; (split; [lia|split; [apply Hon; lia|auto]]).
Qed.

Lemma King_is_valid_move_pure K end_position g sx sy :
  shape g -> cell g sx sy = Some K -> kind K = King ->
  side_ok (color K) g -> side_ok (opponent (color K)) g ->
  exists v, forall n,
    King_is_valid_move (is_king_in_check (S n)) K end_position g = Done v g.
Proof.
  intros Hs HK Hkind Hown Hopp.
  destruct (Hown sx sy K HK eq_refl) as [Hpos Hhome].
  specialize (Hhome Hkind).
  destruct end_position as [ex ey].
  destruct (negb (has_moved K) && (sx =? ex) && (Z.abs (ey - sy) =? 2)) eqn:E.
  - apply andb_true_iff in E as [E E3]. apply andb_true_iff in E as [E1 E2].
    apply negb_true_iff in E1. apply Z.eqb_eq in E2, E3.
    specialize (Hhome E1). subst sy ex.
    eexists. intros n.
    apply (King_castle_eq n K sx ey g Hs HK Hkind Hpos Hopp E1 E3).
  - unfold King_is_valid_move. rewrite Hpos, E.
    destruct ((Z.abs (ex - sx) <=? 1) && (Z.abs (ey - sy) <=? 1)); eauto.
Qed.

(** [is_valid_move] of a piece of a well-formed board returns, with the
    board as it found it, and its answer does not depend on the budget. *)
Lemma is_valid_move_pure g x y p end_position :
  wf g -> cell g x y = Some p ->
  exists v, forall n, is_valid_move (S n) p end_position g = Done v g.
Proof.
  intros [Hs Hside] Hp. unfold is_valid_move, is_valid_move_with.
  destruct (kind p) eqn:K; try (eexists; intros n; reflexivity).
  apply (King_is_valid_move_pure p end_position g x y Hs Hp K);
    apply Hside.
Qed.

(** ** What a completed move leaves on the board *)

Lemma kind_clear_flag c p : kind (clear_flag c p) = kind p.
Proof. unfold clear_flag. now destruct (_ && _). Qed.

Lemma color_clear_flag c p : color (clear_flag c p) = color p.
Proof. unfold clear_flag. now destruct (_ && _). Qed.

Lemma position_clear_flag c p : position (clear_flag c p) = position p.
Proof. unfold clear_flag. now destruct (_ && _). Qed.

Lemma has_moved_clear_flag c p : has_moved (clear_flag c p) = has_moved p.
Proof. unfold clear_flag. now destruct (_ && _). Qed.

(** A computation that ends in [return False] does not return [True]. *)
Lemma bind_not_true {S A} (c : M S A) (k : A -> M S bool) :
  (forall a s s', k a s <> Done true s') ->
  forall s s', bind c k s <> Done true s'.
Proof.
  intros Hk s s'. unfold bind. destruct (c s); [apply Hk|discriminate..].
Qed.

Lemma ret_false_not_true {S} (s s' : S) : ret false s <> Done true s'.
Proof. discriminate. Qed.

Lemma shape_prepared g piece start_pos end_pos c :
  shape g -> shape (prepared_board g piece start_pos end_pos c).
Proof.
  intros Hs. destruct start_pos as [sx sy], end_pos as [ex ey].
  unfold prepared_board.
  repeat first
    [ apply shape_set_cell | apply shape_clear_en_passant | exact Hs
    | match goal with |- shape (if ?b then _ else _) => destruct b end
    | match goal with |- shape (match ?o with Some _ => _ | None => _ end) =>
        destruct o end ].
Qed.

Lemma shape_tentative g piece start_pos end_pos c :
  shape g -> shape (tentative_board g piece start_pos end_pos c).
Proof.
  intros Hs. unfold tentative_board.
  now repeat apply shape_set_cell; apply shape_prepared.
Qed.

Lemma shape_final g piece start_pos end_pos c :
  shape g -> shape (final_board g piece start_pos end_pos c).
Proof.
  intros Hs. unfold final_board.
  destruct (pos_eqb end_pos start_pos);
    [|apply shape_set_cell]; now apply shape_tentative.
Qed.

Lemma simulate_move_eq g piece sx sy ex ey c :
  on_board sx sy = true -> on_board ex ey = true ->
  exists l,
    simulate_move piece (sx, sy) (ex, ey) c g
    = Done l (tentative_board g piece (sx, sy) (ex, ey) c)
    /\ same_cell l = pos_eqb (ex, ey) (sx, sy)
    /\ set_has_moved (moved l) = moved_piece piece (sx, sy) (ex, ey) c.
Proof.
  intros Hs He.
  pose proof (proj1 (on_board_iff _ _) Hs) as Hs'.
  pose proof (proj1 (on_board_iff _ _) He) as He'.
  assert (forall x y, 0 <= x < 8 -> 0 <= y < 8 -> on_board x y = true) as Hon
    by (intros; apply on_board_iff; lia).
  unfold simulate_move, tentative_board, prepared_board, moved_piece, flagged.
  unfold bind, gets, modify, ret. cbn [fst snd].
  destruct (kind_eqb (kind piece) Pawn && (Z.abs (ey - sy) =? 1)
            && is_empty g (ex, ey)) eqn:E1.
  - rewrite write_on_board by (apply Hon; lia).
    set (g2 := clear_en_passant c _).
    set (p1 := clear_flag c piece).
    destruct (kind_eqb (kind p1) Pawn && (Z.abs (ex - sx) =? 2)) eqn:E2.
    + set (p2 := set_en_passant true p1).
      assert (kind_eqb (kind p2) King = false) as EK.
      { apply andb_true_iff in E2 as [E2 _]. apply kind_eqb_eq in E2.
        subst p2. cbn. rewrite E2. reflexivity. }
      rewrite EK. cbn [andb].
      rewrite read_on_board by exact He.
      rewrite write_on_board by exact He.
      rewrite write_on_board by exact Hs.
      eexists. split; [reflexivity|]. cbn [same_cell moved].
      rewrite !wrap_on_board by lia. split; reflexivity.
    + assert (kind_eqb (kind p1) King = false) as EK.
      { apply andb_true_iff in E1 as [E1 _]. apply andb_true_iff in E1 as [E1 _].
        apply kind_eqb_eq in E1. subst p1. rewrite kind_clear_flag, E1.
        reflexivity. }
      rewrite EK. cbn [andb].
      rewrite read_on_board by exact He.
      rewrite write_on_board by exact He.
      rewrite write_on_board by exact Hs.
      eexists. split; [reflexivity|]. cbn [same_cell moved].
      rewrite !wrap_on_board by lia. split; reflexivity.
  - set (g2 := clear_en_passant c g).
    set (p1 := clear_flag c piece).
    destruct (kind_eqb (kind p1) Pawn && (Z.abs (ex - sx) =? 2)) eqn:E2.
    + set (p2 := set_en_passant true p1).
      assert (kind_eqb (kind p2) King = false) as EK.
      { apply andb_true_iff in E2 as [E2 _]. apply kind_eqb_eq in E2.
        subst p2. cbn. rewrite E2. reflexivity. }
      rewrite EK. cbn [andb].
      rewrite read_on_board by exact He.
      rewrite write_on_board by exact He.
      rewrite write_on_board by exact Hs.
      eexists. split; [reflexivity|]. cbn [same_cell moved].
      rewrite !wrap_on_board by lia. split; reflexivity.
    + destruct (kind_eqb (kind p1) King && (Z.abs (ey - sy) =? 2)) eqn:E3.
      * apply andb_true_iff in E3 as [_ E3]. apply Z.eqb_eq in E3.
        set (direction := if ey >? sy then 1 else -1) in *.
        set (rook_y := if direction =? 1 then 7 else 0) in *.
        assert (0 <= rook_y < 8) as Hr
          by (subst rook_y; destruct (direction =? 1); lia).
        assert (0 <= sy + direction < 8) as Hd
          by (subst direction; destruct (Z.gtb_spec ey sy); lia).
        destruct (get_piece g2 (sx, rook_y)) as [r|] eqn:Hrook.
        -- destruct (kind_eqb (kind r) Rook) eqn:ER.
           ++ rewrite write_on_board by (apply Hon; lia).
              rewrite write_on_board by (apply Hon; lia).
              rewrite read_on_board by exact He.
              rewrite write_on_board by exact He.
              rewrite write_on_board by exact Hs.
              eexists. split; [reflexivity|]. cbn [same_cell moved].
              rewrite !wrap_on_board by lia. split; reflexivity.
           ++ rewrite read_on_board by exact He.
              rewrite write_on_board by exact He.
              rewrite write_on_board by exact Hs.
              eexists. split; [reflexivity|]. cbn [same_cell moved].
              rewrite !wrap_on_board by lia. split; reflexivity.
        -- rewrite read_on_board by exact He.
           rewrite write_on_board by exact He.
           rewrite write_on_board by exact Hs.
           eexists. split; [reflexivity|]. cbn [same_cell moved].
           rewrite !wrap_on_board by lia. split; reflexivity.
      * rewrite read_on_board by exact He.
        rewrite write_on_board by exact He.
        rewrite write_on_board by exact Hs.
        eexists. split; [reflexivity|]. cbn [same_cell moved].
        rewrite !wrap_on_board by lia. split; reflexivity.
Qed.

Lemma kind_flagged piece s e c : kind (flagged piece s e c) = kind piece.
Proof.
  unfold flagged. destruct (_ && _); cbn; now rewrite kind_clear_flag.
Qed.

Lemma color_flagged piece s e c : color (flagged piece s e c) = color piece.
Proof.
  unfold flagged. destruct (_ && _); cbn; now rewrite color_clear_flag.
Qed.

Lemma position_flagged piece s e c :
  position (flagged piece s e c) = position piece.
Proof.
  unfold flagged. destruct (_ && _); cbn; now rewrite position_clear_flag.
Qed.

Lemma side_ok_prepared c' g piece sx sy ex ey c :
  shape g -> side_ok c' g -> cell g sx sy = Some piece ->
  side_ok c' (prepared_board g piece (sx, sy) (ex, ey) c).
Proof.
  intros Hs Hok Hp. unfold prepared_board.
  set (g1 := if _ && _ && _ then set_cell g sx ey None else g).
  assert (shape g1 /\ side_ok c' g1) as [Hs1 Hok1].
  { subst g1. destruct (_ && _ && _); [|now split].
    split; [now apply shape_set_cell|].
    apply side_ok_set_cell; [exact Hs|exact Hok|discriminate]. }
  set (g2 := clear_en_passant c g1).
  assert (shape g2 /\ side_ok c' g2) as [Hs2 Hok2].
  { split; [now apply shape_clear_en_passant|now apply side_ok_clear]. }
  set (g3 := if _ && _ then set_cell g2 sx sy _ else g2).
  assert (shape g3 /\ side_ok c' g3) as [Hs3 Hok3].
  { subst g3.
    destruct (kind_eqb (kind (clear_flag c piece)) Pawn && _) eqn:E;
      [|now split].
    split; [now apply shape_set_cell|].
    apply side_ok_set_cell; [exact Hs2|exact Hok2|].
    intros p [= <-] Hc. rewrite color_flagged in Hc.
    rewrite position_flagged, kind_flagged.
    destruct (Hok sx sy piece Hp Hc) as [Hpos _]. split; [exact Hpos|].
    intros HK. apply andb_true_iff in E as [E _].
    apply kind_eqb_eq in E. rewrite kind_clear_flag in E. congruence. }
  destruct (kind_eqb (kind (flagged _ _ _ _)) King && _); [|exact Hok3].
  destruct (get_piece g3 _) as [r|]; [|exact Hok3].
  destruct (kind_eqb (kind r) Rook) eqn:ER; [|exact Hok3].
  apply side_ok_set_cell; [now apply shape_set_cell| |].
  - apply side_ok_set_cell; [exact Hs3|exact Hok3|discriminate].
  - intros p [= <-] Hc. cbn. split; [reflexivity|].
    apply kind_eqb_eq in ER. congruence.
Qed.

Lemma side_ok_tentative g piece sx sy ex ey c :
  shape g -> side_ok (opponent c) g -> cell g sx sy = Some piece ->
  color piece = c ->
  side_ok (opponent c) (tentative_board g piece (sx, sy) (ex, ey) c).
Proof.
  intros Hs Hok Hp Hc. unfold tentative_board. cbn [fst snd].
  apply side_ok_set_cell;
    [apply shape_set_cell; now apply shape_prepared| |discriminate].
  apply side_ok_set_cell;
    [now apply shape_prepared|now apply side_ok_prepared|].
  intros p [= <-] Hc'. cbn in Hc'. rewrite color_flagged, Hc in Hc'.
  symmetry in Hc'. now destruct (opponent_neq c).
Qed.

(** [move_piece] after its colour test, on a well-formed board: the
    legality predicate answers [v]; then the check test runs on the
    tentative board. *)
Lemma move_attempt_eq n g piece sx sy ex ey c :
  wf g -> cell g sx sy = Some piece -> color piece = c ->
  on_board ex ey = true ->
  exists v,
    (forall m, is_valid_move (S m) piece (ex, ey) g = Done v g) /\
    move_attempt (S n) piece (sx, sy) (ex, ey) c g
    = if v then
        let g5 := tentative_board g piece (sx, sy) (ex, ey) c in
        match find_king c g5 with
        | None => Raised ValueError g5
        | Some kp =>
            if threatened c kp g5 then
              match simulate_move piece (sx, sy) (ex, ey) c g with
              | Done l _ =>
                  (revert_move l (sx, sy) (ex, ey) ;; ret false) g5
              | _ => OutOfFuel
              end
            else Done true (final_board g piece (sx, sy) (ex, ey) c)
        end
      else Done false g.
Proof.
  intros Hwf Hp Hc He.
  destruct (is_valid_move_pure g sx sy piece (ex, ey) Hwf Hp) as [v Hv].
  exists v. split; [exact Hv|].
  unfold move_attempt. unfold bind at 1. rewrite Hv.
  destruct v; [|reflexivity].
  destruct (simulate_move_eq g piece sx sy ex ey c) as [l [Hl [Hsame Hmoved]]];
    [exact (cell_Some_on_board _ _ _ _ Hp)|exact He|].
  unfold bind at 1. rewrite Hl. cbv zeta.
  set (g5 := tentative_board g piece (sx, sy) (ex, ey) c) in *.
  destruct Hwf as [Hs Hside].
  assert (side_ok (opponent c) g5) as Hok5
    by (apply side_ok_tentative; auto).
  destruct (find_king c g5) as [kp|] eqn:Hk.
  - unfold bind at 1. rewrite (is_king_in_check_pure n c g5 kp Hok5 Hk).
    destruct (threatened c kp g5); [reflexivity|].
    unfold final_board. fold g5. rewrite <- Hsame. cbn [fst snd].
    destruct (same_cell l).
    + reflexivity.
    + unfold bind. rewrite write_on_board by exact He.
      rewrite Hmoved. reflexivity.
  - unfold bind at 1. now rewrite (is_king_in_check_no_king n c g5 Hk).
Qed.

Lemma move_piece_eq fuel s sx sy ex ey c piece :
  cell (board s) sx sy = Some piece -> color piece = c ->
  move_piece fuel (sx, sy) (ex, ey) c s
  = on_grid (move_attempt fuel piece (sx, sy) (ex, ey) c) (save_state s).
Proof.
  intros Hp Hc. unfold move_piece, bind at 1, gets at 1. cbn [get_piece].
  rewrite Hp, Hc, color_eqb_refl. reflexivity.
Qed.

Lemma revert_not_true l start_pos end_pos g g' :
  (revert_move l start_pos end_pos ;; ret false) g <> Done true g'.
Proof. apply bind_not_true. intros _ s s'. discriminate. Qed.

(** A completed move: the piece of the mover on [start_pos] accepted the
    destination, the check test on the tentative board found no check, and
    the board is [final_board]; the snapshot is the board before the call. *)
Lemma move_piece_success n s sx sy ex ey c s' :
  wf (board s) -> on_board ex ey = true ->
  move_piece (S n) (sx, sy) (ex, ey) c s = Done true s' ->
  exists piece,
    cell (board s) sx sy = Some piece /\ color piece = c /\
    (forall m, is_valid_move (S m) piece (ex, ey) (board s)
               = Done true (board s)) /\
    (forall m, is_king_in_check (S m) c
                 (tentative_board (board s) piece (sx, sy) (ex, ey) c)
               = Done false
                   (tentative_board (board s) piece (sx, sy) (ex, ey) c)) /\
    s' = mkBoard (final_board (board s) piece (sx, sy) (ex, ey) c)
                 (Some (board s)).
Proof.
  intros Hwf He H.
  destruct (cell (board s) sx sy) as [piece|] eqn:Hp.
  2:{ unfold move_piece, bind, gets in H. cbn [get_piece] in H.
      rewrite Hp in H. discriminate. }
  destruct (color_eqb (color piece) c) eqn:Hc.
  2:{ unfold move_piece, bind, gets in H. cbn [get_piece] in H.
      rewrite Hp, Hc in H. discriminate. }
  apply color_eqb_eq in Hc.
  rewrite (move_piece_eq _ s sx sy ex ey c piece Hp Hc) in H.
  unfold on_grid in H. cbn [board save_state last_state] in H.
  destruct (move_attempt_eq n (board s) piece sx sy ex ey c Hwf Hp Hc He)
    as [v [Hv Heq]].
  rewrite Heq in H. clear Heq.
  exists piece. split; [reflexivity|]. split; [exact Hc|].
  destruct v; [|discriminate]. split; [exact Hv|].
  cbv zeta in H.
  set (g5 := tentative_board (board s) piece (sx, sy) (ex, ey) c) in *.
  assert (side_ok (opponent c) g5) as Hok5
    by (destruct Hwf; apply side_ok_tentative; auto).
  destruct (find_king c g5) as [kp|] eqn:Hk; [|discriminate].
  destruct (threatened c kp g5) eqn:Ht.
  - exfalso.
    destruct (simulate_move piece (sx, sy) (ex, ey) c (board s));
      try discriminate.
    destruct ((revert_move a (sx, sy) (ex, ey) ;; ret false) g5) eqn:E;
      try discriminate.
    injection H as -> _. now apply revert_not_true in E.
  - split.
    + intros m. rewrite (is_king_in_check_pure m c g5 kp Hok5 Hk).
      now rewrite Ht.
    + injection H as <-. reflexivity.
Qed.

(** An attempt that the legality predicate rejects returns [False] and
    leaves the board as it was. *)
Lemma move_piece_rejected n s sx sy ex ey c piece :
  cell (board s) sx sy = Some piece -> color piece = c ->
  is_valid_move n piece (ex, ey) (board s) = Done false (board s) ->
  move_piece n (sx, sy) (ex, ey) c s = Done false (save_state s).
Proof.
  intros Hp Hc Hv.
  rewrite (move_piece_eq _ s sx sy ex ey c piece Hp Hc).
  unfold on_grid, move_attempt, bind. cbn [board save_state].
  rewrite Hv. reflexivity.
Qed.

Lemma cell_final g piece sx sy ex ey c x y :
  shape g ->
  cell (final_board g piece (sx, sy) (ex, ey) c) x y
  = if on_board ex ey && (ex =? x) && (ey =? y)
       && negb (pos_eqb (ex, ey) (sx, sy))
    then Some (moved_piece piece (sx, sy) (ex, ey) c)
    else if on_board sx sy && (sx =? x) && (sy =? y) then None
    else if on_board ex ey && (ex =? x) && (ey =? y)
    then Some (move (flagged piece (sx, sy) (ex, ey) c) (ex, ey))
    else cell (prepared_board g piece (sx, sy) (ex, ey) c) x y.
Proof.
  intros Hs. unfold final_board, tentative_board. cbn [fst snd].
  destruct (pos_eqb (ex, ey) (sx, sy)) eqn:E.
  - rewrite andb_false_r.
    rewrite !cell_set_cell
      by (repeat apply shape_set_cell; now apply shape_prepared).
    reflexivity.
  - rewrite andb_true_r.
    rewrite !cell_set_cell
      by (repeat apply shape_set_cell; now apply shape_prepared).
    reflexivity.
Qed.

Lemma wf_final g piece sx sy ex ey c :
  wf g -> cell g sx sy = Some piece ->
  wf (final_board g piece (sx, sy) (ex, ey) c).
Proof.
  intros [Hs Hside] Hp. split; [now apply shape_final|].
  intros c' x y p Hc Hcol.
  rewrite cell_final in Hc by exact Hs.
  destruct (on_board ex ey && (ex =? x) && (ey =? y)
            && negb (pos_eqb (ex, ey) (sx, sy))) eqn:E1.
  - injection Hc as <-. cbn.
    apply andb_true_iff in E1 as [E1 _]. apply andb_true_iff in E1 as [E1 Ey].
    apply andb_true_iff in E1 as [_ Ex]. apply Z.eqb_eq in Ex, Ey.
    subst. split; [reflexivity|discriminate].
  - destruct (on_board sx sy && (sx =? x) && (sy =? y)); [discriminate|].
    destruct (on_board ex ey && (ex =? x) && (ey =? y)) eqn:E2.
    + cbn [andb] in E1. apply negb_false_iff, pos_eqb_eq in E1.
      injection E1 as -> ->.
      pose proof (cell_Some_on_board _ _ _ _ Hp) as Hb.
      apply andb_true_iff in E2 as [E2 Ey]. apply andb_true_iff in E2 as [_ Ex].
      injection Hc as <-. cbn.
      apply Z.eqb_eq in Ex, Ey. subst x y. split; [reflexivity|].
      rewrite kind_flagged. intros HK Hm.
      cbn in Hcol. rewrite color_flagged in Hcol.
      destruct (Hside c' sx sy piece Hp Hcol) as [_ Hhome].
      apply Hhome; [exact HK|].
      unfold flagged in Hm. destruct (_ && _) in Hm; cbn in Hm;
        now rewrite has_moved_clear_flag in Hm.
    + exact (side_ok_prepared c' g piece sx sy ex ey c Hs (Hside c') Hp
               x y p Hc Hcol).
Qed.

(** ** En-passant flags after a completed move *)

Lemma clear_flag_cleared c q :
  kind (clear_flag c q) = Pawn -> color (clear_flag c q) = c ->
  can_be_captured_en_passant (clear_flag c q) = false.
Proof.
  unfold clear_flag.
  destruct (kind_eqb (kind q) Pawn && color_eqb (color q) c) eqn:E;
    [reflexivity|].
  intros HK Hc. apply (proj2 (kind_eqb_eq _ _)) in HK.
  apply (proj2 (color_eqb_eq _ _)) in Hc. now rewrite HK, Hc in E.
Qed.

Lemma prepared_flags g piece sx sy ex ey c x y p :
  shape g -> (x, y) <> (sx, sy) ->
  cell (prepared_board g piece (sx, sy) (ex, ey) c) x y = Some p ->
  kind p = Pawn -> color p = c ->
  can_be_captured_en_passant p = false.
Proof.
  intros Hs Hne. unfold prepared_board.
  set (g1 := if _ && _ && _ then set_cell g sx ey None else g).
  assert (shape g1) as Hs1
    by (subst g1; destruct (_ && _ && _); [now apply shape_set_cell|exact Hs]).
  set (g2 := clear_en_passant c g1).
  assert (shape g2) as Hs2 by now apply shape_clear_en_passant.
  set (g3 := if kind_eqb (kind (clear_flag c piece)) Pawn && _
             then set_cell g2 sx sy _ else g2).
  assert (shape g3) as Hs3
    by (subst g3; destruct (kind_eqb (kind (clear_flag c piece)) Pawn && _);
        [now apply shape_set_cell|exact Hs2]).
  assert (cell g3 x y = Some p -> kind p = Pawn -> color p = c ->
          can_be_captured_en_passant p = false) as H3.
  { intros Hc HK Hcol.
    assert (cell g2 x y = Some p) as Hc2.
    { subst g3. destruct (kind_eqb (kind (clear_flag c piece)) Pawn && _);
        [|exact Hc].
      rewrite cell_set_cell_ne in Hc; [exact Hc|congruence]. }
    subst g2. rewrite cell_clear_en_passant in Hc2.
    destruct (cell g1 x y) as [q|]; [|discriminate].
    cbn in Hc2. injection Hc2 as <-. now apply clear_flag_cleared. }
  destruct (kind_eqb (kind (flagged _ _ _ _)) King && _); [|exact H3].
  destruct (get_piece g3 _) as [r|]; [|exact H3].
  destruct (kind_eqb (kind r) Rook) eqn:ER; [|exact H3].
  rewrite !cell_set_cell by (repeat apply shape_set_cell; exact Hs3).
  match goal with |- (if ?b then _ else _) = _ -> _ => destruct b end.
  - intros [= <-] HK. cbn in HK. apply kind_eqb_eq in ER. congruence.
  - match goal with |- (if ?b then _ else _) = _ -> _ => destruct b end;
      [discriminate|exact H3].
Qed.

(** After a completed move of colour [c], a pawn of colour [c] that carries
    the flag is the moved piece, it is a pawn that advanced two ranks, and
    its destination was empty. *)
Lemma final_flags g piece sx sy ex ey c x y p :
  shape g -> cell g sx sy = Some piece -> color piece = c ->
  cell (final_board g piece (sx, sy) (ex, ey) c) x y = Some p ->
  kind p = Pawn -> color p = c -> can_be_captured_en_passant p = true ->
  (x, y) = (ex, ey) /\ kind piece = Pawn /\ Z.abs (ex - sx) = 2.
Proof.
  intros Hs Hp Hc Hcell HK Hcol Hflag.
  rewrite cell_final in Hcell by exact Hs.
  assert (forall q, q = flagged piece (sx, sy) (ex, ey) c ->
            kind q = Pawn -> can_be_captured_en_passant q = true ->
            kind piece = Pawn /\ Z.abs (ex - sx) = 2) as Hfl.
  { intros q -> HKq Hfq. rewrite kind_flagged in HKq. split; [exact HKq|].
    unfold flagged in Hfq. cbn [fst] in Hfq.
    destruct (Z.eqb_spec (Z.abs (ex - sx)) 2) as [E|E]; [exact E|].
    rewrite andb_false_r in Hfq.
    rewrite clear_flag_cleared in Hfq;
      [discriminate|now rewrite kind_clear_flag
      |now rewrite color_clear_flag]. }
  destruct (on_board ex ey && (ex =? x) && (ey =? y)
            && negb (pos_eqb (ex, ey) (sx, sy))) eqn:E1.
  - apply andb_true_iff in E1 as [E1 _]. apply andb_true_iff in E1 as [E1 Ey].
    apply andb_true_iff in E1 as [_ Ex]. apply Z.eqb_eq in Ex, Ey.
    injection Hcell as <-. split; [congruence|].
    apply (Hfl _ eq_refl); [exact HK|exact Hflag].
  - destruct (on_board sx sy && (sx =? x) && (sy =? y)) eqn:E2; [discriminate|].
    destruct (on_board ex ey && (ex =? x) && (ey =? y)) eqn:E3.
    + apply andb_true_iff in E3 as [E3 Ey]. apply andb_true_iff in E3 as [_ Ex].
      apply Z.eqb_eq in Ex, Ey.
      injection Hcell as <-. split; [congruence|].
      apply (Hfl _ eq_refl); [exact HK|exact Hflag].
    + exfalso.
      rewrite (cell_Some_on_board _ _ _ _ Hp) in E2. cbn [andb] in E2.
      rewrite (prepared_flags g piece sx sy ex ey c x y p Hs) in Hflag;
        [discriminate| |exact Hcell|exact HK|exact Hcol].
      intros [= -> ->]. now rewrite !Z.eqb_refl in E2.
Qed.

(** ** Range and path lemmas *)

Lemma py_range_up a b y : In y (py_range a b 1) -> a <= y < b.
Proof.
  unfold py_range. change (0 <? 1) with true. cbv iota.
  rewrite Z.div_1_r. intros H. apply in_map_iff in H as [i [<- Hi]].
  apply in_seq in Hi. lia.
Qed.

Lemma py_range_down a b y : In y (py_range a b (-1)) -> b < y <= a.
Proof.
  unfold py_range. change (0 <? -1) with false. cbv iota.
  change (- -1) with 1. rewrite Z.div_1_r.
  intros H. apply in_map_iff in H as [i [<- Hi]].
  apply in_seq in Hi. lia.
Qed.

Lemma forallb_ext_in {A} (f g : A -> bool) l :
  (forall x, In x l -> f x = g x) -> forallb f l = forallb g l.
Proof.
  induction l as [|x l IH]; intros H; [reflexivity|].
  cbn. rewrite (H x (or_introl eq_refl)), IH; [reflexivity|].
  intros y Hy. apply H. now right.
Qed.




(** ** Snapshot and undo *)

Lemma move_piece_snapshot fuel s start_pos end_pos c r s' :
  move_piece fuel start_pos end_pos c s = Done r s' ->
  (r = true -> last_state s' = Some (board s)) /\
  (get_piece (board s) start_pos <> None -> board s <> []).
Proof.
  intros H. split.
  - intros ->. unfold move_piece, bind, gets, modify in H.
    destruct (get_piece (board s) start_pos) as [p|]; [|discriminate].
    destruct (negb (color_eqb (color p) c)); [discriminate|].
    unfold on_grid in H. cbn [board save_state last_state] in H.
    destruct (move_attempt fuel p start_pos end_pos c (board s));
      try discriminate.
    injection H as _ <-. reflexivity.
  - destruct start_pos as [x y]. unfold get_piece, cell.
    intros Hp E. rewrite E in Hp. apply Hp.
    destruct (on_board x y); reflexivity.
Qed.

Lemma undo_after_move fuel s start_pos end_pos c s' :
  move_piece fuel start_pos end_pos c s = Done true s' ->
  undo_move s' = mkBoard (board s) None.
Proof.
  intros H.
  destruct (move_piece_snapshot _ _ _ _ _ _ _ H) as [Hl Hne].
  specialize (Hl eq_refl).
  assert (get_piece (board s) start_pos <> None) as Hp.
  { unfold move_piece, bind, gets in H.
    destruct (get_piece (board s) start_pos); [discriminate|discriminate]. }
  specialize (Hne Hp). unfold undo_move. rewrite Hl.
  destruct (board s); [contradiction|reflexivity].
Qed.

(** C6.  A completed [move_piece] followed at once by [undo_move] gives
    back the board as it was before the move, with every piece record
    (kind, colour, position, [has_moved], en-passant flag) as it was; the
    snapshot slot is empty afterwards.  This holds for every move that
    [move_piece] completes, castling and en-passant captures included. *)
Theorem move_then_undo_restores fuel s start_pos end_pos c s' :
  move_piece fuel start_pos end_pos c s = Done true s' ->
  board (undo_move s') = board s /\ last_state (undo_move s') = None.
Proof.
  intros H. now rewrite (undo_after_move _ _ _ _ _ _ H).
Qed.

Lemma move_then_undo_restores_witness :
  exists s',
    move_piece 1 (6, 4) (4, 4) White new_board = Done true s' /\
    board (undo_move s') = board new_board /\
    last_state (undo_move s') = None.
Proof.
  eexists. split; [vm_compute; reflexivity|].
  apply (move_then_undo_restores 1 new_board (6, 4) (4, 4) White).
  vm_compute. reflexivity.
Defined.

(** ** The legality predicates leave the board alone *)

(** C8.  On a well-formed board, [is_valid_move] of a piece of the board
    returns an answer and leaves the board exactly as it found it, the
    castling probes of the king included; called twice in a row it answers
    the same both times. *)
Theorem is_valid_move_leaves_board n g x y p end_position :
  wf g -> cell g x y = Some p ->
  exists v,
    is_valid_move (S n) p end_position g = Done v g /\
    (let* a := is_valid_move (S n) p end_position in
     let* b := is_valid_move (S n) p end_position in
     ret (a, b)) g = Done (v, v) g.
Proof.
  intros Hwf Hp.
  destruct (is_valid_move_pure g x y p end_position Hwf Hp) as [v Hv].
  exists v. split; [apply Hv|].
  unfold bind. now rewrite !Hv.
Qed.

Lemma is_valid_move_leaves_board_witness :
  exists v,
    is_valid_move 1 (mkPiece King White (7, 4) false false) (7, 6)
                  castle_through_check
    = Done v castle_through_check /\
    (let* a := is_valid_move 1 (mkPiece King White (7, 4) false false) (7, 6) in
     let* b := is_valid_move 1 (mkPiece King White (7, 4) false false) (7, 6) in
     ret (a, b)) castle_through_check = Done (v, v) castle_through_check.
Proof.
  apply (is_valid_move_leaves_board 0 castle_through_check 7 4).
  - apply wfb_wf. vm_compute. reflexivity.
  - vm_compute. reflexivity.
Defined.

(** ** Moves that leave the mover's king in check *)

Lemma simulate_move_castle g piece sx sy ex ey c l g5 :
  on_board sx sy = true -> on_board ex ey = true ->
  simulate_move piece (sx, sy) (ex, ey) c g = Done l g5 ->
  castle l
  = if kind_eqb (kind piece) King && (Z.abs (ey - sy) =? 2) then
      let direction := if ey >? sy then 1 else -1 in
      let rook_y := if direction =? 1 then 7 else 0 in
      Some (direction, rook_y,
            option_map (fun r => if kind_eqb (kind r) Rook
                                 then move r (sx, sy + direction) else r)
                       (cell (clear_en_passant c g) sx rook_y))
    else None.
Proof.
  intros Hs He.
  pose proof (proj1 (on_board_iff _ _) Hs) as Hs'.
  pose proof (proj1 (on_board_iff _ _) He) as He'.
  assert (forall x y, 0 <= x < 8 -> 0 <= y < 8 -> on_board x y = true) as Hon
    by (intros; apply on_board_iff; lia).
  unfold simulate_move. unfold bind, gets, modify, ret.
  destruct (kind_eqb (kind piece) King && (Z.abs (ey - sy) =? 2)) eqn:EK.
  - apply andb_true_iff in EK as [EK Eabs].
    apply kind_eqb_eq in EK. apply Z.eqb_eq in Eabs.
    rewrite EK. cbn [kind_eqb andb].
    rewrite kind_clear_flag, EK. cbn [kind_eqb andb].
    rewrite kind_clear_flag, EK. cbn [kind_eqb andb].
    rewrite (proj2 (Z.eqb_eq _ _) Eabs).
    set (direction := if ey >? sy then 1 else -1).
    set (rook_y := if direction =? 1 then 7 else 0).
    assert (0 <= rook_y < 8) as Hr
      by (subst rook_y; destruct (direction =? 1); lia).
    assert (0 <= sy + direction < 8) as Hd
      by (subst direction; destruct (Z.gtb_spec ey sy); lia).
    cbn [get_piece].
    destruct (cell (clear_en_passant c g) sx rook_y) as [r|] eqn:Hrook.
    + destruct (kind_eqb (kind r) Rook) eqn:ER.
      * rewrite write_on_board by (apply Hon; lia).
        rewrite write_on_board by (apply Hon; lia).
        rewrite read_on_board by exact He.
        rewrite write_on_board by exact He.
        rewrite write_on_board by exact Hs.
        intros [= <- _]. cbn. now rewrite ER.
      * rewrite read_on_board by exact He.
        rewrite write_on_board by exact He.
        rewrite write_on_board by exact Hs.
        intros [= <- _]. cbn. now rewrite ER.
    + rewrite read_on_board by exact He.
      rewrite write_on_board by exact He.
      rewrite write_on_board by exact Hs.
      intros [= <- _]. reflexivity.
  - assert (forall q, kind q = kind piece ->
              kind_eqb (kind q) King && (Z.abs (ey - sy) =? 2) = false) as HnK
      by (intros q ->; exact EK).
    destruct (kind_eqb (kind piece) Pawn && (Z.abs (ey - sy) =? 1)
              && is_empty g (ex, ey)).
    + rewrite write_on_board by (apply Hon; lia).
      destruct (kind_eqb (kind (clear_flag c piece)) Pawn
                && (Z.abs (ex - sx) =? 2)).
      * rewrite HnK by (cbn; apply kind_clear_flag).
        rewrite read_on_board by exact He.
        rewrite write_on_board by exact He.
        rewrite write_on_board by exact Hs.
        intros [= <- _]. reflexivity.
      * rewrite HnK by apply kind_clear_flag.
        rewrite read_on_board by exact He.
        rewrite write_on_board by exact He.
        rewrite write_on_board by exact Hs.
        intros [= <- _]. reflexivity.
    + destruct (kind_eqb (kind (clear_flag c piece)) Pawn
                && (Z.abs (ex - sx) =? 2)).
      * rewrite HnK by (cbn; apply kind_clear_flag).
        rewrite read_on_board by exact He.
        rewrite write_on_board by exact He.
        rewrite write_on_board by exact Hs.
        intros [= <- _]. reflexivity.
      * rewrite HnK by apply kind_clear_flag.
        rewrite read_on_board by exact He.
        rewrite write_on_board by exact He.
        rewrite write_on_board by exact Hs.
        intros [= <- _]. reflexivity.
Qed.

(** A castling move that [King.is_valid_move] accepts has its rook. *)
Lemma King_castle_rook check K sx sy ex ey g g' :
  position K = (sx, sy) -> Z.abs (ey - sy) = 2 ->
  King_is_valid_move check K (ex, ey) g = Done true g' ->
  isinstance (cell g sx (if (if ey >? sy then 1 else -1) =? 1 then 7 else 0))
             Rook = true.
Proof.
  intros Hpos Habs. unfold King_is_valid_move. rewrite Hpos.
  replace (Z.abs (ey - sy) <=? 1) with false
    by (symmetry; apply Z.leb_gt; lia).
  rewrite andb_false_r.
  destruct (negb (has_moved K) && (sx =? ex) && (Z.abs (ey - sy) =? 2));
    [|discriminate].
  cbn [get_piece].
  destruct (isinstance _ Rook) eqn:E; [reflexivity|discriminate].
Qed.

(** On a well-formed board, when the legality predicate accepts a move and
    the check test finds the mover's king in check on the tentative board,
    [move_piece] returns [False] -- except for a pawn that moves one file
    sideways, where the undo block raises [UnboundLocalError]. *)
Lemma move_piece_in_check n s sx sy ex ey c piece :
  wf (board s) -> cell (board s) sx sy = Some piece -> color piece = c ->
  on_board ex ey = true ->
  is_valid_move (S n) piece (ex, ey) (board s) = Done true (board s) ->
  is_king_in_check (S n) c (tentative_board (board s) piece (sx, sy) (ex, ey) c)
  = Done true (tentative_board (board s) piece (sx, sy) (ex, ey) c) ->
  if kind_eqb (kind piece) Pawn && (Z.abs (ey - sy) =? 1)
  then exists s',
         move_piece (S n) (sx, sy) (ex, ey) c s = Raised UnboundLocalError s'
  else exists s', move_piece (S n) (sx, sy) (ex, ey) c s = Done false s'.
Proof.
  intros Hwf Hp Hc He Hv Hchk.
  pose proof (cell_Some_on_board _ _ _ _ Hp) as Hs.
  pose proof (proj1 (on_board_iff _ _) Hs) as Hs'.
  pose proof (proj1 (on_board_iff _ _) He) as He'.
  assert (forall x y, 0 <= x < 8 -> 0 <= y < 8 -> on_board x y = true) as Hon
    by (intros; apply on_board_iff; lia).
  destruct (wf_side _ Hwf c sx sy piece Hp Hc) as [Hpos _].
  destruct (simulate_move_eq (board s) piece sx sy ex ey c Hs He)
    as [l [Hl [Hsame Hmoved]]].
  pose proof (simulate_move_castle _ _ _ _ _ _ _ _ _ Hs He Hl) as Hcastle.
  assert (kind (move (moved l) (sx, sy)) = kind piece) as HKm.
  { cbn. apply (f_equal kind) in Hmoved. cbn in Hmoved.
    rewrite Hmoved, kind_flagged. reflexivity. }
  set (g5 := tentative_board (board s) piece (sx, sy) (ex, ey) c) in *.
  assert (move_piece (S n) (sx, sy) (ex, ey) c s
          = on_grid (revert_move l (sx, sy) (ex, ey) ;; ret false)
                    (mkBoard g5 (Some (board s)))) as ->.
  { rewrite (move_piece_eq _ s sx sy ex ey c piece Hp Hc).
    unfold on_grid. cbn [board save_state last_state].
    unfold move_attempt. unfold bind at 1. rewrite Hv.
    unfold bind at 1. rewrite Hl.
    unfold bind at 1. rewrite Hchk. reflexivity. }
  unfold on_grid. cbn [board last_state].
  unfold revert_move. rewrite HKm.
  unfold bind, ret, raise, gets.
  rewrite write_on_board by exact Hs.
  rewrite write_on_board by exact He.
  destruct (kind_eqb (kind piece) Pawn && (Z.abs (ey - sy) =? 1)) eqn:EP.
  - apply andb_true_iff in EP as [EP _]. apply kind_eqb_eq in EP.
    rewrite EP in Hcastle. cbn [kind_eqb andb] in Hcastle.
    rewrite Hcastle. eauto.
  - destruct (kind_eqb (kind piece) King && (Z.abs (ey - sy) =? 2)) eqn:EK.
    + apply andb_true_iff in EK as [EK Eabs].
      apply kind_eqb_eq in EK. apply Z.eqb_eq in Eabs.
      unfold is_valid_move, is_valid_move_with in Hv. rewrite EK in Hv.
      pose proof (King_castle_rook _ piece sx sy ex ey _ _ Hpos Eabs Hv) as Hr.
      cbv zeta in Hcastle. rewrite cell_clear_en_passant in Hcastle.
      set (direction := if ey >? sy then 1 else -1) in *.
      set (rook_y := if direction =? 1 then 7 else 0) in *.
      assert (0 <= rook_y < 8) as Hry
        by (subst rook_y; destruct (direction =? 1); lia).
      assert (0 <= sy + direction < 8) as Hd
        by (subst direction; destruct (Z.gtb_spec ey sy); lia).
      destruct (cell (board s) sx rook_y) as [r|]; [|discriminate].
      cbn in Hcastle. rewrite Hcastle.
      rewrite write_on_board by (apply Hon; lia).
      rewrite write_on_board by (apply Hon; lia). eauto.
    + rewrite Hcastle. eauto.
Qed.

Lemma simulate_move_original g piece sx sy ex ey c l g5 :
  on_board sx sy = true -> on_board ex ey = true ->
  simulate_move piece (sx, sy) (ex, ey) c g = Done l g5 ->
  original_piece l = cell (prepared_board g piece (sx, sy) (ex, ey) c) ex ey
  /\ moved l = move (flagged piece (sx, sy) (ex, ey) c) (ex, ey).
Proof.
  intros Hs He.
  pose proof (proj1 (on_board_iff _ _) Hs) as Hs'.
  pose proof (proj1 (on_board_iff _ _) He) as He'.
  assert (forall x y, 0 <= x < 8 -> 0 <= y < 8 -> on_board x y = true) as Hon
    by (intros; apply on_board_iff; lia).
  unfold simulate_move, prepared_board, flagged.
  unfold bind, gets, modify, ret. cbn [fst snd].
  destruct (kind_eqb (kind piece) Pawn && (Z.abs (ey - sy) =? 1)
            && is_empty g (ex, ey)) eqn:E1.
  - rewrite write_on_board by (apply Hon; lia).
    destruct (kind_eqb (kind (clear_flag c piece)) Pawn
              && (Z.abs (ex - sx) =? 2)) eqn:E2.
    + assert (kind_eqb (kind (set_en_passant true (clear_flag c piece))) King
              = false) as EK.
      { apply andb_true_iff in E2 as [E2 _]. apply kind_eqb_eq in E2.
        cbn. rewrite E2. reflexivity. }
      rewrite EK. cbn [andb].
      rewrite read_on_board by exact He.
      rewrite write_on_board by exact He.
      rewrite write_on_board by exact Hs.
      intros [= <- _]. split; reflexivity.
    + assert (kind_eqb (kind (clear_flag c piece)) King = false) as EK.
      { apply andb_true_iff in E1 as [E1 _]. apply andb_true_iff in E1 as [E1 _].
        apply kind_eqb_eq in E1. rewrite kind_clear_flag, E1. reflexivity. }
      rewrite EK. cbn [andb].
      rewrite read_on_board by exact He.
      rewrite write_on_board by exact He.
      rewrite write_on_board by exact Hs.
      intros [= <- _]. split; reflexivity.
  - destruct (kind_eqb (kind (clear_flag c piece)) Pawn
              && (Z.abs (ex - sx) =? 2)) eqn:E2.
    + assert (kind_eqb (kind (set_en_passant true (clear_flag c piece))) King
              = false) as EK.
      { apply andb_true_iff in E2 as [E2 _]. apply kind_eqb_eq in E2.
        cbn. rewrite E2. reflexivity. }
      rewrite EK. cbn [andb].
      rewrite read_on_board by exact He.
      rewrite write_on_board by exact He.
      rewrite write_on_board by exact Hs.
      intros [= <- _]. split; reflexivity.
    + destruct (kind_eqb (kind (clear_flag c piece)) King
                && (Z.abs (ey - sy) =? 2)) eqn:E3.
      * apply andb_true_iff in E3 as [_ E3]. apply Z.eqb_eq in E3.
        set (direction := if ey >? sy then 1 else -1) in *.
        set (rook_y := if direction =? 1 then 7 else 0) in *.
        assert (0 <= rook_y < 8) as Hr
          by (subst rook_y; destruct (direction =? 1); lia).
        assert (0 <= sy + direction < 8) as Hd
          by (subst direction; destruct (Z.gtb_spec ey sy); lia).
        destruct (get_piece (clear_en_passant c g) (sx, rook_y)) as [r|].
        -- destruct (kind_eqb (kind r) Rook).
           ++ rewrite write_on_board by (apply Hon; lia).
              rewrite write_on_board by (apply Hon; lia).
              rewrite read_on_board by exact He.
              rewrite write_on_board by exact He.
              rewrite write_on_board by exact Hs.
              intros [= <- _]. split; reflexivity.
           ++ rewrite read_on_board by exact He.
              rewrite write_on_board by exact He.
              rewrite write_on_board by exact Hs.
              intros [= <- _]. split; reflexivity.
        -- rewrite read_on_board by exact He.
           rewrite write_on_board by exact He.
           rewrite write_on_board by exact Hs.
           intros [= <- _]. split; reflexivity.
      * rewrite read_on_board by exact He.
        rewrite write_on_board by exact He.
        rewrite write_on_board by exact Hs.
        intros [= <- _]. split; reflexivity.
Qed.

Lemma move_back q e : move (move q e) (position q) = q.
Proof. now destruct q. Qed.

Lemma strip_clear_flag c q :
  set_en_passant false (clear_flag c q) = set_en_passant false q.
Proof. unfold clear_flag. now destruct (_ && _). Qed.

Lemma strip_flagged piece s e c :
  set_en_passant false (flagged piece s e c) = set_en_passant false piece.
Proof.
  unfold flagged. destruct (_ && _); [|apply strip_clear_flag].
  rewrite <- (strip_clear_flag c piece). reflexivity.
Qed.

Lemma prepared_plain g piece sx sy ex ey c :
  shape g -> cell g sx sy = Some piece ->
  kind_eqb (kind piece) Pawn && (Z.abs (ey - sy) =? 1) = false ->
  kind_eqb (kind piece) King && (Z.abs (ey - sy) =? 2) = false ->
  same_modulo_flags g (prepared_board g piece (sx, sy) (ex, ey) c).
Proof.
  intros Hs Hp EP EK x y. unfold prepared_board.
  rewrite EP, kind_flagged, EK. cbn [andb].
  destruct (kind_eqb (kind (clear_flag c piece)) Pawn && (Z.abs (ex - sx) =? 2)).
  - rewrite cell_set_cell by now apply shape_clear_en_passant.
    destruct (on_board sx sy && (sx =? x) && (sy =? y)) eqn:E.
    + apply andb_true_iff in E as [E Ey]. apply andb_true_iff in E as [_ Ex].
      apply Z.eqb_eq in Ex, Ey. subst x y. rewrite Hp. cbn [option_map].
      now rewrite strip_flagged.
    + rewrite cell_clear_en_passant.
      destruct (cell g x y); cbn; [now rewrite strip_clear_flag|reflexivity].
  - rewrite cell_clear_en_passant.
    destruct (cell g x y); cbn; [now rewrite strip_clear_flag|reflexivity].
Qed.

Lemma prepared_castle g piece sx sy ex ey c r0 x y :
  shape g -> kind piece = King -> Z.abs (ey - sy) = 2 ->
  let direction := if ey >? sy then 1 else -1 in
  let rook_y := if direction =? 1 then 7 else 0 in
  cell g sx rook_y = Some r0 -> kind r0 = Rook ->
  on_board sx (sy + direction) = true ->
  cell (prepared_board g piece (sx, sy) (ex, ey) c) x y
  = if (sx =? x) && (sy + direction =? y)
    then Some (move r0 (sx, sy + direction))
    else if (sx =? x) && (rook_y =? y) then None
    else fmap (clear_flag c) (cell g x y).
Proof.
  intros Hs HK Habs direction rook_y Hr HKr Hd.
  pose proof (cell_Some_on_board _ _ _ _ Hr) as Hry.
  unfold prepared_board.
  rewrite kind_flagged, kind_clear_flag, HK.
  rewrite (proj2 (Z.eqb_eq _ _) Habs). cbn [kind_eqb andb].
  fold direction. fold rook_y. cbn [get_piece].
  rewrite cell_clear_en_passant, Hr. cbn [fmap option_fmap option_map].
  assert (clear_flag c r0 = r0) as Hcf
    by (unfold clear_flag; now rewrite HKr).
  rewrite Hcf, HKr. cbn [kind_eqb].
  rewrite !cell_set_cell
    by (repeat apply shape_set_cell; now apply shape_clear_en_passant).
  rewrite Hd, Hry. cbn [andb].
  destruct ((sx =? x) && (sy + direction =? y)); [reflexivity|].
  destruct ((sx =? x) && (rook_y =? y)); [reflexivity|].
  apply cell_clear_en_passant.
Qed.

(** What an accepted castling move says about the board. *)
Lemma King_castle_facts n g K sx sy ex ey :
  wf g -> cell g sx sy = Some K -> kind K = King -> Z.abs (ey - sy) = 2 ->
  King_is_valid_move (is_king_in_check (S n)) K (ex, ey) g = Done true g ->
  let direction := if ey >? sy then 1 else -1 in
  let rook_y := if direction =? 1 then 7 else 0 in
  ex = sx /\ sy = 4 /\ cell g sx (sy + direction) = None /\
  exists r0, cell g sx rook_y = Some r0 /\ kind r0 = Rook.
Proof.
  intros [Hs Hside] HK Hkind Habs Hv direction rook_y.
  destruct (Hside (color K) sx sy K HK eq_refl) as [Hpos Hhome].
  specialize (Hhome Hkind).
  assert (has_moved K = false /\ ex = sx) as [Hm ->].
  { unfold King_is_valid_move in Hv. rewrite Hpos in Hv.
    replace (Z.abs (ey - sy) <=? 1) with false in Hv
      by (symmetry; apply Z.leb_gt; lia).
    rewrite andb_false_r in Hv.
    destruct (has_moved K); [discriminate|].
    destruct (Z.eqb_spec sx ex); [auto|discriminate]. }
  specialize (Hhome Hm). subst sy.
  rewrite (King_castle_eq n K sx ey g Hs HK Hkind Hpos (Hside _) Hm Habs) in Hv.
  fold direction rook_y in Hv.
  injection Hv as Hv.
  apply andb_true_iff in Hv as [Hv _]. apply andb_true_iff in Hv as [Hv Hcor].
  apply andb_true_iff in Hv as [Hrook _].
  split; [reflexivity|]. split; [reflexivity|]. split.
  - assert (ey = 6 \/ ey = 2) as [-> | ->] by lia;
      subst direction rook_y; cbn in Hcor |- *.
    + change (py_range (4 + 1) 7 1) with [5; 6] in Hcor.
      cbn [forallb] in Hcor. unfold is_empty in Hcor. cbn [get_piece] in Hcor.
      change (4 + 1) with 5.
      destruct (cell g sx 5); [discriminate|reflexivity].
    + change (py_range (4 + -1) 0 (-1)) with [3; 2; 1] in Hcor.
      cbn [forallb] in Hcor. unfold is_empty in Hcor. cbn [get_piece] in Hcor.
      change (4 + -1) with 3.
      destruct (cell g sx 3); [discriminate|reflexivity].
  - destruct (cell g sx rook_y) as [r0|]; [|discriminate].
    exists r0. split; [reflexivity|]. now apply kind_eqb_eq.
Qed.

Ltac shape_tac :=
  repeat apply shape_set_cell;
  first [ assumption | now apply shape_tentative | now apply shape_prepared ].

(** The undo block of [move_piece], when it does not raise, restores every
    cell up to the en-passant flags. *)
Lemma revert_move_result n g piece sx sy ex ey c l g5 :
  wf g -> cell g sx sy = Some piece -> color piece = c ->
  on_board ex ey = true ->
  is_valid_move (S n) piece (ex, ey) g = Done true g ->
  simulate_move piece (sx, sy) (ex, ey) c g = Done l g5 ->
  kind_eqb (kind piece) Pawn && (Z.abs (ey - sy) =? 1) = false ->
  exists g',
    revert_move l (sx, sy) (ex, ey) g5 = Done tt g' /\
    shape g' /\ same_modulo_flags g g'.
Proof.
  intros Hwf Hp Hc He Hv Hsim EP.
  pose proof (cell_Some_on_board _ _ _ _ Hp) as Hs.
  pose proof (proj1 (on_board_iff _ _) Hs) as Hs'.
  pose proof (proj1 (on_board_iff _ _) He) as He'.
  assert (forall x y, 0 <= x < 8 -> 0 <= y < 8 -> on_board x y = true) as Hon
    by (intros; apply on_board_iff; lia).
  pose proof (wf_shape _ Hwf) as Hsh.
  destruct (wf_side _ Hwf c sx sy piece Hp Hc) as [Hpos _].
  destruct (simulate_move_eq g piece sx sy ex ey c Hs He)
    as [l' [Hl [Hsame _]]].
  rewrite Hsim in Hl. injection Hl as <- ->.
  pose proof (simulate_move_castle _ _ _ _ _ _ _ _ _ Hs He Hsim) as Hcastle.
  destruct (simulate_move_original _ _ _ _ _ _ _ _ _ Hs He Hsim)
    as [Horig Hmoved].
  set (FP := flagged piece (sx, sy) (ex, ey) c) in *.
  assert (move (moved l) (sx, sy) = FP) as HP0.
  { rewrite Hmoved. rewrite <- Hpos.
    rewrite <- (position_flagged piece (sx, sy) (ex, ey) c).
    apply move_back. }
  assert (set_en_passant false FP = set_en_passant false piece) as HFP
    by apply strip_flagged.
  assert (shape (prepared_board g piece (sx, sy) (ex, ey) c)) as Hshp
    by now apply shape_prepared.
  unfold revert_move. rewrite HP0.
  assert (kind FP = kind piece) as HKF by apply kind_flagged.
  rewrite HKF, EP.
  unfold bind, ret, raise, gets.
  rewrite write_on_board by exact Hs.
  rewrite write_on_board by exact He.
  rewrite Hcastle.
  destruct (kind_eqb (kind piece) King && (Z.abs (ey - sy) =? 2)) eqn:EK.
  - apply andb_true_iff in EK as [EK Eabs].
    apply kind_eqb_eq in EK. apply Z.eqb_eq in Eabs.
    unfold is_valid_move, is_valid_move_with in Hv. rewrite EK in Hv.
    destruct (King_castle_facts n g piece sx sy ex ey Hwf Hp EK Eabs Hv)
      as [-> [-> [Hmid [r0 [Hr0 HKr0]]]]].
    cbv zeta. rewrite cell_clear_en_passant.
    set (direction := if ey >? 4 then 1 else -1) in *.
    set (rook_y := if direction =? 1 then 7 else 0) in *.
    assert (0 <= rook_y < 8) as Hry
      by (subst rook_y; destruct (direction =? 1); lia).
    assert (0 <= 4 + direction < 8) as Hd
      by (subst direction; destruct (ey >? 4); lia).
    assert (ey = 4 + 2 * direction) as Hey
      by (subst direction; destruct (Z.gtb_spec ey 4); lia).
    assert (rook_y <> ey /\ rook_y <> 4 + direction /\ rook_y <> 4) as Hrne
      by (subst rook_y direction; destruct (Z.gtb_spec ey 4);
          cbn; lia).
    rewrite Hr0. cbn [fmap option_fmap option_map].
    assert (clear_flag c r0 = r0) as Hcf
      by (unfold clear_flag; now rewrite HKr0).
    rewrite Hcf, HKr0. cbn [kind_eqb].
    rewrite write_on_board by (apply Hon; lia).
    rewrite write_on_board by (apply Hon; lia).
    destruct (wf_side _ Hwf (color r0) sx rook_y r0 Hr0 eq_refl) as [Hposr _].
    assert (move (move r0 (sx, 4 + direction)) (sx, rook_y) = r0) as Hrb
      by (rewrite <- Hposr; apply move_back).
    rewrite Hrb.
    eexists. split; [reflexivity|].
    split; [shape_tac|].
    intros x y.
    rewrite !cell_set_cell
      by shape_tac.
    unfold tentative_board. cbn [fst snd].
    rewrite !cell_set_cell
      by shape_tac.
    rewrite (prepared_castle g piece sx 4 sx ey c r0 x y Hsh EK Eabs Hr0 HKr0)
      by (apply Hon; lia).
    fold direction rook_y.
    rewrite !(Hon sx) by lia. cbn [andb].
    assert (same_cell l = false) as ->.
    { rewrite Hsame. unfold pos_eqb. cbn [fst snd].
      replace (ey =? 4) with false by (symmetry; apply Z.eqb_neq; lia).
      now rewrite andb_false_r. }
    rewrite Horig.
    rewrite (prepared_castle g piece sx 4 sx ey c r0 sx ey Hsh EK Eabs Hr0 HKr0)
      by (apply Hon; lia).
    fold direction rook_y. rewrite Z.eqb_refl. cbn [andb].
    replace (4 + direction =? ey) with false by (symmetry; apply Z.eqb_neq; lia).
    replace (rook_y =? ey) with false by (symmetry; apply Z.eqb_neq; lia).
    destruct (Z.eqb_spec sx x) as [<-|Hx]; cbn [andb].
    + destruct (Z.eqb_spec rook_y y) as [<-|Hy1]; [now rewrite Hr0|].
      destruct (Z.eqb_spec (4 + direction) y) as [<-|Hy2];
        [now rewrite Hmid|].
      destruct (Z.eqb_spec ey y) as [<-|Hy3].
      * destruct (cell g sx ey); cbn;
          [now rewrite strip_clear_flag|reflexivity].
      * destruct (Z.eqb_spec 4 y) as [<-|Hy4].
        -- rewrite Hp. cbn. now rewrite HFP.
        -- destruct (cell g sx y); cbn;
             [now rewrite strip_clear_flag|reflexivity].
    + destruct (cell g x y); cbn; [now rewrite strip_clear_flag|reflexivity].
  - eexists. split; [reflexivity|].
    split; [shape_tac|].
    pose proof (prepared_plain g piece sx sy ex ey c Hsh Hp EP EK) as Hplain.
    intros x y.
    rewrite !cell_set_cell
      by shape_tac.
    unfold tentative_board. cbn [fst snd].
    rewrite !cell_set_cell
      by shape_tac.
    rewrite He, Hs. cbn [andb].
    destruct ((ex =? x) && (ey =? y)) eqn:E1.
    + apply andb_true_iff in E1 as [Ex Ey]. apply Z.eqb_eq in Ex, Ey.
      subst x y. rewrite Hsame.
      destruct (pos_eqb (ex, ey) (sx, sy)) eqn:E2.
      * apply pos_eqb_eq in E2. injection E2 as -> ->.
        rewrite Hp. cbn. now rewrite HFP.
      * rewrite Horig. apply Hplain.
    + destruct ((sx =? x) && (sy =? y)) eqn:E2.
      * apply andb_true_iff in E2 as [Ex Ey]. apply Z.eqb_eq in Ex, Ey.
        subst x y. rewrite Hp. cbn. now rewrite HFP.
      * apply Hplain.
Qed.

Lemma same_modulo_flags_refl g : same_modulo_flags g g.
Proof. intros x y. reflexivity. Qed.

Lemma same_modulo_flags_trans g1 g2 g3 :
  same_modulo_flags g1 g2 -> same_modulo_flags g2 g3 ->
  same_modulo_flags g1 g3.
Proof. intros H1 H2 x y. now rewrite H2, H1. Qed.

Lemma same_modulo_flags_occupied g g' x y :
  same_modulo_flags g g' -> cell g x y <> None -> cell g' x y <> None.
Proof.
  intros H Hocc E. specialize (H x y). rewrite E in H.
  destruct (cell g x y); [discriminate|contradiction].
Qed.

Lemma wf_modulo_flags g g' :
  wf g -> shape g' -> same_modulo_flags g g' -> wf g'.
Proof.
  intros [Hs Hside] Hs' H. split; [exact Hs'|].
  intros c x y p' Hp' Hc. specialize (H x y). rewrite Hp' in H.
  destruct (cell g x y) as [p|] eqn:Hp; [|discriminate].
  cbn in H. injection H as HK Hcol Hpos Hm.
  rewrite HK, Hpos, Hm.
  apply (Hside c x y p Hp). congruence.
Qed.

(** An attempt that returns [False] on a well-formed board leaves every
    cell as it was up to the en-passant flags. *)
Lemma move_piece_false_board n s sx sy ex ey c s' :
  wf (board s) -> on_board ex ey = true ->
  move_piece (S n) (sx, sy) (ex, ey) c s = Done false s' ->
  wf (board s') /\ same_modulo_flags (board s) (board s').
Proof.
  intros Hwf He H.
  assert (shape (board s') /\ same_modulo_flags (board s) (board s'))
    as [Hsh Hsame].
  2:{ split; [|exact Hsame]. exact (wf_modulo_flags _ _ Hwf Hsh Hsame). }
  destruct (cell (board s) sx sy) as [piece|] eqn:Hp.
  2:{ unfold move_piece, bind, gets, ret in H. cbn [get_piece] in H.
      rewrite Hp in H. injection H as <-.
      split; [apply Hwf|apply same_modulo_flags_refl]. }
  destruct (color_eqb (color piece) c) eqn:Hc.
  2:{ unfold move_piece, bind, gets, ret in H. cbn [get_piece] in H.
      rewrite Hp, Hc in H. injection H as <-.
      split; [apply Hwf|apply same_modulo_flags_refl]. }
  apply color_eqb_eq in Hc.
  pose proof (move_piece_in_check n s sx sy ex ey c piece Hwf Hp Hc He)
    as Hraise.
  rewrite (move_piece_eq _ s sx sy ex ey c piece Hp Hc) in H, Hraise.
  unfold on_grid in H, Hraise. cbn [board save_state last_state] in H, Hraise.
  destruct (move_attempt_eq n (board s) piece sx sy ex ey c Hwf Hp Hc He)
    as [v [Hv Heq]].
  rewrite Heq in H. destruct v.
  2:{ injection H as <-. cbn [board].
      split; [apply Hwf|apply same_modulo_flags_refl]. }
  cbv zeta in H.
  set (g5 := tentative_board (board s) piece (sx, sy) (ex, ey) c) in *.
  assert (side_ok (opponent c) g5) as Hok5
    by (destruct Hwf; apply side_ok_tentative; auto).
  destruct (find_king c g5) as [kp|] eqn:Hk; [|discriminate].
  destruct (threatened c kp g5) eqn:Ht; [|discriminate].
  pose proof (is_king_in_check_pure n c g5 kp Hok5 Hk) as Hchk.
  rewrite Ht in Hchk.
  specialize (Hraise (Hv n) Hchk).
  destruct (simulate_move piece (sx, sy) (ex, ey) c (board s))
    as [l g5'| |] eqn:Hsim; try discriminate.
  destruct (kind_eqb (kind piece) Pawn && (Z.abs (ey - sy) =? 1)) eqn:EP.
  { destruct Hraise as [s'' Hr]. rewrite Heq in Hr. cbv zeta in Hr.
    rewrite Hk, Ht in Hr. congruence. }
  destruct (simulate_move_eq (board s) piece sx sy ex ey c
              (cell_Some_on_board _ _ _ _ Hp) He) as [l' [Hl _]].
  rewrite Hsim in Hl. injection Hl as <- Hg5.
  destruct (revert_move_result n (board s) piece sx sy ex ey c l g5'
              Hwf Hp Hc He (Hv n) Hsim EP) as [g' [Hrev [Hsh' Hsame']]].
  fold g5 in Hg5. subst g5'.
  unfold bind in H. rewrite Hrev in H. unfold ret in H.
  injection H as <-. cbn [board]. split; assumption.
Qed.

(** C1.  On [pinned_pawn] the white pawn on (6, 4) may take on (5, 3) as far
    as [Pawn.is_valid_move] is concerned, and the capture uncovers the
    rook's attack on the white king.  [move_piece] does not return [False]:
    the block that undoes the move reads the local [direction], which the
    castling block alone binds, and the call ends in [UnboundLocalError]. *)
Theorem pinned_pawn_capture_raises n :
  let pawn := mkPiece Pawn White (6, 4) false false in
  let g5 := tentative_board pinned_pawn pawn (6, 4) (5, 3) White in
  cell pinned_pawn 6 4 = Some pawn /\
  is_valid_move (S n) pawn (5, 3) pinned_pawn = Done true pinned_pawn /\
  is_king_in_check (S n) White g5 = Done true g5 /\
  exists s',
    move_piece (S n) (6, 4) (5, 3) White (mkBoard pinned_pawn None)
    = Raised UnboundLocalError s'.
Proof.
  cbv zeta.
  split; [vm_compute; reflexivity|].
  split; [vm_compute; reflexivity|].
  split; [vm_compute; reflexivity|].
  eexists. vm_compute. reflexivity.
Qed.

(** C2.  On [king_in_check] the double advance of the pawn on (6, 0) is
    accepted by [Pawn.is_valid_move] and leaves the white king in check, so
    [move_piece] returns [False]; the pawn is back on (6, 0) but its
    en-passant flag, set by the move, is not reset: the board differs from
    the board before the call. *)
Theorem rejected_move_keeps_flag n :
  exists s',
    move_piece (S n) (6, 0) (4, 0) White (mkBoard king_in_check None)
    = Done false s' /\
    cell king_in_check 6 0 = Some (mkPiece Pawn White (6, 0) false false) /\
    cell (board s') 6 0 = Some (mkPiece Pawn White (6, 0) false true) /\
    board s' <> king_in_check.
Proof.
  eexists.
  split; [vm_compute; reflexivity|].
  split; [vm_compute; reflexivity|].
  split; [vm_compute; reflexivity|].
  vm_compute. discriminate.
Qed.

(** ** Game over *)

(** C3.  On [en_passant_escape], with Black to move, [is_game_over] answers
    ["checkmate"], although [move_piece] completes the en-passant capture
    (4, 0) -> (5, 1), which removes the checking pawn: the scan of
    [is_game_over] moves the capturing pawn without taking the captured
    pawn off the board. *)
Theorem checkmate_despite_en_passant n :
  is_king_in_check (S n) Black en_passant_escape
  = Done true en_passant_escape /\
  is_game_over (S n) Black en_passant_escape
  = Done Checkmate en_passant_escape /\
  exists s',
    move_piece (S n) (4, 0) (5, 1) Black (mkBoard en_passant_escape None)
    = Done true s' /\
    cell (board s') 4 1 = None /\
    cell (board s') 5 1 = Some (mkPiece Pawn Black (5, 1) true false).
Proof.
  split; [vm_compute; reflexivity|].
  split; [vm_compute; reflexivity|].
  eexists.
  split; [vm_compute; reflexivity|].
  split; vm_compute; reflexivity.
Qed.

(** ** When the en-passant flags are cleared *)

(** C7, as stated, fails: after 1. e2-e4 e7-e5 the white pawn on (4, 4)
    carries the flag; White's attempt (7, 0) -> (5, 0), which
    [Rook.is_valid_move] rejects, returns [False] and leaves the flag on
    the pawn.  The flags are not cleared at the start of an attempt. *)
Lemma flag_survives_rejected_attempt :
  cell (board after_e4_e5) 4 4 = Some (mkPiece Pawn White (4, 4) true true) /\
  cell (board after_e4_e5) 7 0 = Some (mkPiece Rook White (7, 0) false false) /\
  exists s',
    move_piece 1 (7, 0) (5, 0) White after_e4_e5 = Done false s' /\
    cell (board s') 4 4 = Some (mkPiece Pawn White (4, 4) true true).
Proof.
  split; [vm_compute; reflexivity|].
  split; [vm_compute; reflexivity|].
  eexists. split; vm_compute; reflexivity.
Qed.

Lemma flagged_flag piece sx sy ex ey c :
  kind piece = Pawn -> color piece = c ->
  can_be_captured_en_passant (flagged piece (sx, sy) (ex, ey) c)
  = (Z.abs (ex - sx) =? 2).
Proof.
  intros HK Hc. unfold flagged. cbn [fst].
  rewrite kind_clear_flag, HK. cbn [kind_eqb andb].
  destruct (Z.abs (ex - sx) =? 2); [reflexivity|].
  apply clear_flag_cleared; [now rewrite kind_clear_flag
                            |now rewrite color_clear_flag].
Qed.

Lemma tentative_flags g piece sx sy ex ey c x y p :
  shape g -> on_board ex ey = true ->
  cell g sx sy = Some piece -> color piece = c ->
  cell (tentative_board g piece (sx, sy) (ex, ey) c) x y = Some p ->
  kind p = Pawn -> color p = c ->
  can_be_captured_en_passant p = true <->
  (x, y) = (ex, ey) /\ kind piece = Pawn /\ Z.abs (ex - sx) = 2.
Proof.
  intros Hs Hon Hp Hc Hcell HK Hcol.
  pose proof (cell_Some_on_board _ _ _ _ Hp) as Hos.
  unfold tentative_board in Hcell. cbn [fst snd] in Hcell.
  rewrite !cell_set_cell in Hcell
    by (repeat apply shape_set_cell; now apply shape_prepared).
  rewrite Hon, Hos in Hcell. cbn [andb] in Hcell.
  destruct ((sx =? x) && (sy =? y)) eqn:E1; [discriminate|].
  destruct ((ex =? x) && (ey =? y)) eqn:E2.
  - apply andb_true_iff in E2 as [Ex Ey]. apply Z.eqb_eq in Ex, Ey. subst x y.
    injection Hcell as <-. cbn in HK |- *. rewrite kind_flagged in HK.
    rewrite (flagged_flag piece sx sy ex ey c HK Hc).
    rewrite Z.eqb_eq. tauto.
  - assert ((x, y) <> (sx, sy)) as Hne.
    { intros [= -> ->]. now rewrite !Z.eqb_refl in E1. }
    rewrite (prepared_flags g piece sx sy ex ey c x y p Hs Hne Hcell HK Hcol).
    split; [discriminate|]. intros [[= -> ->] _].
    now rewrite !Z.eqb_refl in E2.
Qed.

Lemma final_flags_iff g piece sx sy ex ey c x y p :
  shape g -> on_board ex ey = true ->
  cell g sx sy = Some piece -> color piece = c ->
  cell (final_board g piece (sx, sy) (ex, ey) c) x y = Some p ->
  kind p = Pawn -> color p = c ->
  can_be_captured_en_passant p = true <->
  (x, y) = (ex, ey) /\ kind piece = Pawn /\ Z.abs (ex - sx) = 2.
Proof.
  intros Hs Hon Hp Hc Hcell HK Hcol. split.
  - intros Hflag.
    exact (final_flags g piece sx sy ex ey c x y p Hs Hp Hc Hcell HK Hcol
             Hflag).
  - intros [[= -> ->] [HKp Habs]].
    pose proof (cell_Some_on_board _ _ _ _ Hp) as Hos.
    rewrite cell_final in Hcell by exact Hs.
    rewrite Hon, !Z.eqb_refl in Hcell. cbn [andb] in Hcell.
    assert (pos_eqb (ex, ey) (sx, sy) = false) as Hpe.
    { apply not_true_is_false. intros E. apply pos_eqb_eq in E.
      injection E as -> _. rewrite Z.sub_diag in Habs. discriminate. }
    rewrite Hpe in Hcell. cbn [negb] in Hcell. injection Hcell as <-.
    unfold moved_piece. cbn.
    rewrite (flagged_flag piece sx sy ex ey c HKp Hc).
    now apply Z.eqb_eq.
Qed.

(** C7, amended.  On a well-formed board, an attempt that the piece's own
    legality predicate rejects returns [False] and changes no flag: the
    board is the board before the call.  For an attempt that the predicate
    accepts, the part of [move_piece] that ends with the placement of the
    piece returns the tentative board, the rest of [move_piece], which
    starts with the check test, runs on that board, and on it a pawn of the
    mover's colour carries the flag exactly when it is the moving piece and
    the move advances it by two ranks: the flags of the mover's pawns have
    been cleared and the flag of a double advance has been set.  The same
    holds on the board that a completed move leaves. *)
Theorem flags_after_attempt n s sx sy ex ey c :
  wf (board s) -> on_board ex ey = true ->
  (forall piece,
     cell (board s) sx sy = Some piece -> color piece = c ->
     is_valid_move (S n) piece (ex, ey) (board s) = Done false (board s) ->
     exists s',
       move_piece (S n) (sx, sy) (ex, ey) c s = Done false s' /\
       board s' = board s) /\
  (forall piece,
     cell (board s) sx sy = Some piece -> color piece = c ->
     is_valid_move (S n) piece (ex, ey) (board s) = Done true (board s) ->
     exists l,
       simulate_move piece (sx, sy) (ex, ey) c (board s)
       = Done l (tentative_board (board s) piece (sx, sy) (ex, ey) c) /\
       move_piece (S n) (sx, sy) (ex, ey) c s
       = on_grid
           (let* in_check := is_king_in_check (S n) c in
            if in_check then
              revert_move l (sx, sy) (ex, ey) ;;
              ret false
            else
              (if same_cell l then ret tt
               else write ex ey (Some (set_has_moved (moved l)))) ;;
              ret true)
           (mkBoard (tentative_board (board s) piece (sx, sy) (ex, ey) c)
                    (Some (board s))) /\
       (forall s',
          move_piece (S n) (sx, sy) (ex, ey) c s = Done true s' ->
          is_king_in_check (S n) c
            (tentative_board (board s) piece (sx, sy) (ex, ey) c)
          = Done false
              (tentative_board (board s) piece (sx, sy) (ex, ey) c)) /\
       forall x y p,
         cell (tentative_board (board s) piece (sx, sy) (ex, ey) c) x y
         = Some p ->
         kind p = Pawn -> color p = c ->
         (can_be_captured_en_passant p = true <->
          (x, y) = (ex, ey) /\ Z.abs (ex - sx) = 2 /\
          isinstance (cell (board s) sx sy) Pawn = true)) /\
  (forall s',
     move_piece (S n) (sx, sy) (ex, ey) c s = Done true s' ->
     forall x y p,
       cell (board s') x y = Some p -> kind p = Pawn -> color p = c ->
       (can_be_captured_en_passant p = true <->
        (x, y) = (ex, ey) /\ Z.abs (ex - sx) = 2 /\
        isinstance (cell (board s) sx sy) Pawn = true)).
Proof.
  intros Hwf He.
  assert (forall piece, cell (board s) sx sy = Some piece ->
            (isinstance (cell (board s) sx sy) Pawn = true
             <-> kind piece = Pawn)) as Hinst.
  { intros piece Hp. rewrite Hp. cbn. apply kind_eqb_eq. }
  split; [|split].
  - intros piece Hp Hc Hv. eexists. split;
      [exact (move_piece_rejected _ s sx sy ex ey c piece Hp Hc Hv)|].
    reflexivity.
  - intros piece Hp Hc Hv.
    destruct (simulate_move_eq (board s) piece sx sy ex ey c
                (cell_Some_on_board _ _ _ _ Hp) He) as [l [Hl _]].
    exists l. split; [exact Hl|]. split.
    { rewrite (move_piece_eq _ s sx sy ex ey c piece Hp Hc).
      unfold on_grid, move_attempt. cbn [board save_state last_state].
      unfold bind at 1. rewrite Hv. unfold bind at 1. rewrite Hl.
      reflexivity. }
    split.
    { intros s' H.
      destruct (move_piece_success n s sx sy ex ey c s' Hwf He H)
        as [piece' [Hp' [_ [_ [Hk _]]]]].
      rewrite Hp in Hp'. injection Hp' as <-. apply Hk. }
    intros x y p Hcell HK Hcol.
    rewrite (tentative_flags (board s) piece sx sy ex ey c x y p
               (wf_shape _ Hwf) He Hp Hc Hcell HK Hcol).
    rewrite (Hinst piece Hp). tauto.
  - intros s' H x y p Hcell HK Hcol.
    destruct (move_piece_success n s sx sy ex ey c s' Hwf He H)
      as [piece [Hp [Hc [_ [_ ->]]]]].
    cbn [board] in Hcell.
    rewrite (final_flags_iff (board s) piece sx sy ex ey c x y p
               (wf_shape _ Hwf) He Hp Hc Hcell HK Hcol).
    rewrite (Hinst piece Hp). tauto.
Qed.

Lemma flags_after_attempt_witness :
  (forall piece,
     cell (board new_board) 6 4 = Some piece -> color piece = White ->
     is_valid_move 1 piece (4, 4) (board new_board)
     = Done false (board new_board) ->
     exists s',
       move_piece 1 (6, 4) (4, 4) White new_board = Done false s' /\
       board s' = board new_board) /\
  (forall piece,
     cell (board new_board) 6 4 = Some piece -> color piece = White ->
     is_valid_move 1 piece (4, 4) (board new_board)
     = Done true (board new_board) ->
     exists l,
       simulate_move piece (6, 4) (4, 4) White (board new_board)
       = Done l (tentative_board (board new_board) piece (6, 4) (4, 4) White)
       /\
       move_piece 1 (6, 4) (4, 4) White new_board
       = on_grid
           (let* in_check := is_king_in_check 1 White in
            if in_check then
              revert_move l (6, 4) (4, 4) ;;
              ret false
            else
              (if same_cell l then ret tt
               else write 4 4 (Some (set_has_moved (moved l)))) ;;
              ret true)
           (mkBoard
              (tentative_board (board new_board) piece (6, 4) (4, 4) White)
              (Some (board new_board))) /\
       (forall s',
          move_piece 1 (6, 4) (4, 4) White new_board = Done true s' ->
          is_king_in_check 1 White
            (tentative_board (board new_board) piece (6, 4) (4, 4) White)
          = Done false
              (tentative_board (board new_board) piece (6, 4) (4, 4) White))
       /\
       forall x y p,
         cell (tentative_board (board new_board) piece (6, 4) (4, 4) White)
              x y = Some p ->
         kind p = Pawn -> color p = White ->
         (can_be_captured_en_passant p = true <->
          (x, y) = (4, 4) /\ Z.abs (4 - 6) = 2 /\
          isinstance (cell (board new_board) 6 4) Pawn = true)) /\
  (forall s',
     move_piece 1 (6, 4) (4, 4) White new_board = Done true s' ->
     forall x y p,
       cell (board s') x y = Some p -> kind p = Pawn -> color p = White ->
       (can_be_captured_en_passant p = true <->
        (x, y) = (4, 4) /\ Z.abs (4 - 6) = 2 /\
        isinstance (cell (board new_board) 6 4) Pawn = true)).
Proof.
  apply (flags_after_attempt 0 new_board 6 4 4 4 White).
  - apply wfb_wf. vm_compute. reflexivity.
  - vm_compute. reflexivity.
Defined.

(** ** Undo and the turn *)





(** ** Castling *)

Lemma find_king_probe g K sx sy y :
  shape g -> one_king g -> cell g sx sy = Some K -> kind K = King ->
  on_board sx y = true ->
  find_king (color K) (set_cell (set_cell g sx sy None) sx y (Some K))
  = Some (sx, y).
Proof.
  intros Hs H1 HK Hkind Hy.
  pose proof (cell_Some_on_board _ _ _ _ HK) as Hb.
  set (gy := set_cell (set_cell g sx sy None) sx y (Some K)).
  destruct (find_king_exists (color K) gy sx y K) as [[kx ky] Hkp];
    [apply cell_set_cell_eq; [now apply shape_set_cell|exact Hy]
    |exact Hkind|reflexivity|].
  rewrite Hkp. f_equal.
  unfold find_king in Hkp. apply find_some in Hkp as [_ Hk].
  cbn [get_piece] in Hk. subst gy.
  rewrite !cell_set_cell in Hk by (repeat apply shape_set_cell; exact Hs).
  rewrite Hb, Hy in Hk. cbn [andb] in Hk.
  destruct ((sx =? kx) && (y =? ky)) eqn:E1.
  - apply andb_true_iff in E1 as [Ex Ey]. apply Z.eqb_eq in Ex, Ey.
    now subst.
  - destruct ((sx =? kx) && (sy =? ky)) eqn:E2; [discriminate|].
    destruct (cell g kx ky) as [k'|] eqn:Hk'; [|discriminate].
    cbn [is_king_of] in Hk. apply andb_true_iff in Hk as [Hk1 Hk2].
    apply kind_eqb_eq in Hk1. apply color_eqb_eq in Hk2.
    pose proof (H1 kx ky k' sx sy K Hk' HK Hk1 Hkind Hk2) as E.
    injection E as -> ->. now rewrite !Z.eqb_refl in E2.
Qed.

Lemma attacked_probe_check n g K sx sy y :
  shape g -> one_king g -> side_ok (opponent (color K)) g ->
  cell g sx sy = Some K -> kind K = King -> position K = (sx, sy) ->
  on_board sx y = true ->
  attacked (S n) (color K) (sx, y) (probe_board g K y) ->
  probe_check g K y = true.
Proof.
  intros Hs H1 Hok HK Hkind Hpos Hy.
  unfold probe_check, probe_board. rewrite Hpos.
  set (gy := set_cell (set_cell g sx sy None) sx y (Some K)).
  intros [x' [y' [q [g' [Hq [Hcol Hv]]]]]]. cbv zeta.
  pose proof (find_king_probe g K sx sy y Hs H1 HK Hkind Hy) as Hfk.
  fold gy in Hfk. rewrite Hfk.
  assert (side_ok (opponent (color K)) gy) as Hoky.
  { apply side_ok_set_cell; [now apply shape_set_cell| |].
    - apply side_ok_set_cell; [exact Hs|exact Hok|discriminate].
    - intros p [= <-] Hc. now destruct (opponent_neq (color K)). }
  unfold threatened. apply existsb_exists. exists (x', y'). split.
  - apply in_squares. exact (cell_Some_on_board _ _ _ _ Hq).
  - cbn [get_piece]. rewrite Hq, Hcol, color_eqb_refl. cbn [andb].
    destruct (Hoky x' y' q Hq Hcol) as [Hposq Hhomeq].
    unfold is_valid_move in Hv.
    rewrite (threat_pure _ q (sx, y) gy x' y' Hq Hposq Hhomeq) in Hv.
    + now injection Hv as ->.
    + cbn [get_piece]. subst gy. rewrite cell_set_cell_eq;
        [discriminate|now apply shape_set_cell|exact Hy].
Qed.

(** C4.  On a well-formed board with one king of each colour, a move of
    the king by two files along its row is rejected by
    [King.is_valid_move] when the king has moved, when the corner square
    on that side holds no rook that has not moved, when a square strictly
    between king and corner is occupied, or when the king's start, transit
    or landing square is attacked by an opposing piece once the king stands
    on it. *)
Theorem castling_illegal n g K sx sy ey :
  wf g -> one_king g -> cell g sx sy = Some K -> kind K = King ->
  Z.abs (ey - sy) = 2 ->
  let direction := if ey >? sy then 1 else -1 in
  let rook_y := if direction =? 1 then 7 else 0 in
  has_moved K = true
  \/ (forall r, cell g sx rook_y = Some r -> kind r = Rook ->
                has_moved r = true)
  \/ (exists y, Z.min sy rook_y < y < Z.max sy rook_y /\ cell g sx y <> None)
  \/ (exists y, (y = sy \/ y = sy + direction \/ y = sy + 2 * direction) /\
                attacked (S n) (color K) (sx, y) (probe_board g K y)) ->
  is_valid_move (S n) K (sx, ey) g = Done false g.
Proof.
  intros [Hs Hside] H1 HK Hkind Habs direction rook_y H.
  destruct (Hside (color K) sx sy K HK eq_refl) as [Hpos Hhome].
  specialize (Hhome Hkind).
  pose proof (cell_Some_on_board _ _ _ _ HK) as Hb.
  unfold is_valid_move, is_valid_move_with. rewrite Hkind.
  destruct (has_moved K) eqn:Hm.
  { unfold King_is_valid_move. rewrite Hpos, Hm.
    replace (Z.abs (ey - sy) <=? 1) with false
      by (symmetry; apply Z.leb_gt; lia).
    now rewrite andb_false_r. }
  specialize (Hhome eq_refl). subst sy.
  rewrite (King_castle_eq n K sx ey g Hs HK Hkind Hpos (Hside _) Hm Habs).
  f_equal. fold direction rook_y.
  apply on_board_iff in Hb.
  assert (forall y, 0 <= y < 8 -> on_board sx y = true) as Hon
    by (intros; apply on_board_iff; lia).
  destruct H as [H|[H|[[y [Hy Hocc]]|[y [Hy Hatt]]]]].
  - discriminate.
  - destruct (cell g sx rook_y) as [r|] eqn:Hr; [|reflexivity].
    cbn [isinstance]. destruct (kind_eqb (kind r) Rook) eqn:ER; [|reflexivity].
    apply kind_eqb_eq in ER. now rewrite (H r eq_refl ER).
  - apply andb_false_intro1, andb_false_intro2.
    assert (ey = 6 \/ ey = 2) as [-> | ->] by lia;
      subst direction rook_y; cbn in Hy |- *.
    + change (py_range (4 + 1) 7 1) with [5; 6]. cbn [forallb].
      unfold is_empty. cbn [get_piece].
      assert (y = 5 \/ y = 6) as [-> | ->] by lia;
        destruct (cell g sx 5), (cell g sx 6); try reflexivity; congruence.
    + change (py_range (4 + -1) 0 (-1)) with [3; 2; 1]. cbn [forallb].
      unfold is_empty. cbn [get_piece].
      assert (y = 3 \/ y = 2 \/ y = 1) as [-> |[-> | ->]] by lia;
        destruct (cell g sx 3), (cell g sx 2), (cell g sx 1);
        try reflexivity; congruence.
  - apply andb_false_intro2.
    assert (0 <= y < 8) as Hyr
      by (subst direction; destruct (ey >? 4); lia).
    pose proof (attacked_probe_check n g K sx 4 y Hs H1 (Hside _) HK Hkind
                  Hpos (Hon y Hyr) Hatt) as Hpc.
    assert (ey = 6 \/ ey = 2) as [-> | ->] by lia;
      subst direction rook_y; cbn in Hy |- *.
    + change (py_range 4 (4 + 3 * 1) 1) with [4; 5; 6]. cbn [forallb].
      assert (y = 4 \/ y = 5 \/ y = 6) as [-> |[-> | ->]] by lia;
        rewrite Hpc; cbn [negb andb]; rewrite ?andb_false_r; reflexivity.
    + change (py_range 4 (4 + 3 * -1) (-1)) with [4; 3; 2]. cbn [forallb].
      assert (y = 4 \/ y = 3 \/ y = 2) as [-> |[-> | ->]] by lia;
        rewrite Hpc; cbn [negb andb]; rewrite ?andb_false_r; reflexivity.
Qed.

Lemma castling_illegal_witness :
  is_valid_move 1 (mkPiece King White (7, 4) false false) (7, 6)
                castle_through_check
  = Done false castle_through_check.
Proof.
  apply (castling_illegal 0 castle_through_check
           (mkPiece King White (7, 4) false false) 7 4 6).
  - apply wfb_wf. vm_compute. reflexivity.
  - apply one_kingb_one_king. vm_compute. reflexivity.
  - vm_compute. reflexivity.
  - reflexivity.
  - reflexivity.
  - right. right. right. exists 5. split; [right; left; reflexivity|].
    exists 0, 5, (mkPiece Rook Black (0, 5) true false).
    eexists. split; [vm_compute; reflexivity|].
    split; [reflexivity|]. vm_compute. reflexivity.
Defined.

(** ** The en-passant window *)

Lemma wf_rejected_attempts n c s s0 :
  wf (board s) -> rejected_attempts n c s s0 ->
  wf (board s0) /\ same_modulo_flags (board s) (board s0).
Proof.
  intros Hwf H. induction H as [s|s s1 s2 [sx sy] [ex ey] He H _ IH].
  - split; [exact Hwf|apply same_modulo_flags_refl].
  - destruct (move_piece_false_board n s sx sy ex ey c s1 Hwf He H)
      as [Hwf1 Hsame1].
    destruct (IH Hwf1) as [Hwf2 Hsame2].
    split; [exact Hwf2|].
    exact (same_modulo_flags_trans _ _ _ Hsame1 Hsame2).
Qed.

Lemma wf_ply n c s s' : wf (board s) -> ply n c s s' -> wf (board s').
Proof.
  intros Hwf [s0 [sx sy] [ex ey] s1 Hr He H|
              s0 [sx sy] [ex ey] s1 k Hr He H _ _ _ Hk];
    destruct (wf_rejected_attempts n c s s0 Hwf Hr) as [Hwf0 _].
  - destruct (move_piece_success n s0 sx sy ex ey c s1 Hwf0 He H)
      as [piece [Hp [_ [_ [_ ->]]]]].
    now apply wf_final.
  - destruct (move_piece_success n s0 sx sy ex ey c s1 Hwf0 He H)
      as [piece [Hp [_ [_ [_ ->]]]]].
    pose proof (wf_final (board s0) piece sx sy ex ey c Hwf0 Hp) as [Hs Hside].
    cbn [promote board fst snd]. split; [now apply shape_set_cell|].
    intros c'. apply side_ok_set_cell; [exact Hs|apply Hside|].
    intros p [= <-] _. cbn. split; [reflexivity|]. intros E. congruence.
Qed.

Lemma wf_black_to_move n f s2 s :
  wf (board s2) -> black_to_move n f s2 s -> wf (board s).
Proof.
  intros Hwf H. induction H as [s3 _ Hw|s sb sw _ IH Hb _ Hw].
  - exact (wf_ply _ _ _ _ Hwf Hw).
  - exact (wf_ply _ _ _ _ (wf_ply _ _ _ _ IH Hb) Hw).
Qed.

Lemma pawn_double_valid p sx sy ex ey g :
  position p = (sx, sy) -> Z.abs (ex - sx) = 2 ->
  Pawn_is_valid_move p (ex, ey) g = true ->
  ey = sy /\ is_empty g (ex, ey) = true /\
  is_empty g (sx + match color p with White => -1 | Black => 1 end, sy)
  = true.
Proof.
  intros Hpos Habs. unfold Pawn_is_valid_move. rewrite Hpos.
  set (d := match color p with White => -1 | Black => 1 end).
  assert (d = 1 \/ d = -1) as Hd by (subst d; destruct (color p); auto).
  replace (ex =? sx + d) with false by (symmetry; apply Z.eqb_neq; lia).
  rewrite !andb_false_r.
  destruct (_ && _ && _ && _ && _) eqn:E; [|discriminate].
  intros _.
  apply andb_true_iff in E as [E E5]. apply andb_true_iff in E as [E E4].
  apply andb_true_iff in E as [E E3]. apply andb_true_iff in E as [E1 E2].
  apply Z.eqb_eq in E2. now subst ey.
Qed.

Lemma prepared_pawn_push g piece sx sy ex c x y :
  kind piece = Pawn -> (x, y) <> (sx, sy) ->
  cell (prepared_board g piece (sx, sy) (ex, sy) c) x y
  = fmap (clear_flag c) (cell g x y).
Proof.
  intros HK Hne. unfold prepared_board.
  rewrite kind_flagged, kind_clear_flag, HK.
  rewrite Z.sub_diag. cbn [kind_eqb andb Z.abs Z.eqb].
  destruct (Z.abs (ex - sx) =? 2).
  - rewrite cell_set_cell_ne by congruence. apply cell_clear_en_passant.
  - apply cell_clear_en_passant.
Qed.

Lemma prepared_en_passant g piece sx sy ex ey c :
  shape g -> kind piece = Pawn -> Z.abs (ey - sy) = 1 ->
  is_empty g (ex, ey) = true -> on_board sx ey = true ->
  cell (prepared_board g piece (sx, sy) (ex, ey) c) sx ey = None.
Proof.
  intros Hs HK Habs Hempty Hon. unfold prepared_board.
  rewrite kind_flagged, kind_clear_flag, HK, Hempty.
  rewrite (proj2 (Z.eqb_eq _ _) Habs). cbn [kind_eqb andb].
  assert (cell (clear_en_passant c (set_cell g sx ey None)) sx ey = None) as E
    by (rewrite cell_clear_en_passant, cell_set_cell_eq; auto).
  destruct (Z.abs (ex - sx) =? 2); [|exact E].
  rewrite cell_set_cell_ne; [exact E|]. intros [= E']. lia.
Qed.

(** After a completed double advance to [(4, f)] the pawn stands there with
    the flag, and the square it passed is empty. *)
Lemma after_double_advance n s f pawn s1 :
  wf (board s) -> cell (board s) 6 f = Some pawn -> kind pawn = Pawn ->
  move_piece (S n) (6, f) (4, f) White s = Done true s1 ->
  wf (board s1) /\
  cell (board s1) 5 f = None /\
  exists w, cell (board s1) 4 f = Some w /\ kind w = Pawn /\
            color w = White /\ can_be_captured_en_passant w = true.
Proof.
  intros Hwf Hp HK H.
  pose proof (cell_Some_on_board _ _ _ _ Hp) as Hb. apply on_board_iff in Hb.
  assert (on_board 4 f = true) as He by (apply on_board_iff; lia).
  destruct (move_piece_success n s 6 f 4 f White s1 Hwf He H)
    as [piece [Hp' [Hc [Hv [_ ->]]]]].
  rewrite Hp in Hp'. injection Hp' as <-.
  split; [now apply wf_final|]. cbn [board].
  pose proof (wf_shape _ Hwf) as Hs.
  destruct (wf_side _ Hwf White 6 f pawn Hp Hc) as [Hpos _].
  specialize (Hv 0%nat). unfold is_valid_move, is_valid_move_with, gets in Hv.
  rewrite HK in Hv. injection Hv as Hv.
  destruct (pawn_double_valid pawn 6 f 4 f (board s) Hpos eq_refl Hv)
    as [_ [_ H5]].
  rewrite Hc in H5. change (6 + -1) with 5 in H5.
  rewrite !cell_final by exact Hs. rewrite He.
  change (4 =? 5) with false. change (6 =? 5) with false.
  change (4 =? 4) with true. rewrite Z.eqb_refl.
  assert (pos_eqb (4, f) (6, f) = false) as -> by reflexivity.
  cbn [andb negb]. rewrite !andb_false_r. split.
  - rewrite prepared_pawn_push by (exact HK || congruence).
    unfold is_empty in H5. cbn [get_piece] in H5.
    destruct (cell (board s) 5 f); [discriminate|reflexivity].
  - eexists. split; [reflexivity|].
    unfold moved_piece, flagged, clear_flag. clear -HK Hc.
    destruct pawn as [k c0 pos hm ep]. cbn in HK, Hc |- *. subst k c0.
    cbn. auto.
Qed.

(** A black pawn next to a flagged white pawn may take it in passing. *)
Lemma en_passant_accepted g f f' q w :
  position q = (4, f') -> kind q = Pawn -> color q = Black ->
  Z.abs (f' - f) = 1 ->
  cell g 4 f = Some w -> kind w = Pawn -> color w = White ->
  can_be_captured_en_passant w = true ->
  Pawn_is_valid_move q (5, f) g = true.
Proof.
  intros Hpos HK Hc Habs Hw HKw Hcw Hfw.
  unfold Pawn_is_valid_move. rewrite Hpos, Hc.
  replace (f =? f') with false by (symmetry; apply Z.eqb_neq; lia).
  cbn [andb]. change (4 =? 1) with false. cbn [andb].
  replace (Z.abs (f - f') =? 1) with true by (symmetry; apply Z.eqb_eq; lia).
  change (5 =? 4 + 1) with true. cbn [andb get_piece].
  rewrite Hw, HKw, Hcw, Hfw.
  destruct (cell g 5 f) as [t|]; [|reflexivity].
  now destruct (negb (color_eqb (color t) Black)).
Qed.

(** Without the flag the same diagonal step onto the empty square is
    rejected. *)
Lemma en_passant_rejected g f f' q :
  position q = (4, f') -> kind q = Pawn -> color q = Black ->
  Z.abs (f' - f) = 1 -> cell g 5 f = None ->
  (forall w, cell g 4 f = Some w -> kind w = Pawn -> color w = White ->
             can_be_captured_en_passant w = false) ->
  Pawn_is_valid_move q (5, f) g = false.
Proof.
  intros Hpos HK Hc Habs H5 Hw.
  unfold Pawn_is_valid_move. rewrite Hpos, Hc.
  replace (f =? f') with false by (symmetry; apply Z.eqb_neq; lia).
  cbn [andb]. change (4 =? 1) with false. cbn [andb].
  replace (Z.abs (f - f') =? 1) with true by (symmetry; apply Z.eqb_eq; lia).
  change (5 =? 4 + 1) with true. cbn [andb get_piece]. rewrite H5.
  destruct (cell g 4 f) as [w|] eqn:E; [|reflexivity].
  destruct (kind_eqb (kind w) Pawn) eqn:E1; [|reflexivity].
  destruct (color_eqb (color w) Black) eqn:E2; [reflexivity|].
  apply kind_eqb_eq in E1. cbn [negb andb].
  apply (Hw w eq_refl E1). destruct (color w); [reflexivity|discriminate].
Qed.

(** A completed white move onto or past an occupied [(4, f)] leaves no
    flag there. *)
Lemma white_ply_clears n f s s' w :
  wf (board s) -> cell (board s) 4 f <> None -> ply n White s s' ->
  cell (board s') 4 f = Some w -> kind w = Pawn -> color w = White ->
  can_be_captured_en_passant w = false.
Proof.
  intros Hwf Hocc Hply Hw HK Hc.
  assert (forall s0, wf (board s0) -> cell (board s0) 4 f <> None ->
          forall sx sy ex ey s1,
            on_board ex ey = true ->
            move_piece (S n) (sx, sy) (ex, ey) White s0 = Done true s1 ->
            cell (board s1) 4 f = Some w ->
            can_be_captured_en_passant w = false) as Hmove.
  { clear s Hwf Hocc Hply. intros s Hwf Hocc sx sy ex ey s1 He H Hw1.
    destruct (move_piece_success n s sx sy ex ey White s1 Hwf He H)
      as [piece [Hp [Hcp [Hv [_ ->]]]]].
    cbn [board] in Hw1.
    destruct (can_be_captured_en_passant w) eqn:Hf; [|reflexivity].
    exfalso.
    destruct (final_flags (board s) piece sx sy ex ey White 4 f w
                (wf_shape _ Hwf) Hp Hcp Hw1 HK Hc Hf) as [E [HKp Habs]].
    injection E as <- <-.
    destruct (wf_side _ Hwf White sx sy piece Hp Hcp) as [Hpos _].
    specialize (Hv 0%nat). unfold is_valid_move, is_valid_move_with, gets in Hv.
    rewrite HKp in Hv. injection Hv as Hv.
    destruct (pawn_double_valid piece sx sy 4 f (board s) Hpos Habs Hv)
      as [_ [Hempty _]].
    unfold is_empty in Hempty. cbn [get_piece] in Hempty.
    destruct (cell (board s) 4 f); [discriminate|contradiction]. }
  destruct Hply as [s0 [sx sy] [ex ey] s1 Hr He H|
                    s0 [sx sy] [ex ey] s1 k Hr He H _ Hrow _ _];
    destruct (wf_rejected_attempts n White s s0 Hwf Hr) as [Hwf0 Hsame0];
    pose proof (same_modulo_flags_occupied _ _ 4 f Hsame0 Hocc) as Hocc0.
  - exact (Hmove s0 Hwf0 Hocc0 sx sy ex ey s1 He H Hw).
  - cbn [promote board fst snd] in Hw, Hrow.
    rewrite cell_set_cell_ne in Hw by (intros [= E _]; lia).
    exact (Hmove s0 Hwf0 Hocc0 sx sy ex ey s1 He H Hw).
Qed.

(** C5.  After White completes the double advance of a pawn from (6, f) to
    (4, f), the pawn stands on (4, f) with the flag, and every black pawn
    on (4, f') with |f' - f| = 1 is allowed by [Pawn.is_valid_move] to step
    to (5, f); when [move_piece] completes that step, the white pawn is
    gone from (4, f).  If Black completes any ply instead, then at each of
    Black's later turns (the plies alternating, each one a completed move
    that may follow attempts answered with [False]; (4, f) still occupied
    whenever White was to move) the step of such a pawn onto the empty
    square (5, f) is rejected by [Pawn.is_valid_move]. *)
Theorem en_passant_window n s f pawn s1 :
  wf (board s) -> cell (board s) 6 f = Some pawn -> kind pawn = Pawn ->
  move_piece (S n) (6, f) (4, f) White s = Done true s1 ->
  (exists w, cell (board s1) 4 f = Some w /\ kind w = Pawn /\
             color w = White /\ can_be_captured_en_passant w = true) /\
  (forall f' q,
     Z.abs (f' - f) = 1 -> cell (board s1) 4 f' = Some q ->
     kind q = Pawn -> color q = Black ->
     is_valid_move (S n) q (5, f) (board s1) = Done true (board s1) /\
     forall s2,
       move_piece (S n) (4, f') (5, f) Black s1 = Done true s2 ->
       cell (board s2) 4 f = None /\
       isinstance (cell (board s2) 5 f) Pawn = true) /\
  (forall s2 s3,
     ply n Black s1 s2 -> black_to_move n f s2 s3 ->
     forall f' q,
       Z.abs (f' - f) = 1 -> cell (board s3) 4 f' = Some q ->
       kind q = Pawn -> color q = Black -> cell (board s3) 5 f = None ->
       is_valid_move (S n) q (5, f) (board s3) = Done false (board s3)).
Proof.
  intros Hwf Hp HK H.
  destruct (after_double_advance n s f pawn s1 Hwf Hp HK H)
    as [Hwf1 [H5 [w [Hw [HKw [Hcw Hfw]]]]]].
  split; [eauto|]. split.
  - intros f' q Habs Hq HKq Hcq.
    destruct (wf_side _ Hwf1 Black 4 f' q Hq Hcq) as [Hposq _].
    split.
    + unfold is_valid_move, is_valid_move_with, gets. rewrite HKq. f_equal.
      exact (en_passant_accepted (board s1) f f' q w Hposq HKq Hcq Habs
               Hw HKw Hcw Hfw).
    + intros s2 H2.
      pose proof (cell_Some_on_board _ _ _ _ Hw) as Hb4.
      apply on_board_iff in Hb4.
      assert (on_board 5 f = true) as He by (apply on_board_iff; lia).
      destruct (move_piece_success n s1 4 f' 5 f Black s2 Hwf1 He H2)
        as [piece [Hp2 [_ [_ [_ ->]]]]].
      rewrite Hq in Hp2. injection Hp2 as <-. cbn [board].
      pose proof (wf_shape _ Hwf1) as Hs1.
      rewrite !cell_final by exact Hs1. rewrite He.
      change (5 =? 4) with false. change (5 =? 5) with true.
      rewrite !Z.eqb_refl.
      replace (f' =? f) with false by (symmetry; apply Z.eqb_neq; lia).
      assert (pos_eqb (5, f) (4, f') = false) as -> by reflexivity.
      cbn [andb negb]. rewrite !andb_false_r. split.
      * apply (prepared_en_passant (board s1) q 4 f' 5 f Black Hs1 HKq);
          [lia| |apply on_board_iff; lia].
        unfold is_empty. cbn [get_piece]. now rewrite H5.
      * cbn. rewrite kind_flagged, HKq. reflexivity.
  - intros s2 s3 Hb Hbtm f' q Habs Hq HKq Hcq H5'.
    pose proof (wf_ply _ _ _ _ Hwf1 Hb) as Hwf2.
    pose proof (wf_black_to_move _ _ _ _ Hwf2 Hbtm) as Hwf3.
    destruct (wf_side _ Hwf3 Black 4 f' q Hq Hcq) as [Hposq _].
    unfold is_valid_move, is_valid_move_with, gets. rewrite HKq. f_equal.
    apply (en_passant_rejected (board s3) f f' q Hposq HKq Hcq Habs H5').
    intros w' Hw' HKw' Hcw'.
    inversion Hbtm as [s3' Hocc Hply E|s' sb sw Hprev Hbply Hocc Hply E];
      subst.
    + exact (white_ply_clears n f s2 s3 w' Hwf2 Hocc Hply Hw' HKw' Hcw').
    + pose proof (wf_black_to_move _ _ _ _ Hwf2 Hprev) as Hwfs.
      pose proof (wf_ply _ _ _ _ Hwfs Hbply) as Hwfb.
      exact (white_ply_clears n f sb s3 w' Hwfb Hocc Hply Hw' HKw' Hcw').
Qed.

Lemma en_passant_window_witness :
  let s := mkBoard before_double_advance None in
  let s1 := play 1 (6, 4) (4, 4) White s in
  let s2 := play 1 (0, 4) (1, 4) Black s1 in
  let s3 := play 1 (7, 4) (6, 4) White s2 in
  let q := mkPiece Pawn Black (4, 3) true false in
  move_piece 1 (6, 4) (4, 4) White s = Done true s1 /\
  ply 0 Black s1 s2 /\ black_to_move 0 4 s2 s3 /\
  is_valid_move 1 q (5, 4) (board s1) = Done true (board s1) /\
  is_valid_move 1 q (5, 4) (board s3) = Done false (board s3).
Proof.
  intros s s1 s2 s3 q.
  assert (move_piece 1 (6, 4) (4, 4) White s = Done true s1) as Hmove
    by (vm_compute; reflexivity).
  assert (ply 0 Black s1 s2) as Hply.
  { apply (ply_move 0 Black s1 s1 (0, 4) (1, 4));
      [apply no_attempt|vm_compute; reflexivity..]. }
  assert (black_to_move 0 4 s2 s3) as Hbtm.
  { apply btm_first; [vm_compute; discriminate|].
    apply (ply_move 0 White s2 s2 (7, 4) (6, 4));
      [apply no_attempt|vm_compute; reflexivity..]. }
  destruct (en_passant_window 0 s 4 (mkPiece Pawn White (6, 4) false false) s1)
    as [_ [HA HB]].
  - apply wfb_wf. vm_compute. reflexivity.
  - vm_compute. reflexivity.
  - reflexivity.
  - exact Hmove.
  - split; [exact Hmove|]. split; [exact Hply|]. split; [exact Hbtm|]. split.
    + apply (HA 3 q); [reflexivity|vm_compute; reflexivity
                      |reflexivity|reflexivity].
    + apply (HB s2 s3 Hply Hbtm 3 q);
        [reflexivity|vm_compute; reflexivity|reflexivity|reflexivity
        |vm_compute; reflexivity].
Defined.

(** ** The game-over test puts every piece back *)

Lemma accepts_spec g x y p end_position n :
  wf g -> cell g x y = Some p ->
  is_valid_move (S n) p end_position g = Done (accepts p end_position g) g.
Proof.
  intros Hwf Hc.
  destruct (is_valid_move_pure g x y p end_position Hwf Hc) as [v Hv].
  unfold accepts. rewrite (Hv 0%nat). apply Hv.
Qed.

Lemma in_check_spec c g n :
  side_ok (opponent c) g -> find_king c g <> None ->
  is_king_in_check (S n) c g = Done (in_check c g) g.
Proof.
  intros Hs Hk. destruct (find_king c g) as [kp|] eqn:E; [|congruence].
  unfold in_check. rewrite (is_king_in_check_pure 0 c g kp Hs E).
  apply is_king_in_check_pure; assumption.
Qed.

Lemma in_check_threatened c g kp :
  side_ok (opponent c) g -> find_king c g = Some kp ->
  in_check c g = threatened c kp g.
Proof.
  intros Hs Hk. unfold in_check.
  now rewrite (is_king_in_check_pure 0 c g kp Hs Hk).
Qed.

Lemma side_ok_trial c g piece sx sy ex ey :
  shape g -> side_ok (opponent c) g -> color piece = c ->
  side_ok (opponent c) (trial_board g piece (sx, sy) (ex, ey)).
Proof.
  intros Hsh Hs Hc. unfold trial_board. cbn [fst snd].
  apply side_ok_set_cell.
  - now apply shape_set_cell.
  - apply side_ok_set_cell; [assumption|assumption|]. intros p Hp; discriminate.
  - intros p Hp Hcp. injection Hp as <-. cbn in Hcp.
    exfalso. apply (opponent_neq c). congruence.
Qed.

Lemma find_king_trial c g piece sx sy ex ey :
  shape g -> find_king c g <> None ->
  cell g sx sy = Some piece -> on_board ex ey = true ->
  isinstance (cell g ex ey) King = false ->
  find_king c (trial_board g piece (sx, sy) (ex, ey)) <> None.
Proof.
  intros Hsh Hk Hp Hon Hnk.
  destruct (find_king c g) as [[kx ky]|] eqn:E; [|congruence]. clear Hk.
  unfold find_king in E. apply find_some in E. destruct E as [Hin Hking].
  cbn in Hking. unfold is_king_of in Hking.
  destruct (cell g kx ky) as [k|] eqn:Ek; [|discriminate].
  apply andb_true_iff in Hking. destruct Hking as [Hkk Hkc].
  apply kind_eqb_eq in Hkk. apply color_eqb_eq in Hkc.
  assert (Hsh1 : shape (set_cell g sx sy None)) by now apply shape_set_cell.
  destruct (decide ((kx, ky) = (sx, sy))) as [Heq|Hne].
  - injection Heq as -> ->. rewrite Hp in Ek. injection Ek as ->.
    destruct (find_king_exists c (trial_board g k (sx, sy) (ex, ey)) ex ey
                (move k (ex, ey))) as [kp Hkp]; try assumption.
    + unfold trial_board. cbn [fst snd]. now apply cell_set_cell_eq.
    + rewrite Hkp. discriminate.
  - assert (Hne2 : (ex, ey) <> (kx, ky)).
    { intros Heq. injection Heq as -> ->. rewrite Ek in Hnk. cbn in Hnk.
      rewrite Hkk in Hnk. discriminate. }
    destruct (find_king_exists c (trial_board g piece (sx, sy) (ex, ey)) kx ky k)
      as [kp Hkp]; try assumption.
    + unfold trial_board. cbn [fst snd].
      rewrite cell_set_cell_ne by assumption.
      rewrite cell_set_cell_ne by congruence. assumption.
    + rewrite Hkp. discriminate.
Qed.

Lemma trial_restore g piece sx sy ex ey :
  shape g -> cell g sx sy = Some piece -> on_board ex ey = true ->
  set_cell
    (set_cell (trial_board g piece (sx, sy) (ex, ey)) sx sy (Some piece))
    ex ey (if pos_eqb (ex, ey) (sx, sy) then Some piece else cell g ex ey)
  = g.
Proof.
  intros Hsh Hp Hon.
  assert (Hos : on_board sx sy = true) by (eapply cell_Some_on_board; eauto).
  apply grid_ext; [unfold trial_board; repeat apply shape_set_cell; assumption
                  |assumption|].
  intros x y Hxy. unfold trial_board. cbn [fst snd].
  rewrite !cell_set_cell by (repeat apply shape_set_cell; assumption).
  rewrite Hon, Hos. cbn [andb].
  destruct (ex =? x) eqn:E1, (ey =? y) eqn:E2; cbn [andb];
    repeat match goal with
           | H : (_ =? _) = true |- _ => apply Z.eqb_eq in H; subst
           end.
  - destruct (pos_eqb (x, y) (sx, sy)) eqn:E3; [|reflexivity].
    apply pos_eqb_eq in E3. injection E3 as -> ->. now rewrite Hp.
  - destruct (sx =? x) eqn:E3, (sy =? y) eqn:E4; cbn [andb]; try reflexivity.
    apply Z.eqb_eq in E3, E4. subst. now rewrite Hp.
  - destruct (sx =? x) eqn:E3, (sy =? y) eqn:E4; cbn [andb]; try reflexivity.
    apply Z.eqb_eq in E3, E4. subst. now rewrite Hp.
  - destruct (sx =? x) eqn:E3, (sy =? y) eqn:E4; cbn [andb]; try reflexivity.
    apply Z.eqb_eq in E3, E4. subst. now rewrite Hp.
Qed.

Lemma move_same p sq : position p = sq -> move p sq = p.
Proof. intros <-. destruct p; reflexivity. Qed.

Lemma bind_done {S A B} (c : M S A) (k : A -> M S B) s a s' :
  c s = Done a s' -> bind c k s = k a s'.
Proof. unfold bind. now intros ->. Qed.

Lemma scan_targets_eq n c g row col piece targets :
  wf g -> find_king c g <> None ->
  cell g row col = Some piece -> color piece = c ->
  (forall e, In e targets -> on_board (fst e) (snd e) = true) ->
  scan_targets (S n) c row col piece targets g
  = Done (existsb (escape c g (row, col)) targets) g.
Proof.
  intros Hwf Hk Hp Hc.
  assert (Hsh : shape g) by apply Hwf.
  assert (Hos : on_board row col = true) by (eapply cell_Some_on_board; eauto).
  assert (Hpos : position piece = (row, col)).
  { eapply (wf_side g Hwf (color piece)); eauto. }
  induction targets as [|[er ec] rest IH]; intros Hin; [reflexivity|].
  assert (Hon : on_board er ec = true) by (apply (Hin (er, ec)); now left).
  assert (IH' : scan_targets (S n) c row col piece rest g
                = Done (existsb (escape c g (row, col)) rest) g).
  { apply IH. intros e He. apply Hin. now right. }
  clear IH.
  cbn [scan_targets existsb].
  rewrite (bind_done _ _ _ _ _ (accepts_spec g row col piece (er, ec) n Hwf Hp)).
  unfold escape at 1. cbn [get_piece]. rewrite Hp, Hc, color_eqb_refl.
  cbn [andb].
  destruct (accepts piece (er, ec) g) eqn:Ea; cbn [andb]; [|exact IH'].
  unfold bind at 1, gets at 1. cbn [get_piece].
  destruct (isinstance (cell g er ec) King) eqn:Ek; cbn [negb andb];
    [exact IH'|].
  rewrite (bind_done _ _ _ _ _ (read_on_board row col g Hos)).
  rewrite (bind_done _ _ _ _ _ (read_on_board er ec g Hon)).
  rewrite (bind_done _ _ _ _ _ (write_on_board row col None g Hos)).
  rewrite (bind_done _ _ _ _ _
             (write_on_board er ec (Some (move piece (er, ec))) _ Hon)).
  change (set_cell (set_cell g row col None) er ec (Some (move piece (er, ec))))
    with (trial_board g piece (row, col) (er, ec)).
  assert (Hchk : is_king_in_check (S n) c (trial_board g piece (row, col) (er, ec))
                 = Done (in_check c (trial_board g piece (row, col) (er, ec)))
                        (trial_board g piece (row, col) (er, ec))).
  { apply in_check_spec.
    - apply side_ok_trial; [assumption| apply Hwf |assumption].
    - apply find_king_trial; assumption. }
  rewrite (bind_done _ _ _ _ _ Hchk).
  rewrite (move_same piece (row, col) Hpos).
  rewrite (bind_done _ _ _ _ _ (write_on_board row col (Some piece) _ Hos)).
  rewrite (bind_done _ _ _ _ _ (write_on_board er ec _ _ Hon)).
  rewrite (trial_restore g piece row col er ec Hsh Hp Hon).
  destruct (in_check c (trial_board g piece (row, col) (er, ec)));
    cbn [negb orb]; [exact IH'|reflexivity].
Qed.

Lemma scan_pieces_eq n c g sqs :
  wf g -> find_king c g <> None ->
  scan_pieces (S n) c sqs g
  = Done (existsb (fun start_pos => existsb (escape c g start_pos) squares)
                  sqs) g.
Proof.
  intros Hwf Hk. induction sqs as [|[row col] rest IH]; [reflexivity|].
  cbn [scan_pieces existsb].
  unfold bind at 1, gets at 1. cbn [get_piece].
  destruct (cell g row col) as [p|] eqn:Ep.
  - destruct (color_eqb (color p) c) eqn:Ec.
    + apply color_eqb_eq in Ec.
      rewrite (bind_done _ _ _ _ _
                 (scan_targets_eq n c g row col p squares Hwf Hk Ep Ec
                    (fun e He => proj1 (in_squares (fst e) (snd e))
                                   ltac:(now destruct e)))).
      destruct (existsb (escape c g (row, col)) squares); [reflexivity|].
      exact IH.
    + replace (existsb (escape c g (row, col)) squares) with false; [exact IH|].
      symmetry. apply not_true_is_false. intros H.
      apply existsb_exists in H. destruct H as [e [_ He]].
      unfold escape in He. cbn [get_piece] in He. rewrite Ep, Ec in He.
      discriminate.
  - replace (existsb (escape c g (row, col)) squares) with false; [exact IH|].
    symmetry. apply not_true_is_false. intros H.
    apply existsb_exists in H. destruct H as [e [_ He]].
    unfold escape in He. cbn [get_piece] in He. rewrite Ep in He.
    discriminate.
Qed.

Lemma is_game_over_eq n c g :
  wf g -> find_king c g <> None ->
  is_game_over (S n) c g = Done (game_status c g) g.
Proof.
  intros Hwf Hk. unfold is_game_over.
  rewrite (bind_done _ _ _ _ _ (scan_pieces_eq n c g squares Hwf Hk)).
  unfold game_status, has_escape.
  destruct (existsb _ squares); [reflexivity|].
  rewrite (bind_done _ _ _ _ _
             (in_check_spec c g n (wf_side g Hwf (opponent c)) Hk)).
  destruct (in_check c g); reflexivity.
Qed.

Lemma find_king_None c g :
  find_king c g = None <->
  (forall x y p, cell g x y = Some p -> kind p = King -> color p <> c).
Proof.
  split.
  - intros Hn x y p Hp Hk Hc.
    destruct (find_king_exists c g x y p Hp Hk Hc) as [kp Hkp]. congruence.
  - intros H. destruct (find_king c g) as [[kx ky]|] eqn:E; [|reflexivity].
    unfold find_king in E. apply find_some in E. destruct E as [_ E].
    cbn in E. unfold is_king_of in E.
    destruct (cell g kx ky) as [k|] eqn:Ek; [|discriminate].
    apply andb_true_iff in E. destruct E as [E1 E2].
    apply kind_eqb_eq in E1. apply color_eqb_eq in E2.
    exfalso. exact (H kx ky k Ek E1 E2).
Qed.

Lemma find_king_trial_None c g piece sx sy ex ey :
  shape g -> find_king c g = None -> cell g sx sy = Some piece ->
  find_king c (trial_board g piece (sx, sy) (ex, ey)) = None.
Proof.
  intros Hsh Hn Hp. rewrite find_king_None in Hn |- *.
  intros x y p Hc Hk. unfold trial_board in Hc. cbn [fst snd] in Hc.
  rewrite !cell_set_cell in Hc by (repeat apply shape_set_cell; assumption).
  destruct (on_board ex ey && (ex =? x) && (ey =? y)).
  - injection Hc as <-. cbn in Hk |- *. exact (Hn sx sy piece Hp Hk).
  - destruct (on_board sx sy && (sx =? x) && (sy =? y)); [discriminate|].
    exact (Hn x y p Hc Hk).
Qed.

Lemma scan_targets_no_king n c g row col piece targets :
  wf g -> find_king c g = None ->
  cell g row col = Some piece -> color piece = c ->
  (forall e, In e targets -> on_board (fst e) (snd e) = true) ->
  match scan_targets (S n) c row col piece targets g with
  | Done r g' => r = false /\ g' = g
  | Raised e _ => e = ValueError
  | OutOfFuel => False
  end.
Proof.
  intros Hwf Hk Hp Hc.
  assert (Hsh : shape g) by apply Hwf.
  assert (Hos : on_board row col = true) by (eapply cell_Some_on_board; eauto).
  assert (Hpos : position piece = (row, col)).
  { eapply (wf_side g Hwf (color piece)); eauto. }
  induction targets as [|[er ec] rest IH]; intros Hin; [now split|].
  assert (Hon : on_board er ec = true) by (apply (Hin (er, ec)); now left).
  assert (IH' : match scan_targets (S n) c row col piece rest g with
                | Done r g' => r = false /\ g' = g
                | Raised e _ => e = ValueError
                | OutOfFuel => False
                end).
  { apply IH. intros e He. apply Hin. now right. }
  clear IH.
  cbn [scan_targets].
  rewrite (bind_done _ _ _ _ _ (accepts_spec g row col piece (er, ec) n Hwf Hp)).
  destruct (accepts piece (er, ec) g); [|exact IH'].
  unfold bind at 1, gets at 1. cbn [get_piece].
  destruct (isinstance (cell g er ec) King); cbn [negb]; [exact IH'|].
  rewrite (bind_done _ _ _ _ _ (read_on_board row col g Hos)).
  rewrite (bind_done _ _ _ _ _ (read_on_board er ec g Hon)).
  rewrite (bind_done _ _ _ _ _ (write_on_board row col None g Hos)).
  rewrite (bind_done _ _ _ _ _
             (write_on_board er ec (Some (move piece (er, ec))) _ Hon)).
  change (set_cell (set_cell g row col None) er ec (Some (move piece (er, ec))))
    with (trial_board g piece (row, col) (er, ec)).
  unfold bind at 1.
  rewrite (is_king_in_check_no_king n c _
             (find_king_trial_None c g piece row col er ec Hsh Hk Hp)).
  reflexivity.
Qed.

Lemma scan_pieces_no_king n c g sqs :
  wf g -> find_king c g = None ->
  match scan_pieces (S n) c sqs g with
  | Done r g' => r = false /\ g' = g
  | Raised e _ => e = ValueError
  | OutOfFuel => False
  end.
Proof.
  intros Hwf Hk. induction sqs as [|[row col] rest IH]; [now split|].
  cbn [scan_pieces].
  unfold bind at 1, gets at 1. cbn [get_piece].
  destruct (cell g row col) as [p|] eqn:Ep; [|exact IH].
  destruct (color_eqb (color p) c) eqn:Ec; [|exact IH].
  apply color_eqb_eq in Ec.
  pose proof (scan_targets_no_king n c g row col p squares Hwf Hk Ep Ec
                (fun e He => proj1 (in_squares (fst e) (snd e))
                               ltac:(now destruct e))) as H.
  unfold bind at 1.
  destruct (scan_targets (S n) c row col p squares g) as [r g'|e g'|];
    [|exact H|exact H].
  destruct H as [-> ->]. exact IH.
Qed.

Lemma is_game_over_no_king n c g :
  wf g -> find_king c g = None ->
  exists g', is_game_over (S n) c g = Raised ValueError g'.
Proof.
  intros Hwf Hk. unfold is_game_over.
  pose proof (scan_pieces_no_king n c g squares Hwf Hk) as H.
  unfold bind at 1.
  destruct (scan_pieces (S n) c squares g) as [r g'|e g'|]; [| |contradiction].
  - destruct H as [-> ->]. exists g.
    unfold bind. now rewrite (is_king_in_check_no_king n c g Hk).
  - subst e. now exists g'.
Qed.

Lemma is_game_over_Done n c g r g' :
  wf g -> is_game_over (S n) c g = Done r g' ->
  g' = g /\ r = game_status c g /\ find_king c g <> None.
Proof.
  intros Hwf H. destruct (find_king c g) as [kp|] eqn:E.
  - rewrite is_game_over_eq in H by (assumption || congruence).
    injection H as <- <-. repeat split; congruence.
  - destruct (is_game_over_no_king n c g Hwf E) as [g1 H1]. congruence.
Qed.

Lemma has_escape_iff n c g :
  wf g -> find_king c g <> None ->
  has_escape c g = true <->
  exists sx sy p ex ey,
    cell g sx sy = Some p /\ color p = c /\ on_board ex ey = true /\
    is_valid_move (S n) p (ex, ey) g = Done true g /\
    isinstance (cell g ex ey) King = false /\
    is_king_in_check (S n) c (trial_board g p (sx, sy) (ex, ey))
    = Done false (trial_board g p (sx, sy) (ex, ey)).
Proof.
  intros Hwf Hk.
  assert (forall sx sy p ex ey,
            cell g sx sy = Some p -> color p = c -> on_board ex ey = true ->
            isinstance (cell g ex ey) King = false ->
            is_king_in_check (S n) c (trial_board g p (sx, sy) (ex, ey))
            = Done (in_check c (trial_board g p (sx, sy) (ex, ey)))
                   (trial_board g p (sx, sy) (ex, ey))) as Hchk.
  { intros sx sy p ex ey Hp Hc Hon Hnk. apply in_check_spec.
    - apply side_ok_trial; [apply Hwf|apply Hwf|exact Hc].
    - apply find_king_trial; [apply Hwf|exact Hk|exact Hp|exact Hon
                             |exact Hnk]. }
  unfold has_escape. rewrite existsb_exists. split.
  - intros [[sx sy] [_ H]]. apply existsb_exists in H as [[ex ey] [Hin H]].
    apply in_squares in Hin. unfold escape in H. cbn [get_piece] in H.
    destruct (cell g sx sy) as [p|] eqn:Hp; [|discriminate].
    apply andb_true_iff in H as [H H4]. apply andb_true_iff in H as [H H3].
    apply andb_true_iff in H as [H1 H2].
    apply color_eqb_eq in H1. apply negb_true_iff in H3, H4.
    exists sx, sy, p, ex, ey.
    split; [exact Hp|]. split; [exact H1|]. split; [exact Hin|].
    split; [|split; [exact H3|]].
    + rewrite (accepts_spec g sx sy p (ex, ey) n Hwf Hp). now rewrite H2.
    + rewrite (Hchk sx sy p ex ey Hp H1 Hin H3). now rewrite H4.
  - intros [sx [sy [p [ex [ey [Hp [Hc [Hon [Hv [Hnk Hsafe]]]]]]]]]].
    exists (sx, sy). split.
    { apply in_squares. eapply cell_Some_on_board; eauto. }
    apply existsb_exists. exists (ex, ey). split; [now apply in_squares|].
    unfold escape. cbn [get_piece]. rewrite Hp, Hc, color_eqb_refl, Hnk.
    rewrite (accepts_spec g sx sy p (ex, ey) n Hwf Hp) in Hv.
    injection Hv as ->.
    rewrite (Hchk sx sy p ex ey Hp Hc Hon Hnk) in Hsafe.
    injection Hsafe as ->. reflexivity.
Qed.

(** X21.  On a well-formed board [is_game_over] returns with the board
    exactly as it found it, every simulated move undone.  It answers [False]
    exactly when some piece of the colour accepts a destination on the board
    that holds no king and, with the piece simply put on that destination,
    the check test finds the colour's king unattacked; otherwise it answers
    ["checkmate"] when the check test on the board answers [True] and
    ["stalemate"] when it answers [False].  When the colour has no king on
    the board the call ends in [ValueError]. *)
Theorem game_over_test_answer n c g :
  wf g ->
  match find_king c g with
  | None => exists g', is_game_over (S n) c g = Raised ValueError g'
  | Some _ =>
      exists r,
        is_game_over (S n) c g = Done r g /\
        (r = NotOver <->
         exists sx sy p ex ey,
           cell g sx sy = Some p /\ color p = c /\ on_board ex ey = true /\
           is_valid_move (S n) p (ex, ey) g = Done true g /\
           isinstance (cell g ex ey) King = false /\
           is_king_in_check (S n) c (trial_board g p (sx, sy) (ex, ey))
           = Done false (trial_board g p (sx, sy) (ex, ey))) /\
        (r = Checkmate -> is_king_in_check (S n) c g = Done true g) /\
        (r = Stalemate -> is_king_in_check (S n) c g = Done false g)
  end.
Proof.
  intros Hwf. destruct (find_king c g) as [kp|] eqn:Hk.
  2:{ exact (is_game_over_no_king n c g Hwf Hk). }
  assert (find_king c g <> None) as Hk' by congruence.
  exists (game_status c g).
  split; [exact (is_game_over_eq n c g Hwf Hk')|].
  pose proof (has_escape_iff n c g Hwf Hk') as Hesc.
  pose proof (in_check_spec c g n (wf_side g Hwf (opponent c)) Hk') as Hchk.
  unfold game_status.
  destruct (has_escape c g).
  - split; [|split; discriminate].
    split; [intros _; now apply Hesc|reflexivity].
  - split.
    + split.
      * destruct (in_check c g); discriminate.
      * intros H. apply Hesc in H. discriminate.
    + destruct (in_check c g); split; try discriminate; intros _; exact Hchk.
Qed.

Lemma game_over_test_answer_witness :
  exists r,
    is_game_over 1 Black en_passant_escape = Done r en_passant_escape /\
    (r = NotOver <->
     exists sx sy p ex ey,
       cell en_passant_escape sx sy = Some p /\ color p = Black /\
       on_board ex ey = true /\
       is_valid_move 1 p (ex, ey) en_passant_escape
       = Done true en_passant_escape /\
       isinstance (cell en_passant_escape ex ey) King = false /\
       is_king_in_check 1 Black
         (trial_board en_passant_escape p (sx, sy) (ex, ey))
       = Done false (trial_board en_passant_escape p (sx, sy) (ex, ey))) /\
    (r = Checkmate ->
     is_king_in_check 1 Black en_passant_escape
     = Done true en_passant_escape) /\
    (r = Stalemate ->
     is_king_in_check 1 Black en_passant_escape
     = Done false en_passant_escape).
Proof.
  assert (wf en_passant_escape) as Hwf
    by (apply wfb_wf; vm_compute; reflexivity).
  exact (game_over_test_answer 0 Black en_passant_escape Hwf).
Defined.

(** ** What the check test answers *)

Lemma threatened_iff c kp g :
  threatened c kp g = true <->
  exists x y q, cell g x y = Some q /\ color q = opponent c /\
                threat q kp g = true.
Proof.
  unfold threatened. rewrite existsb_exists. split.
  - intros [[x y] [_ H]]. cbn [get_piece] in H.
    destruct (cell g x y) as [q|] eqn:E; [|discriminate].
    apply andb_true_iff in H as [H1 H2]. apply color_eqb_eq in H1.
    now exists x, y, q.
  - intros [x [y [q [Hq [Hc Ht]]]]]. exists (x, y). split.
    + apply in_squares. eapply cell_Some_on_board; eauto.
    + cbn [get_piece]. rewrite Hq, Hc, color_eqb_refl. exact Ht.
Qed.

Lemma is_king_in_check_iff n c g kp :
  side_ok (opponent c) g -> find_king c g = Some kp ->
  exists b,
    is_king_in_check (S n) c g = Done b g /\
    (b = true <->
     exists x y q, cell g x y = Some q /\ color q = opponent c /\
                   is_valid_move (S n) q kp g = Done true g).
Proof.
  intros Hs Hk. exists (threatened c kp g).
  split; [now apply is_king_in_check_pure|].
  rewrite threatened_iff.
  assert (forall x y q, cell g x y = Some q -> color q = opponent c ->
            is_valid_move (S n) q kp g = Done (threat q kp g) g) as Hv.
  { intros x y q Hq Hc. destruct (Hs x y q Hq Hc) as [Hpos Hhome].
    apply (threat_pure _ q kp g x y Hq Hpos Hhome).
    eapply find_king_Some; eauto. }
  split; intros [x [y [q [Hq [Hc H]]]]]; exists x, y, q;
    (split; [exact Hq|split; [exact Hc|]]).
  - rewrite (Hv x y q Hq Hc). now rewrite H.
  - rewrite (Hv x y q Hq Hc) in H. now injection H.
Qed.

(** X20.  On a board on which the pieces of the other colour carry the
    coordinates of their cells, [is_king_in_check] leaves the board as it
    was; it raises [ValueError] when the colour has no king on the board,
    and otherwise answers [True] exactly when some piece of the other
    colour accepts the square of the first king of the colour as a
    destination. *)
Theorem check_test_answer n c g :
  side_ok (opponent c) g ->
  match find_king c g with
  | None => is_king_in_check (S n) c g = Raised ValueError g
  | Some kp =>
      exists b,
        is_king_in_check (S n) c g = Done b g /\
        (b = true <->
         exists x y q, cell g x y = Some q /\ color q = opponent c /\
                       is_valid_move (S n) q kp g = Done true g)
  end.
Proof.
  intros Hs. destruct (find_king c g) as [kp|] eqn:Hk.
  - exact (is_king_in_check_iff n c g kp Hs Hk).
  - exact (is_king_in_check_no_king n c g Hk).
Qed.

Lemma check_test_answer_witness :
  exists b,
    is_king_in_check 1 White king_in_check = Done b king_in_check /\
    (b = true <->
     exists x y q, cell king_in_check x y = Some q /\
                   color q = opponent White /\
                   is_valid_move 1 q (7, 4) king_in_check
                   = Done true king_in_check).
Proof.
  assert (side_ok (opponent White) king_in_check) as Hs
    by (apply (wf_side king_in_check); apply wfb_wf; vm_compute; reflexivity).
  exact (check_test_answer 0 White king_in_check Hs).
Defined.

(** ** Destinations outside the lists *)

Lemma ends_with_bind {S A B} E (Q : A -> Prop) (P : B -> Prop)
    (c : M S A) (k : A -> M S B) :
  ends_with E Q c -> (forall a, Q a -> ends_with E P (k a)) ->
  ends_with E P (bind c k).
Proof.
  intros Hc Hk s. unfold bind. specialize (Hc s).
  destruct (c s) as [a s'|e s'|]; [|assumption|assumption].
  apply (Hk a Hc).
Qed.

Lemma ends_with_ret {S A} E (P : A -> Prop) (a : A) :
  P a -> ends_with (S:=S) E P (ret a).
Proof. intros H s. exact H. Qed.

Lemma ends_with_gets {S A} E (f : S -> A) :
  ends_with E (fun _ => True) (gets f).
Proof. intros s. exact I. Qed.

Lemma ends_with_modify {S} E (f : S -> S) :
  ends_with E (fun _ => True) (modify f).
Proof. intros s. exact I. Qed.

Lemma ends_with_write x y v :
  ends_with (fun e => e = IndexError) (fun _ => True) (write x y v).
Proof. intros s. unfold write. now destruct (store s x y v). Qed.

Lemma ends_with_read x y :
  ends_with (fun e => e = IndexError)
            (fun _ => wrap x <> None /\ wrap y <> None) (read x y).
Proof.
  intros s. unfold read, index.
  destruct (wrap x), (wrap y); cbn; try reflexivity. split; discriminate.
Qed.

Lemma ends_with_weaken {S A} E (P Q : A -> Prop) (c : M S A) :
  ends_with E P c -> (forall a, P a -> Q a) -> ends_with E Q c.
Proof.
  intros H HPQ s. specialize (H s). destruct (c s); auto.
Qed.

Lemma simulate_move_outcome piece sx sy ex ey c :
  ends_with (fun e => e = IndexError)
            (fun _ => wrap ex <> None /\ wrap ey <> None)
            (simulate_move piece (sx, sy) (ex, ey) c).
Proof.
  unfold simulate_move.
  eapply ends_with_bind; [apply ends_with_gets|intros empty_end _].
  eapply ends_with_bind with (Q := fun _ => True).
  { destruct (_ && _).
    - eapply ends_with_bind; [apply ends_with_gets|intros ? _].
      eapply ends_with_bind; [apply ends_with_write|intros ? _].
      now apply ends_with_ret.
    - now apply ends_with_ret. }
  intros captured _.
  eapply ends_with_bind; [apply ends_with_modify|intros ? _].
  eapply ends_with_bind with (Q := fun _ => True).
  { destruct (_ && _); [apply ends_with_modify|now apply ends_with_ret]. }
  intros ? _.
  eapply ends_with_bind with (Q := fun _ => True).
  { destruct (_ && _); [|now apply ends_with_ret].
    eapply ends_with_bind; [apply ends_with_gets|intros rook _].
    destruct rook as [r|]; [|now apply ends_with_ret].
    destruct (kind_eqb (kind r) Rook); [|now apply ends_with_ret].
    eapply ends_with_bind; [apply ends_with_write|intros ? _].
    eapply ends_with_bind; [apply ends_with_write|intros ? _].
    now apply ends_with_ret. }
  intros castle _.
  eapply ends_with_bind; [apply ends_with_read|intros original Hw].
  eapply ends_with_bind; [apply ends_with_write|intros ? _].
  eapply ends_with_bind; [apply ends_with_write|intros ? _].
  now apply ends_with_ret.
Qed.

Lemma move_piece_no_piece fuel s start_pos end_pos c :
  (forall p, get_piece (board s) start_pos = Some p -> color p <> c) ->
  move_piece fuel start_pos end_pos c s = Done false s.
Proof.
  intros H. unfold move_piece, bind at 1, gets at 1.
  destruct (get_piece (board s) start_pos) as [p|] eqn:E; [|reflexivity].
  destruct (color_eqb (color p) c) eqn:Ec; [|reflexivity].
  apply color_eqb_eq in Ec. now destruct (H p eq_refl).
Qed.

Lemma move_piece_off_grid_raises n s sx sy ex ey c piece :
  cell (board s) sx sy = Some piece -> color piece = c ->
  wrap ex = None \/ wrap ey = None ->
  is_valid_move (S n) piece (ex, ey) (board s) = Done true (board s) ->
  exists s', move_piece (S n) (sx, sy) (ex, ey) c s = Raised IndexError s'.
Proof.
  intros Hp Hc Hw Hv.
  rewrite (move_piece_eq _ s sx sy ex ey c piece Hp Hc).
  unfold on_grid, move_attempt. cbn [board save_state last_state].
  unfold bind at 1. rewrite Hv. unfold bind at 1.
  pose proof (simulate_move_outcome piece sx sy ex ey c (board s)) as H.
  destruct (simulate_move piece (sx, sy) (ex, ey) c (board s))
    as [l g'|e g'|]; [|subst e; eauto|contradiction].
  exfalso. destruct H as [H1 H2]. destruct Hw; contradiction.
Qed.

Lemma move_piece_off_grid_Done n s sx sy ex ey c r s' :
  wf (board s) -> wrap ex = None \/ wrap ey = None ->
  move_piece (S n) (sx, sy) (ex, ey) c s = Done r s' ->
  r = false /\ board s' = board s.
Proof.
  intros Hwf Hw H.
  destruct (cell (board s) sx sy) as [piece|] eqn:Hp.
  2:{ rewrite move_piece_no_piece in H.
      - injection H as <- <-. now split.
      - cbn [get_piece]. rewrite Hp. discriminate. }
  destruct (color_eqb (color piece) c) eqn:Hc.
  2:{ rewrite move_piece_no_piece in H.
      - injection H as <- <-. now split.
      - cbn [get_piece]. rewrite Hp. intros p [= <-] Hcp.
        apply color_eqb_eq in Hcp. congruence. }
  apply color_eqb_eq in Hc.
  pose proof (accepts_spec (board s) sx sy piece (ex, ey) n Hwf Hp) as Hv.
  destruct (accepts piece (ex, ey) (board s)).
  - destruct (move_piece_off_grid_raises n s sx sy ex ey c piece Hp Hc Hw Hv)
      as [s1 H1]. congruence.
  - rewrite (move_piece_rejected _ s sx sy ex ey c piece Hp Hc Hv) in H.
    injection H as <- <-. now split.
Qed.

(** X15.  A destination outside the index range of the lists is not caught
    by [move_piece]: on a well-formed board, when the piece of the mover on
    the start square accepts such a destination the call ends in
    [IndexError]; when the piece rejects it the call returns [False] and
    only the snapshot changes. *)
Theorem off_grid_destination n s sx sy ex ey c piece :
  wf (board s) -> cell (board s) sx sy = Some piece -> color piece = c ->
  wrap ex = None \/ wrap ey = None ->
  exists v,
    is_valid_move (S n) piece (ex, ey) (board s) = Done v (board s) /\
    if v
    then exists s',
           move_piece (S n) (sx, sy) (ex, ey) c s = Raised IndexError s'
    else move_piece (S n) (sx, sy) (ex, ey) c s = Done false (save_state s).
Proof.
  intros Hwf Hp Hc Hw.
  pose proof (accepts_spec (board s) sx sy piece (ex, ey) n Hwf Hp) as Hv.
  exists (accepts piece (ex, ey) (board s)). split; [exact Hv|].
  destruct (accepts piece (ex, ey) (board s)).
  - exact (move_piece_off_grid_raises n s sx sy ex ey c piece Hp Hc Hw Hv).
  - exact (move_piece_rejected _ s sx sy ex ey c piece Hp Hc Hv).
Qed.

Lemma off_grid_destination_witness :
  exists v,
    is_valid_move 1 (mkPiece Rook White (7, 0) false false) (8, 0)
                  (board new_board) = Done v (board new_board) /\
    if v
    then exists s',
           move_piece 1 (7, 0) (8, 0) White new_board = Raised IndexError s'
    else move_piece 1 (7, 0) (8, 0) White new_board
         = Done false (save_state new_board).
Proof.
  assert (wf (board new_board)) as Hwf
    by (apply wfb_wf; vm_compute; reflexivity).
  assert (cell (board new_board) 7 0
          = Some (mkPiece Rook White (7, 0) false false)) as Hp
    by (vm_compute; reflexivity).
  exact (off_grid_destination 0 new_board 7 0 8 0 White
           (mkPiece Rook White (7, 0) false false)
           Hwf Hp eq_refl (or_introl eq_refl)).
Defined.

(** ** No move makes a second king *)

Lemma prepared_king g piece sx sy ex ey c x y p :
  shape g ->
  cell (prepared_board g piece (sx, sy) (ex, ey) c) x y = Some p ->
  kind p = King ->
  exists p0, cell g x y = Some p0 /\ kind p0 = King /\ color p0 = color p.
Proof.
  intros Hs. unfold prepared_board.
  set (g1 := if _ && _ && _ then set_cell g sx ey None else g).
  assert (shape g1) as Hs1
    by (subst g1; destruct (_ && _ && _); [now apply shape_set_cell|exact Hs]).
  assert (forall q, cell g1 x y = Some q -> cell g x y = Some q) as H1.
  { intros q. subst g1. destruct (_ && _ && _); [|tauto].
    rewrite cell_set_cell by exact Hs.
    destruct (_ && _ && _); [discriminate|tauto]. }
  set (g2 := clear_en_passant c g1).
  assert (shape g2) as Hs2 by now apply shape_clear_en_passant.
  set (g3 := if kind_eqb (kind (clear_flag c piece)) Pawn && _
             then set_cell g2 sx sy _ else g2).
  assert (shape g3) as Hs3
    by (subst g3; destruct (kind_eqb (kind (clear_flag c piece)) Pawn && _);
        [now apply shape_set_cell|exact Hs2]).
  assert (cell g3 x y = Some p -> kind p = King ->
          exists p0, cell g x y = Some p0 /\ kind p0 = King
                     /\ color p0 = color p) as H3.
  { intros Hc HK.
    assert (cell g2 x y = Some p) as Hc2.
    { subst g3.
      destruct (kind_eqb (kind (clear_flag c piece)) Pawn && _) eqn:E;
        [|exact Hc].
      rewrite cell_set_cell in Hc by exact Hs2.
      destruct (on_board sx sy && (sx =? x) && (sy =? y)); [|exact Hc].
      injection Hc as <-. rewrite kind_flagged in HK.
      apply andb_true_iff in E as [E _]. apply kind_eqb_eq in E.
      rewrite kind_clear_flag in E. congruence. }
    subst g2. rewrite cell_clear_en_passant in Hc2.
    destruct (cell g1 x y) as [q|] eqn:Eq; [|discriminate].
    cbn in Hc2. injection Hc2 as <-. exists q.
    rewrite kind_clear_flag in HK. rewrite color_clear_flag.
    split; [now apply H1|]. now split. }
  destruct (kind_eqb (kind (flagged _ _ _ _)) King && _); [|exact H3].
  destruct (get_piece g3 _) as [r|]; [|exact H3].
  destruct (kind_eqb (kind r) Rook) eqn:ER; [|exact H3].
  rewrite !cell_set_cell by (repeat apply shape_set_cell; exact Hs3).
  match goal with |- (if ?b then _ else _) = _ -> _ => destruct b end.
  - intros [= <-] HK. cbn in HK. apply kind_eqb_eq in ER. congruence.
  - match goal with |- (if ?b then _ else _) = _ -> _ => destruct b end;
      [discriminate|exact H3].
Qed.

Lemma final_king g piece sx sy ex ey c x y p :
  shape g -> cell g sx sy = Some piece ->
  cell (final_board g piece (sx, sy) (ex, ey) c) x y = Some p ->
  kind p = King ->
  ((x, y) = (ex, ey) /\ kind piece = King /\ color piece = color p)
  \/ ((x, y) <> (sx, sy) /\
      exists p0, cell g x y = Some p0 /\ kind p0 = King
                 /\ color p0 = color p).
Proof.
  intros Hs Hp Hc HK.
  pose proof (cell_Some_on_board _ _ _ _ Hp) as Hos.
  rewrite cell_final in Hc by exact Hs. rewrite Hos in Hc. cbn [andb] in Hc.
  destruct (on_board ex ey && (ex =? x) && (ey =? y)
            && negb (pos_eqb (ex, ey) (sx, sy))) eqn:E1.
  - left. injection Hc as <-.
    apply andb_true_iff in E1 as [E1 _]. apply andb_true_iff in E1 as [E1 Ey].
    apply andb_true_iff in E1 as [_ Ex]. apply Z.eqb_eq in Ex, Ey. subst.
    cbn in HK |- *. rewrite kind_flagged in HK. rewrite color_flagged.
    now split.
  - destruct ((sx =? x) && (sy =? y)) eqn:E2; [discriminate|].
    assert ((x, y) <> (sx, sy)) as Hne.
    { intros [= -> ->]. now rewrite !Z.eqb_refl in E2. }
    destruct (on_board ex ey && (ex =? x) && (ey =? y)) eqn:E3.
    + exfalso. cbn [andb] in E1. apply negb_false_iff, pos_eqb_eq in E1.
      injection E1 as -> ->.
      apply andb_true_iff in E3 as [E3 Ey]. apply andb_true_iff in E3 as [_ Ex].
      now rewrite Ex, Ey in E2.
    + right. split; [exact Hne|]. eapply prepared_king; eauto.
Qed.

Lemma one_king_final g piece sx sy ex ey c :
  shape g -> one_king g -> cell g sx sy = Some piece ->
  one_king (final_board g piece (sx, sy) (ex, ey) c).
Proof.
  intros Hs H1 Hp x y p x' y' p' Hc Hc' HK HK' Hcol.
  destruct (final_king g piece sx sy ex ey c x y p Hs Hp Hc HK)
    as [[E [K C]]|[N [p0 [C0 [K0 L0]]]]];
  destruct (final_king g piece sx sy ex ey c x' y' p' Hs Hp Hc' HK')
    as [[E' [K' C']]|[N' [p0' [C0' [K0' L0']]]]].
  - congruence.
  - exfalso. apply N'. symmetry.
    apply (H1 sx sy piece x' y' p0' Hp C0' K K0'). congruence.
  - exfalso. apply N.  symmetry.
    apply (H1 sx sy piece x y p0 Hp C0 K' K0). congruence.
  - apply (H1 x y p0 x' y' p0' C0 C0' K0 K0'). congruence.
Qed.

Lemma one_king_modulo_flags g g' :
  one_king g -> same_modulo_flags g g' -> one_king g'.
Proof.
  intros H1 Hsm x y p x' y' p' Hc Hc' HK HK' Hcol.
  pose proof (Hsm x y) as E. pose proof (Hsm x' y') as E'.
  rewrite Hc in E. rewrite Hc' in E'.
  destruct (cell g x y) as [q|] eqn:Eq; [|discriminate].
  destruct (cell g x' y') as [q'|] eqn:Eq'; [|discriminate].
  cbn in E, E'. injection E as E. injection E' as E'.
  apply (H1 x y q x' y' q' Eq Eq').
  - destruct p, q; cbn in *; congruence.
  - destruct p', q'; cbn in *; congruence.
  - destruct p, q, p', q'; cbn in *; congruence.
Qed.

Lemma one_king_set_cell g x y v :
  shape g -> one_king g ->
  (forall p, v = Some p -> kind p <> King) ->
  one_king (set_cell g x y v).
Proof.
  intros Hs H1 Hv a b p a' b' p' Hc Hc' HK HK' Hcol.
  rewrite cell_set_cell in Hc, Hc' by exact Hs.
  destruct (on_board x y && (x =? a) && (y =? b));
    [now destruct (Hv p Hc)|].
  destruct (on_board x y && (x =? a') && (y =? b'));
    [now destruct (Hv p' Hc')|].
  exact (H1 a b p a' b' p' Hc Hc' HK HK' Hcol).
Qed.

(** ** The snapshot of an attempt *)

Lemma move_piece_last_state fuel s start_pos end_pos c r s' :
  move_piece fuel start_pos end_pos c s = Done r s' ->
  last_state s' = last_state s \/ last_state s' = Some (board s).
Proof.
  unfold move_piece, bind at 1, gets at 1.
  destruct (get_piece (board s) start_pos) as [p|];
    [|intros [= <- <-]; now left].
  destruct (negb (color_eqb (color p) c)); [intros [= <- <-]; now left|].
  unfold bind, modify, on_grid. cbn [board save_state last_state].
  destruct (move_attempt fuel p start_pos end_pos c (board s));
    try discriminate.
  intros [= <- <-]. now right.
Qed.

Lemma move_piece_snapshot_any fuel s start_pos end_pos c r s' :
  move_piece fuel start_pos end_pos c s = Done r s' ->
  match get_piece (board s) start_pos with
  | Some p =>
      if color_eqb (color p) c then last_state s' = Some (board s)
      else r = false /\ s' = s
  | None => r = false /\ s' = s
  end.
Proof.
  unfold move_piece, bind at 1, gets at 1.
  destruct (get_piece (board s) start_pos) as [p|];
    [|intros [= <- <-]; now split].
  destruct (color_eqb (color p) c); cbn [negb];
    [|intros [= <- <-]; now split].
  unfold bind, modify, on_grid. cbn [board save_state last_state].
  destruct (move_attempt fuel p start_pos end_pos c (board s));
    try discriminate.
  now intros [= <- <-].
Qed.

(** X17.  Every call of [move_piece] that finds a piece of the mover on the
    start square stores the board before the call in the snapshot slot,
    whether the move is completed or not; [undo_move] right after such a
    call gives back that board exactly, en-passant flags included, and
    empties the slot. *)
Theorem attempt_overwrites_snapshot fuel s start_pos end_pos c r s' p :
  get_piece (board s) start_pos = Some p -> color p = c ->
  move_piece fuel start_pos end_pos c s = Done r s' ->
  last_state s' = Some (board s) /\
  undo_move s' = mkBoard (board s) None.
Proof.
  intros Hp Hc H.
  pose proof (move_piece_snapshot_any _ _ _ _ _ _ _ H) as Hsnap.
  rewrite Hp, Hc, color_eqb_refl in Hsnap.
  split; [exact Hsnap|].
  unfold undo_move. rewrite Hsnap.
  destruct (board s) as [|row rows] eqn:E; [|reflexivity].
  destruct start_pos as [x y]. cbn [get_piece] in Hp. unfold cell in Hp.
  destruct (on_board x y); [|discriminate].
  now rewrite lookup_nil in Hp.
Qed.

Lemma attempt_overwrites_snapshot_witness :
  move_piece 1 (6, 0) (4, 0) White (mkBoard king_in_check None)
  = Done false (play 1 (6, 0) (4, 0) White (mkBoard king_in_check None)) /\
  last_state (play 1 (6, 0) (4, 0) White (mkBoard king_in_check None))
  = Some king_in_check /\
  undo_move (play 1 (6, 0) (4, 0) White (mkBoard king_in_check None))
  = mkBoard king_in_check None.
Proof.
  assert (move_piece 1 (6, 0) (4, 0) White (mkBoard king_in_check None)
          = Done false
              (play 1 (6, 0) (4, 0) White (mkBoard king_in_check None))) as H
    by (vm_compute; reflexivity).
  assert (get_piece (board (mkBoard king_in_check None)) (6, 0)
          = Some (mkPiece Pawn White (6, 0) false false)) as Hp
    by (vm_compute; reflexivity).
  split; [exact H|].
  exact (attempt_overwrites_snapshot 1 (mkBoard king_in_check None)
           (6, 0) (4, 0) White false _
           (mkPiece Pawn White (6, 0) false false) Hp eq_refl H).
Defined.

(** ** The invariants along a game *)

Lemma move_piece_invariant n s sx sy ex ey c r s' :
  wf (board s) -> one_king (board s) ->
  on_board ex ey = true \/ wrap ex = None \/ wrap ey = None ->
  move_piece (S n) (sx, sy) (ex, ey) c s = Done r s' ->
  wf (board s') /\ one_king (board s').
Proof.
  intros Hwf H1 [Hon|Hw] H.
  - destruct r.
    + destruct (move_piece_success n s sx sy ex ey c s' Hwf Hon H)
        as [piece [Hp [_ [_ [_ ->]]]]]. cbn [board]. split.
      * now apply wf_final.
      * apply one_king_final; [apply Hwf|assumption|assumption].
    + destruct (move_piece_false_board n s sx sy ex ey c s' Hwf Hon H)
        as [Hwf' Hsm]. split; [assumption|].
      eapply one_king_modulo_flags; eauto.
  - destruct (move_piece_off_grid_Done n s sx sy ex ey c r s' Hwf Hw H)
      as [_ ->]. now split.
Qed.

Lemma board_ok_new_board : board_ok (board new_board).
Proof.
  split; [apply wfb_wf|apply one_kingb_one_king]; vm_compute; reflexivity.
Qed.

(** X2.  [move_piece] keeps the board well formed with at most one king of
    a colour, whatever it answers, for a destination on the board or
    outside the index range of the lists; the snapshot slot afterwards holds
    what it held before or the board before the call. *)
Theorem move_piece_keeps_board_ok n s sx sy ex ey c r s' :
  board_ok (board s) ->
  on_board ex ey = true \/ wrap ex = None \/ wrap ey = None ->
  move_piece (S n) (sx, sy) (ex, ey) c s = Done r s' ->
  board_ok (board s') /\
  (last_state s' = last_state s \/ last_state s' = Some (board s)).
Proof.
  intros [Hwf H1] Hd H. split.
  - exact (move_piece_invariant n s sx sy ex ey c r s' Hwf H1 Hd H).
  - exact (move_piece_last_state _ _ _ _ _ _ _ H).
Qed.

Lemma move_piece_keeps_board_ok_witness :
  move_piece 1 (6, 4) (4, 4) White new_board
  = Done true (play 1 (6, 4) (4, 4) White new_board) /\
  board_ok (board (play 1 (6, 4) (4, 4) White new_board)).
Proof.
  assert (move_piece 1 (6, 4) (4, 4) White new_board
          = Done true (play 1 (6, 4) (4, 4) White new_board)) as H
    by (vm_compute; reflexivity).
  split; [exact H|].
  exact (proj1 (move_piece_keeps_board_ok 0 new_board 6 4 4 4 White true _
                  board_ok_new_board (or_introl eq_refl) H)).
Defined.

Lemma game_ok_new_game : game_ok new_game.
Proof.
  split; [exact board_ok_new_board|]. split; intros ? H; discriminate.
Qed.

Lemma board_ok_promotion g x y k c :
  board_ok g -> on_board x y = true -> k <> King ->
  board_ok (set_cell g x y (Some (new_piece k c (x, y)))).
Proof.
  intros [Hwf H1] Hon Hk. split.
  - split; [apply shape_set_cell; apply Hwf|]. intros c'.
    apply side_ok_set_cell; [apply Hwf|apply Hwf|].
    intros p [= <-] _. cbn. split; [reflexivity|]. intros; contradiction.
  - apply one_king_set_cell; [apply Hwf|assumption|].
    intros p [= <-]. exact Hk.
Qed.

Lemma promotion_choices_kind mouse_x mouse_y k r :
  List.find (fun ch => collidepoint (fst (snd ch)) (snd (snd ch))
                         mouse_x mouse_y) promotion_choices = Some (k, r) ->
  k <> King /\ k <> Pawn.
Proof.
  intros H. apply find_some in H. destruct H as [H _].
  unfold promotion_choices in H. cbn in H.
  repeat (destruct H as [H|H]; [injection H as <- <-; split; discriminate|]).
  contradiction.
Qed.

Lemma handle_promotion_ok mouse_x mouse_y row col gm row' col' gm' :
  game_ok gm ->
  on_board row col = true \/ wrap row = None \/ wrap col = None ->
  handle_promotion mouse_x mouse_y row col gm = Done (row', col') gm' ->
  game_ok gm' /\
  (on_board row' col' = true \/ wrap row' = None \/ wrap col' = None).
Proof.
  intros Hok Hrc. unfold handle_promotion.
  destruct (promoting_pawn gm) as [[prow pcol]|] eqn:Epp;
    [|intros [= <- <- <-]; now split].
  destruct (List.find _ promotion_choices) as [[k r]|] eqn:Ef;
    [|intros [= <- <- <-]; now split].
  destruct (promotion_color gm) as [pc|]; [|discriminate].
  destruct Hok as [Hb [Hl Hp]].
  pose proof (Hp _ Epp) as Hon. cbn [fst snd] in Hon.
  unfold store. apply on_board_iff in Hon as Hr.
  rewrite !wrap_on_board by lia.
  intros [= <- <- <-]. split; [|now left].
  split; [|split].
  - cbn. apply board_ok_promotion; [assumption|assumption|].
    eapply promotion_choices_kind; eauto.
  - exact Hl.
  - intros sq H; discriminate.
Qed.

Lemma handle_square_ok n row col gm gm' :
  game_ok gm ->
  on_board row col = true \/ wrap row = None \/ wrap col = None ->
  handle_square (S n) row col gm = Done tt gm' ->
  game_ok gm'.
Proof.
  intros Hok Hrc. pose proof Hok as [Hb [Hl Hp]]. unfold handle_square.
  destruct (selected_piece gm) as [[sx sy]|].
  2:{ destruct (match get_piece _ _ with Some _ => _ | None => _ end);
        intros [= <-]; exact Hok. }
  destruct (match get_piece _ _ with Some _ => _ | None => _ end);
    [intros [= <-]; exact Hok|].
  destruct (move_piece (S n) (sx, sy) (row, col) (player_turn gm) (chess gm))
    as [r cb|e cb|] eqn:Em; [|discriminate|discriminate].
  destruct Hb as [Hwf H1].
  pose proof (move_piece_invariant n _ sx sy row col _ r cb Hwf H1 Hrc Em)
    as Hb'.
  assert (forall g, last_state cb = Some g -> board_ok g) as Hl'.
  { intros g Hg.
    destruct (move_piece_last_state _ _ _ _ _ _ _ Em) as [E|E];
      rewrite E in Hg.
    - now apply Hl.
    - injection Hg as <-. now split. }
  destruct r.
  - assert (on_board row col = true) as Hon.
    { destruct Hrc as [Hon|Hw]; [exact Hon|].
      now destruct (move_piece_off_grid_Done n _ sx sy row col _ _ _ Hwf Hw Em). }
    destruct (isinstance _ Pawn && _); intros [= <-].
    + split; [exact Hb'|]. split; [exact Hl'|].
      intros sq [= <-]. exact Hon.
    + split; [exact Hb'|]. split; [exact Hl'|exact Hp].
  - intros [= <-]. split; [exact Hb'|]. split; [exact Hl'|exact Hp].
Qed.

Lemma handle_button_ok row gm : game_ok gm -> game_ok (handle_button row gm).
Proof.
  intros Hok. pose proof Hok as [Hb [Hl Hp]]. unfold handle_button.
  destruct (row =? 4).
  { split; [exact board_ok_new_board|]. split; [discriminate|exact Hp]. }
  destruct (row =? 5).
  { destruct (last_state (chess gm)) as [g0|] eqn:El; [|exact Hok].
    pose proof (Hl _ eq_refl) as Hg0.
    unfold undo_move. rewrite El. destruct g0 as [|r rs].
    - split; [exact Hb|]. split; [|exact Hp].
      cbn. rewrite El. intros g [= <-]. exact Hg0.
    - split; [exact Hg0|]. split; [discriminate|exact Hp]. }
  destruct (row =? 6).
  { split; [exact Hb|]. split; [exact Hl|exact Hp]. }
  destruct (row =? 7); [|exact Hok].
  split; [exact board_ok_new_board|]. split; [discriminate|exact Hp].
Qed.

Lemma click_square mouse_x mouse_y :
  (mouse_x >=? 300) && ((mouse_y >=? 100) && (mouse_y <=? 900)) = true ->
  let row := (mouse_y - 100) / CELLSIZE in
  let col := (mouse_x - 300) / CELLSIZE in
  on_board row col = true \/ wrap row = None \/ wrap col = None.
Proof.
  intros H row col.
  apply andb_true_iff in H as [Hx H]. apply andb_true_iff in H as [Hy1 Hy2].
  rewrite Z.geb_leb in Hx, Hy1. apply Z.leb_le in Hx, Hy1, Hy2.
  assert (0 <= row) by (apply Z.div_pos; unfold CELLSIZE; lia).
  assert (0 <= col) by (apply Z.div_pos; unfold CELLSIZE; lia).
  destruct (on_board row col) eqn:E; [now left|right].
  unfold on_board in E. unfold wrap.
  destruct (Z.ltb_spec row 8), (Z.ltb_spec col 8),
           (Z.leb_spec 0 row), (Z.leb_spec 0 col); try lia;
    cbn in E; try discriminate.
  - right. destruct (Z.leb_spec (-8) col), (Z.ltb_spec col 0); cbn; try lia;
      reflexivity.
  - left. destruct (Z.leb_spec (-8) row), (Z.ltb_spec row 0); cbn; try lia;
      reflexivity.
  - left. destruct (Z.leb_spec (-8) row), (Z.ltb_spec row 0); cbn; try lia;
      reflexivity.
Qed.

Lemma handle_click_ok n mouse_x mouse_y gm gm' :
  game_ok gm -> handle_click (S n) mouse_x mouse_y gm = Done tt gm' ->
  game_ok gm'.
Proof.
  intros Hok. unfold handle_click.
  destruct ((mouse_x >=? 300) && ((mouse_y >=? 100) && (mouse_y <=? 900)))
    eqn:E.
  - pose proof (click_square mouse_x mouse_y E) as Hrc. cbv zeta in Hrc.
    destruct (handle_promotion _ _ _ _ gm) as [[row' col'] gm1|e gm1|] eqn:Ep;
      [|discriminate|discriminate].
    destruct (handle_promotion_ok _ _ _ _ _ _ _ _ Hok Hrc Ep) as [Hok1 Hrc1].
    intros H. eapply handle_square_ok; eauto.
  - intros [= <-]. now apply handle_button_ok.
Qed.

Lemma end_of_frame_ok n gm gm' :
  game_ok gm -> end_of_frame (S n) gm = Done tt gm' -> game_ok gm'.
Proof.
  intros Hok. pose proof Hok as [Hb [Hl Hp]]. unfold end_of_frame, on_grid.
  destruct (is_game_over (S n) (player_turn gm) (board (chess gm)))
    as [r g'|e g'|] eqn:E; [|discriminate|discriminate].
  destruct (is_game_over_Done n _ _ _ _ (proj1 Hb) E) as [-> _].
  destruct r; intros [= <-].
  - split; [exact Hb|]. split; [exact Hl|exact Hp].
  - split; [exact board_ok_new_board|]. split; [discriminate|exact Hp].
  - split; [exact board_ok_new_board|]. split; [discriminate|exact Hp].
Qed.

(** X1.  Every state that the event loop of [main] reaches from its start
    through clicks and through the game-over test at the end of a frame, as
    long as no exception ends the program, has a board of eight rows of
    eight cells on which every piece carries the coordinates of its cell, an
    unmoved king stands on file 4 and no colour has two kings; the snapshot
    kept for [undo_move] is such a board too, and a pending promotion names
    a square of the board. *)
Theorem event_loop_invariant n gm : reachable (S n) gm -> game_ok gm.
Proof.
  induction 1 as [|gm mx my gm' _ IH H|gm gm' _ IH H].
  - exact game_ok_new_game.
  - eapply handle_click_ok; eauto.
  - eapply end_of_frame_ok; eauto.
Qed.

Lemma event_loop_invariant_witness :
  handle_click 1 750 750 new_game = Done tt (click 1 750 750 new_game) /\
  handle_click 1 750 550 (click 1 750 750 new_game)
  = Done tt (click 1 750 550 (click 1 750 750 new_game)) /\
  game_ok (click 1 750 550 (click 1 750 750 new_game)).
Proof.
  assert (handle_click 1 750 750 new_game
          = Done tt (click 1 750 750 new_game)) as H1
    by (vm_compute; reflexivity).
  assert (handle_click 1 750 550 (click 1 750 750 new_game)
          = Done tt (click 1 750 550 (click 1 750 750 new_game))) as H2
    by (vm_compute; reflexivity).
  split; [exact H1|]. split; [exact H2|].
  apply (event_loop_invariant 0).
  exact (reach_click 1 _ 750 550 _
           (reach_click 1 _ 750 750 _ (reach_start 1) H1) H2).
Defined.

(** ** Rejected and completed moves *)

(** X3.  When [move_piece] answers [False] for a destination on the board,
    every square holds what it held before the call: the same kind, colour,
    position and [has_moved]; only en-passant flags may differ. *)
Theorem rejected_move_restores_squares n s sx sy ex ey c s' :
  wf (board s) -> on_board ex ey = true ->
  move_piece (S n) (sx, sy) (ex, ey) c s = Done false s' ->
  forall x y,
    match cell (board s) x y, cell (board s') x y with
    | Some p, Some p' =>
        kind p' = kind p /\ color p' = color p /\
        position p' = position p /\ has_moved p' = has_moved p
    | None, None => True
    | _, _ => False
    end.
Proof.
  intros Hwf Hon H x y.
  destruct (move_piece_false_board n s sx sy ex ey c s' Hwf Hon H)
    as [_ Hsm].
  specialize (Hsm x y).
  destruct (cell (board s) x y) as [p|], (cell (board s') x y) as [p'|];
    try discriminate; [|exact I].
  cbn in Hsm. injection Hsm as H1 H2 H3 H4. now repeat split.
Qed.

Lemma rejected_move_restores_squares_witness :
  move_piece 1 (6, 0) (4, 0) White (mkBoard king_in_check None)
  = Done false (play 1 (6, 0) (4, 0) White (mkBoard king_in_check None)) /\
  match cell king_in_check 6 0,
        cell (board (play 1 (6, 0) (4, 0) White (mkBoard king_in_check None)))
             6 0 with
  | Some p, Some p' =>
      kind p' = kind p /\ color p' = color p /\
      position p' = position p /\ has_moved p' = has_moved p
  | None, None => True
  | _, _ => False
  end.
Proof.
  assert (move_piece 1 (6, 0) (4, 0) White (mkBoard king_in_check None)
          = Done false
              (play 1 (6, 0) (4, 0) White (mkBoard king_in_check None))) as H
    by (vm_compute; reflexivity).
  assert (wf (board (mkBoard king_in_check None))) as Hwf
    by (apply wfb_wf; vm_compute; reflexivity).
  split; [exact H|].
  exact (rejected_move_restores_squares 0 (mkBoard king_in_check None)
           6 0 4 0 White _ Hwf eq_refl H 6 0).
Defined.

(** X4.  On a well-formed board, when the piece accepts the destination and
    the move would leave the mover's king in check, [move_piece] does not
    complete the move: for a pawn that changes file the block that undoes
    the move reads the unbound local [direction] and the call ends in
    [UnboundLocalError]; for every other move the call returns [False] and
    every square holds again what it held, up to en-passant flags. *)
Theorem move_into_check n s sx sy ex ey c piece :
  wf (board s) -> cell (board s) sx sy = Some piece -> color piece = c ->
  on_board ex ey = true ->
  is_valid_move (S n) piece (ex, ey) (board s) = Done true (board s) ->
  is_king_in_check (S n) c (tentative_board (board s) piece (sx, sy) (ex, ey) c)
  = Done true (tentative_board (board s) piece (sx, sy) (ex, ey) c) ->
  (kind piece = Pawn /\ Z.abs (ey - sy) = 1 ->
   exists s',
     move_piece (S n) (sx, sy) (ex, ey) c s = Raised UnboundLocalError s') /\
  (~ (kind piece = Pawn /\ Z.abs (ey - sy) = 1) ->
   exists s',
     move_piece (S n) (sx, sy) (ex, ey) c s = Done false s' /\
     same_modulo_flags (board s) (board s')).
Proof.
  intros Hwf Hp Hc Hon Hv Hk.
  pose proof (move_piece_in_check n s sx sy ex ey c piece Hwf Hp Hc Hon Hv Hk)
    as H.
  split.
  - intros [HP Habs].
    rewrite HP, Habs in H. exact H.
  - intros Hno.
    destruct (kind_eqb (kind piece) Pawn && (Z.abs (ey - sy) =? 1)) eqn:E.
    + apply andb_true_iff in E as [E1 E2].
      apply kind_eqb_eq in E1. apply Z.eqb_eq in E2. now destruct Hno.
    + destruct H as [s' Hs']. exists s'. split; [exact Hs'|].
      exact (proj2 (move_piece_false_board n s sx sy ex ey c s' Hwf Hon Hs')).
Qed.

Lemma move_into_check_witness :
  exists s',
    move_piece 1 (6, 4) (5, 3) White (mkBoard pinned_pawn None)
    = Raised UnboundLocalError s'.
Proof.
  assert (wf (board (mkBoard pinned_pawn None))) as Hwf
    by (apply wfb_wf; vm_compute; reflexivity).
  assert (cell (board (mkBoard pinned_pawn None)) 6 4
          = Some (mkPiece Pawn White (6, 4) false false)) as Hp
    by (vm_compute; reflexivity).
  assert (is_valid_move 1 (mkPiece Pawn White (6, 4) false false) (5, 3)
            (board (mkBoard pinned_pawn None))
          = Done true (board (mkBoard pinned_pawn None))) as Hv
    by (vm_compute; reflexivity).
  assert (is_king_in_check 1 White
            (tentative_board (board (mkBoard pinned_pawn None))
               (mkPiece Pawn White (6, 4) false false) (6, 4) (5, 3) White)
          = Done true
              (tentative_board (board (mkBoard pinned_pawn None))
                 (mkPiece Pawn White (6, 4) false false) (6, 4) (5, 3) White))
    as Hk by (vm_compute; reflexivity).
  exact (proj1 (move_into_check 0 (mkBoard pinned_pawn None) 6 4 5 3 White
                  (mkPiece Pawn White (6, 4) false false)
                  Hwf Hp eq_refl eq_refl Hv Hk)
               (conj eq_refl eq_refl)).
Defined.

(** Boards that differ in [has_moved] attributes only. *)
Section ModuloMoved.
Variables g g' : Grid.
Hypothesis HR : forall a b,
  option_map set_has_moved (cell g' a b)
  = option_map set_has_moved (cell g a b).

Lemma moved_cell a b :
  match cell g' a b, cell g a b with
  | Some p', Some p =>
      kind p' = kind p /\ color p' = color p /\
      can_be_captured_en_passant p' = can_be_captured_en_passant p
  | None, None => True
  | _, _ => False
  end.
Proof.
  specialize (HR a b).
  destruct (cell g' a b) as [p'|], (cell g a b) as [p|]; try discriminate;
    [|exact I].
  cbn in HR. injection HR as H1 H2 H3 H4. now repeat split.
Qed.

Lemma moved_is_empty sq : is_empty g' sq = is_empty g sq.
Proof.
  destruct sq as [a b]. unfold is_empty. cbn [get_piece].
  pose proof (moved_cell a b) as H.
  destruct (cell g' a b), (cell g a b); tauto.
Qed.

Lemma moved_Pawn q e : Pawn_is_valid_move q e g' = Pawn_is_valid_move q e g.
Proof.
  unfold Pawn_is_valid_move.
  destruct (position q) as [sx sy], e as [ex ey].
  rewrite !moved_is_empty. cbn [get_piece].
  pose proof (moved_cell ex ey) as H1. pose proof (moved_cell sx ey) as H2.
  destruct (cell g' ex ey) as [t'|], (cell g ex ey) as [t|]; try tauto;
    destruct (cell g' sx ey) as [a'|], (cell g sx ey) as [a|]; try tauto;
    repeat match goal with
           | H : _ /\ _ |- _ => destruct H as [? H]
           end;
    repeat match goal with
           | H : kind _ = _ |- _ => rewrite H
           | H : color _ = _ |- _ => rewrite H
           | H : can_be_captured_en_passant _ = _ |- _ => rewrite H
           end; reflexivity.
Qed.

Lemma moved_Rook q e : Rook_is_valid_move q e g' = Rook_is_valid_move q e g.
Proof.
  unfold Rook_is_valid_move.
  destruct (position q) as [sx sy], e as [ex ey].
  destruct (negb (sx =? ex) && negb (sy =? ey)); [reflexivity|].
  destruct (sx =? ex); apply forallb_ext_in; intros;
    apply moved_is_empty.
Qed.

Lemma moved_Bishop q e :
  Bishop_is_valid_move q e g' = Bishop_is_valid_move q e g.
Proof.
  unfold Bishop_is_valid_move.
  destruct (position q) as [sx sy], e as [ex ey].
  destruct (negb _); [reflexivity|].
  apply forallb_ext_in; intros; apply moved_is_empty.
Qed.

Lemma moved_threat q kp a b :
  position q = (a, b) ->
  (kind q = King -> has_moved q = false -> b = 4) ->
  get_piece g kp <> None ->
  threat q kp g' = threat q kp g.
Proof.
  intros Hpos Hhome Hocc. unfold threat, is_valid_move_with, gets.
  destruct (kind q) eqn:Hk.
  - now rewrite moved_Pawn.
  - now rewrite moved_Rook.
  - reflexivity.
  - now rewrite moved_Bishop.
  - unfold Queen_is_valid_move. now rewrite moved_Rook, moved_Bishop.
  - unfold King_is_valid_move. rewrite Hpos. destruct kp as [ex ey].
    cbn [get_piece] in *.
    pose proof (moved_cell ex ey) as Ht.
    destruct ((Z.abs (ex - a) <=? 1) && (Z.abs (ey - b) <=? 1)).
    { destruct (cell g' ex ey) as [t'|], (cell g ex ey) as [t|]; try tauto.
      destruct Ht as [_ [-> _]]. reflexivity. }
    destruct (negb (has_moved q) && (a =? ex) && (Z.abs (ey - b) =? 2))
      eqn:E; [|reflexivity].
    apply andb_true_iff in E as [E E3]. apply andb_true_iff in E as [E1 E2].
    apply negb_true_iff in E1. apply Z.eqb_eq in E2, E3. subst ex.
    specialize (Hhome eq_refl E1). subst b.
    assert (is_empty g (a, ey) = false) as Hne.
    { unfold is_empty. cbn [get_piece].
      destruct (cell g a ey); [reflexivity|contradiction]. }
    assert (forall h, forallb (fun y => is_empty h (a, y))
              (py_range (4 + (if ey >? 4 then 1 else -1))
                 (if (if ey >? 4 then 1 else -1) =? 1 then 7 else 0)
                 (if ey >? 4 then 1 else -1)) = true ->
            is_empty h (a, ey) = true) as Hcor.
    { intros h Hf. rewrite forallb_forall in Hf. apply Hf.
      assert (ey = 6 \/ ey = 2) as [-> | ->] by lia; cbn.
      - change (py_range (4 + 1) 7 1) with [5; 6]. cbn. tauto.
      - change (py_range (4 + -1) 0 (-1)) with [3; 2; 1]. cbn. tauto. }
    assert (forall h, is_empty h (a, ey) = false ->
              forallb (fun y => is_empty h (a, y))
              (py_range (4 + (if ey >? 4 then 1 else -1))
                 (if (if ey >? 4 then 1 else -1) =? 1 then 7 else 0)
                 (if ey >? 4 then 1 else -1)) = false) as Hcor'.
    { intros h Hh. apply not_true_is_false. intros Hf.
      apply Hcor in Hf. congruence. }
    rewrite (Hcor' g Hne).
    rewrite (Hcor' g') by (now rewrite moved_is_empty).
    destruct (isinstance _ Rook && _), (isinstance _ Rook && _);
      reflexivity.
Qed.

Lemma moved_find_king c : find_king c g' = find_king c g.
Proof.
  unfold find_king. induction squares as [|[a b] l IH]; [reflexivity|].
  cbn [List.find get_piece]. rewrite IH.
  pose proof (moved_cell a b) as H.
  destruct (cell g' a b) as [p'|], (cell g a b) as [p|]; try tauto.
  destruct H as [H1 [H2 _]]. unfold is_king_of. now rewrite H1, H2.
Qed.

Lemma moved_threatened c kp :
  side_ok (opponent c) g ->
  (forall a b p, cell g a b = Some p -> color p = opponent c ->
                 cell g' a b = Some p) ->
  get_piece g kp <> None ->
  threatened c kp g' = threatened c kp g.
Proof.
  intros Hs Hsame Hocc. unfold threatened.
  induction squares as [|[a b] l IH]; [reflexivity|].
  cbn [existsb get_piece]. rewrite IH. f_equal.
  pose proof (moved_cell a b) as H.
  destruct (cell g a b) as [p|] eqn:E.
  - destruct (color_eqb (color p) (opponent c)) eqn:Ec.
    + apply color_eqb_eq in Ec. rewrite (Hsame a b p E Ec).
      rewrite Ec, color_eqb_refl. cbn [andb].
      destruct (Hs a b p E Ec) as [Hp Hh].
      exact (moved_threat p kp a b Hp Hh Hocc).
    + destruct (cell g' a b) as [p'|]; [|reflexivity].
      destruct H as [_ [-> _]]. now rewrite Ec.
  - destruct (cell g' a b); [contradiction|reflexivity].
Qed.
End ModuloMoved.

Lemma final_vs_tentative g piece sx sy ex ey c a b :
  shape g ->
  option_map set_has_moved (cell (final_board g piece (sx, sy) (ex, ey) c) a b)
  = option_map set_has_moved
      (cell (tentative_board g piece (sx, sy) (ex, ey) c) a b).
Proof.
  intros Hs. unfold final_board.
  destruct (pos_eqb (ex, ey) (sx, sy)) eqn:E; [reflexivity|].
  cbn [fst snd].
  rewrite cell_set_cell by now apply shape_tentative.
  destruct (on_board ex ey && (ex =? a) && (ey =? b)) eqn:E1; [|reflexivity].
  apply andb_true_iff in E1 as [E1 Ey]. apply andb_true_iff in E1 as [Hon Ex].
  apply Z.eqb_eq in Ex, Ey. subst a b.
  unfold tentative_board. cbn [fst snd].
  rewrite !cell_set_cell
    by (repeat apply shape_set_cell; now apply shape_prepared).
  rewrite Hon, !Z.eqb_refl. cbn [andb].
  destruct (on_board sx sy && (sx =? ex) && (sy =? ey)) eqn:E2;
    [|reflexivity].
  apply andb_true_iff in E2 as [E2 H2]. apply andb_true_iff in E2 as [_ H1].
  apply Z.eqb_eq in H1, H2. subst.
  assert (pos_eqb (ex, ey) (ex, ey) = true) by now apply pos_eqb_eq.
  congruence.
Qed.

Lemma final_keeps_opponents g piece sx sy ex ey c a b p :
  shape g ->
  cell (tentative_board g piece (sx, sy) (ex, ey) c) a b = Some p ->
  color piece = c -> color p = opponent c ->
  cell (final_board g piece (sx, sy) (ex, ey) c) a b = Some p.
Proof.
  intros Hs Hp Hc Hop. unfold final_board.
  destruct (pos_eqb (ex, ey) (sx, sy)) eqn:E; [exact Hp|].
  cbn [fst snd].
  rewrite cell_set_cell by now apply shape_tentative.
  destruct (on_board ex ey && (ex =? a) && (ey =? b)) eqn:E1; [|exact Hp].
  exfalso.
  apply andb_true_iff in E1 as [E1 Ey]. apply andb_true_iff in E1 as [Hon Ex].
  apply Z.eqb_eq in Ex, Ey. subst a b.
  unfold tentative_board in Hp. cbn [fst snd] in Hp.
  rewrite !cell_set_cell in Hp
    by (repeat apply shape_set_cell; now apply shape_prepared).
  rewrite Hon, !Z.eqb_refl in Hp. cbn [andb] in Hp.
  destruct (on_board sx sy && (sx =? ex) && (sy =? ey)); [discriminate|].
  injection Hp as <-. cbn in Hop. rewrite color_flagged, Hc in Hop.
  now apply (opponent_neq c).
Qed.

Lemma check_after_move n g piece sx sy ex ey c :
  wf g -> cell g sx sy = Some piece -> color piece = c ->
  is_king_in_check (S n) c (tentative_board g piece (sx, sy) (ex, ey) c)
  = Done false (tentative_board g piece (sx, sy) (ex, ey) c) ->
  is_king_in_check (S n) c (final_board g piece (sx, sy) (ex, ey) c)
  = Done false (final_board g piece (sx, sy) (ex, ey) c).
Proof.
  intros Hwf Hp Hc H5.
  set (g5 := tentative_board g piece (sx, sy) (ex, ey) c) in *.
  set (gf := final_board g piece (sx, sy) (ex, ey) c).
  pose proof Hwf as [Hs Hside].
  assert (side_ok (opponent c) g5) as Hok5
    by (apply side_ok_tentative; auto).
  assert (side_ok (opponent c) gf) as Hokf
    by (apply (wf_side _ (wf_final g piece sx sy ex ey c Hwf Hp))).
  assert (forall a b, option_map set_has_moved (cell gf a b)
                      = option_map set_has_moved (cell g5 a b)) as HR
    by (intros; now apply final_vs_tentative).
  destruct (find_king c g5) as [kp|] eqn:Ek.
  2:{ rewrite (is_king_in_check_no_king n c g5 Ek) in H5. discriminate. }
  rewrite (is_king_in_check_pure n c g5 kp Hok5 Ek) in H5.
  injection H5 as H5.
  assert (find_king c gf = Some kp) as Ekf
    by (rewrite (moved_find_king g5 gf HR c); exact Ek).
  rewrite (is_king_in_check_pure n c gf kp Hokf Ekf). f_equal.
  rewrite (moved_threatened g5 gf HR c kp Hok5); [exact H5| |].
  - intros a b p Hab Hcol.
    now apply (final_keeps_opponents g piece sx sy ex ey c a b p Hs Hab Hc).
  - eapply find_king_Some; eauto.
Qed.

(** X5.  A move that [move_piece] completes on a well-formed board leaves a
    well-formed board on which the check test for the mover answers
    [False]: no completed move leaves the mover's own king attacked. *)
Theorem completed_move_is_safe n s sx sy ex ey c s' :
  wf (board s) -> on_board ex ey = true ->
  move_piece (S n) (sx, sy) (ex, ey) c s = Done true s' ->
  wf (board s') /\
  is_king_in_check (S n) c (board s') = Done false (board s').
Proof.
  intros Hwf Hon H.
  destruct (move_piece_success n s sx sy ex ey c s' Hwf Hon H)
    as [piece [Hp [Hc [_ [Hk ->]]]]].
  cbn [board]. split.
  - now apply wf_final.
  - apply check_after_move; [exact Hwf|exact Hp|exact Hc|apply Hk].
Qed.

Lemma completed_move_is_safe_witness :
  move_piece 1 (6, 4) (4, 4) White new_board
  = Done true (play 1 (6, 4) (4, 4) White new_board) /\
  is_king_in_check 1 White (board (play 1 (6, 4) (4, 4) White new_board))
  = Done false (board (play 1 (6, 4) (4, 4) White new_board)).
Proof.
  assert (move_piece 1 (6, 4) (4, 4) White new_board
          = Done true (play 1 (6, 4) (4, 4) White new_board)) as H
    by (vm_compute; reflexivity).
  assert (wf (board new_board)) as Hwf
    by (apply wfb_wf; vm_compute; reflexivity).
  split; [exact H|].
  exact (proj2 (completed_move_is_safe 0 new_board 6 4 4 4 White _
                  Hwf eq_refl H)).
Defined.

Lemma move_piece_true_iff n s sx sy ex ey c s' :
  wf (board s) -> on_board ex ey = true ->
  move_piece (S n) (sx, sy) (ex, ey) c s = Done true s' <->
  exists piece,
    cell (board s) sx sy = Some piece /\ color piece = c /\
    accepts piece (ex, ey) (board s) = true /\
    find_king c (tentative_board (board s) piece (sx, sy) (ex, ey) c)
    <> None /\
    in_check c (tentative_board (board s) piece (sx, sy) (ex, ey) c)
    = false /\
    s' = mkBoard (final_board (board s) piece (sx, sy) (ex, ey) c)
                 (Some (board s)).
Proof.
  intros Hwf Hon. split.
  - intros H.
    destruct (move_piece_success n s sx sy ex ey c s' Hwf Hon H)
      as [piece [Hp [Hc [Hv [Hk ->]]]]].
    exists piece. split; [exact Hp|]. split; [exact Hc|].
    split; [|split; [|split; [|reflexivity]]].
    + unfold accepts. now rewrite (Hv 0%nat).
    + intros E. specialize (Hk 0%nat).
      rewrite (is_king_in_check_no_king 0 c _ E) in Hk. discriminate.
    + unfold in_check. now rewrite (Hk 0%nat).
  - intros [piece [Hp [Hc [Hv [Hk [Hchk ->]]]]]].
    rewrite (move_piece_eq _ s sx sy ex ey c piece Hp Hc).
    unfold on_grid. cbn [board save_state last_state].
    destruct (move_attempt_eq n (board s) piece sx sy ex ey c Hwf Hp Hc Hon)
      as [v [Hv' Heq]].
    rewrite Heq. clear Heq.
    unfold accepts in Hv. rewrite (Hv' 0%nat) in Hv. subst v. cbv zeta.
    set (g5 := tentative_board (board s) piece (sx, sy) (ex, ey) c) in *.
    destruct (find_king c g5) as [kp|] eqn:Ek; [|congruence].
    assert (side_ok (opponent c) g5) as Hok
      by (apply side_ok_tentative; [apply Hwf|apply Hwf|exact Hp|exact Hc]).
    rewrite <- (in_check_threatened c g5 kp Hok Ek), Hchk. reflexivity.
Qed.

(** X6.  On a well-formed board and for a destination on the board,
    [move_piece] returns [True] exactly when a piece of the mover's colour
    stands on the start square, its [is_valid_move] accepts the
    destination, and on the board with the move carried out the mover has a
    king that the check test finds unattacked; the new board is then
    [final_board] and the snapshot is the board before the call. *)
Theorem move_piece_completes_iff n s sx sy ex ey c s' :
  wf (board s) -> on_board ex ey = true ->
  move_piece (S n) (sx, sy) (ex, ey) c s = Done true s' <->
  exists piece,
    cell (board s) sx sy = Some piece /\ color piece = c /\
    is_valid_move (S n) piece (ex, ey) (board s) = Done true (board s) /\
    is_king_in_check (S n) c
      (tentative_board (board s) piece (sx, sy) (ex, ey) c)
    = Done false (tentative_board (board s) piece (sx, sy) (ex, ey) c) /\
    s' = mkBoard (final_board (board s) piece (sx, sy) (ex, ey) c)
                 (Some (board s)).
Proof.
  intros Hwf Hon. rewrite (move_piece_true_iff n s sx sy ex ey c s' Hwf Hon).
  split; intros [piece [Hp [Hc H]]]; exists piece;
    (split; [exact Hp|split; [exact Hc|]]).
  - destruct H as [Hv [Hk [Hchk ->]]].
    pose proof (accepts_spec (board s) sx sy piece (ex, ey) n Hwf Hp) as Ha.
    rewrite Hv in Ha. split; [exact Ha|]. split; [|reflexivity].
    rewrite <- Hchk. apply in_check_spec; [|exact Hk].
    apply side_ok_tentative; [apply Hwf|apply Hwf|exact Hp|exact Hc].
  - destruct H as [Hv [Hk ->]].
    pose proof (accepts_spec (board s) sx sy piece (ex, ey) n Hwf Hp) as Ha.
    rewrite Hv in Ha. injection Ha as Ha.
    split; [now symmetry|].
    assert (find_king c (tentative_board (board s) piece (sx, sy) (ex, ey) c)
            <> None) as Hfk.
    { intros E. rewrite (is_king_in_check_no_king n c _ E) in Hk.
      discriminate. }
    split; [exact Hfk|]. split; [|reflexivity].
    pose proof (in_check_spec c _ n
                  (side_ok_tentative _ piece sx sy ex ey c (wf_shape _ Hwf)
                     (wf_side _ Hwf _) Hp Hc) Hfk) as Hi.
    rewrite Hk in Hi. now injection Hi.
Qed.

Lemma move_piece_completes_iff_witness :
  exists piece,
    cell (board new_board) 6 4 = Some piece /\ color piece = White /\
    is_valid_move 1 piece (4, 4) (board new_board)
    = Done true (board new_board) /\
    is_king_in_check 1 White
      (tentative_board (board new_board) piece (6, 4) (4, 4) White)
    = Done false (tentative_board (board new_board) piece (6, 4) (4, 4) White)
    /\ play 1 (6, 4) (4, 4) White new_board
       = mkBoard (final_board (board new_board) piece (6, 4) (4, 4) White)
                 (Some (board new_board)).
Proof.
  assert (move_piece 1 (6, 4) (4, 4) White new_board
          = Done true (play 1 (6, 4) (4, 4) White new_board)) as H
    by (vm_compute; reflexivity).
  assert (wf (board new_board)) as Hwf
    by (apply wfb_wf; vm_compute; reflexivity).
  exact (proj1 (move_piece_completes_iff 0 new_board 6 4 4 4 White _
                  Hwf eq_refl) H).
Defined.

(** X7.  After a completed move to another square of the board, the start
    square is empty and the destination holds the piece that stood on the
    start square: same kind, the mover's colour, [position] equal to the
    destination and [has_moved] set. *)
Theorem completed_move_relocates_piece n s sx sy ex ey c s' :
  wf (board s) -> on_board ex ey = true -> (ex, ey) <> (sx, sy) ->
  move_piece (S n) (sx, sy) (ex, ey) c s = Done true s' ->
  exists piece m,
    cell (board s) sx sy = Some piece /\ color piece = c /\
    cell (board s') sx sy = None /\
    cell (board s') ex ey = Some m /\
    kind m = kind piece /\ color m = c /\ position m = (ex, ey) /\
    has_moved m = true.
Proof.
  intros Hwf Hon Hne H.
  destruct (move_piece_success n s sx sy ex ey c s' Hwf Hon H)
    as [piece [Hp [Hc [_ [_ ->]]]]].
  pose proof (cell_Some_on_board _ _ _ _ Hp) as Hos.
  exists piece, (moved_piece piece (sx, sy) (ex, ey) c).
  split; [exact Hp|]. split; [exact Hc|]. cbn [board].
  assert (pos_eqb (ex, ey) (sx, sy) = false) as Hpe.
  { apply not_true_is_false. intros E. apply pos_eqb_eq in E. contradiction. }
  rewrite !cell_final by apply Hwf.
  rewrite Hon, Hos, Hpe, !Z.eqb_refl. cbn [andb negb].
  assert ((ex =? sx) && (ey =? sy) = false) as Hes.
  { apply not_true_is_false. intros E. apply andb_true_iff in E as [E1 E2].
    apply Z.eqb_eq in E1, E2. congruence. }
  rewrite Hes. repeat split.
  - unfold moved_piece. cbn. now rewrite kind_flagged.
  - unfold moved_piece. cbn. now rewrite color_flagged.
Qed.

Lemma completed_move_relocates_piece_witness :
  exists piece m,
    cell (board new_board) 7 1 = Some piece /\ color piece = White /\
    cell (board (play 1 (7, 1) (5, 2) White new_board)) 7 1 = None /\
    cell (board (play 1 (7, 1) (5, 2) White new_board)) 5 2 = Some m /\
    kind m = kind piece /\ color m = White /\ position m = (5, 2) /\
    has_moved m = true.
Proof.
  assert (move_piece 1 (7, 1) (5, 2) White new_board
          = Done true (play 1 (7, 1) (5, 2) White new_board)) as H
    by (vm_compute; reflexivity).
  assert (wf (board new_board)) as Hwf
    by (apply wfb_wf; vm_compute; reflexivity).
  assert ((5, 2) <> (7, 1)) as Hne by discriminate.
  exact (completed_move_relocates_piece 0 new_board 7 1 5 2 White _
           Hwf eq_refl Hne H).
Defined.

(** ** Castling and the colours *)

Lemma probe_board_home g K sx sy :
  shape g -> cell g sx sy = Some K -> position K = (sx, sy) ->
  probe_board g K sy = g.
Proof.
  intros Hs HK Hpos. unfold probe_board. rewrite Hpos.
  pose proof (cell_Some_on_board _ _ _ _ HK) as Hb.
  apply grid_ext; [repeat apply shape_set_cell; exact Hs|exact Hs|].
  intros x y _.
  rewrite !cell_set_cell by (repeat apply shape_set_cell; exact Hs).
  rewrite Hb. cbn [andb].
  destruct ((sx =? x) && (sy =? y)) eqn:E; [|reflexivity].
  apply andb_true_iff in E as [Ex Ey]. apply Z.eqb_eq in Ex, Ey.
  now subst.
Qed.

Lemma castle_with_opposing_rook n g K sx sy ex ey r :
  wf g -> one_king g -> cell g sx sy = Some K -> kind K = King ->
  Z.abs (ey - sy) = 2 ->
  cell g sx (if ey >? sy then 7 else 0) = Some r ->
  color r = opponent (color K) ->
  is_valid_move (S n) K (ex, ey) g = Done false g.
Proof.
  intros Hwf H1 HK Hkind Habs Hr Hcol.
  destruct (is_valid_move_pure g sx sy K (ex, ey) Hwf HK) as [v Hv].
  rewrite Hv. destruct v; [exfalso|reflexivity].
  specialize (Hv n). unfold is_valid_move, is_valid_move_with in Hv.
  rewrite Hkind in Hv.
  destruct (King_castle_facts n g K sx sy ex ey Hwf HK Hkind Habs Hv)
    as [-> [-> [_ [r0 [Hr0 Hk0]]]]].
  destruct Hwf as [Hs Hside].
  destruct (Hside (color K) sx 4 K HK eq_refl) as [Hpos Hhome].
  pose proof (cell_Some_on_board _ _ _ _ HK) as Hb.
  apply on_board_iff in Hb.
  assert (has_moved K = false) as Hm.
  { unfold King_is_valid_move in Hv. rewrite Hpos in Hv.
    replace (Z.abs (ey - 4) <=? 1) with false in Hv
      by (symmetry; apply Z.leb_gt; lia).
    rewrite andb_false_r in Hv.
    destruct (has_moved K); [discriminate|reflexivity]. }
  rewrite (King_castle_eq n K sx ey g Hs HK Hkind Hpos (Hside _) Hm Habs)
    in Hv.
  injection Hv as Hv.
  apply andb_true_iff in Hv as [Hv Hprobe].
  apply andb_true_iff in Hv as [_ Hfree].
  assert (probe_check g K 4 = true) as Hpc.
  { apply (attacked_probe_check n g K sx 4 4 Hs H1 (Hside _) HK Hkind Hpos).
    - apply on_board_iff. lia.
    - rewrite (probe_board_home g K sx 4 Hs HK Hpos).
      exists sx, (if ey >? 4 then 7 else 0), r, g.
      split; [exact Hr|]. split; [exact Hcol|].
      destruct (Hside (color r) _ _ r Hr eq_refl) as [Hposr _].
      assert (kind r = Rook) as Hkr.
      { assert (ey = 6 \/ ey = 2) as [-> | ->] by lia; cbn in Hr, Hr0;
          congruence. }
      unfold is_valid_move, is_valid_move_with. rewrite Hkr.
      unfold gets. f_equal.
      unfold Rook_is_valid_move. rewrite Hposr.
      rewrite Z.eqb_refl. cbn [negb andb].
      assert (ey = 6 \/ ey = 2) as [-> | ->] by lia; cbn in Hfree |- *.
      + change (py_range (4 + 1) 7 1) with [5; 6] in Hfree.
        change (py_range (7 + -1) 4 (-1)) with [6; 5].
        cbn [forallb] in Hfree |- *.
        destruct (is_empty g (sx, 5)), (is_empty g (sx, 6));
          try discriminate; reflexivity.
      + change (py_range (4 + -1) 0 (-1)) with [3; 2; 1] in Hfree.
        change (py_range (0 + 1) 4 1) with [1; 2; 3].
        cbn [forallb] in Hfree |- *.
        destruct (is_empty g (sx, 3)), (is_empty g (sx, 2)),
                 (is_empty g (sx, 1)); try discriminate; reflexivity. }
  assert (ey = 6 \/ ey = 2) as [-> | ->] by lia; cbn in Hprobe.
  - change (py_range 4 (4 + 3 * 1) 1) with [4; 5; 6] in Hprobe.
    cbn [forallb] in Hprobe. rewrite Hpc in Hprobe. discriminate.
  - change (py_range 4 (4 + 3 * -1) (-1)) with [4; 3; 2] in Hprobe.
    cbn [forallb] in Hprobe. rewrite Hpc in Hprobe. discriminate.
Qed.

(** X9.  [King.is_valid_move] does not test the colour of the rook it
    castles with; all the same, on a well-formed board with one king of a
    colour a move of the king over two files towards a corner that holds a
    piece of the other colour is never accepted, and [move_piece] answers
    [False] without touching the board. *)
Theorem no_castling_with_opposing_rook n s K sx sy ex ey r :
  wf (board s) -> one_king (board s) ->
  cell (board s) sx sy = Some K -> kind K = King ->
  Z.abs (ey - sy) = 2 ->
  cell (board s) sx (if ey >? sy then 7 else 0) = Some r ->
  color r = opponent (color K) ->
  is_valid_move (S n) K (ex, ey) (board s) = Done false (board s) /\
  move_piece (S n) (sx, sy) (ex, ey) (color K) s = Done false (save_state s).
Proof.
  intros Hwf H1 HK Hkind Habs Hr Hcol.
  pose proof (castle_with_opposing_rook n (board s) K sx sy ex ey r
                Hwf H1 HK Hkind Habs Hr Hcol) as Hv.
  split; [exact Hv|].
  now apply (move_piece_rejected (S n) s sx sy ex ey (color K) K HK).
Qed.

Lemma no_castling_with_opposing_rook_witness :
  is_valid_move 1 (mkPiece King White (7, 4) false false) (7, 6)
                opposing_rook_corner
  = Done false opposing_rook_corner /\
  move_piece 1 (7, 4) (7, 6) White (mkBoard opposing_rook_corner None)
  = Done false (save_state (mkBoard opposing_rook_corner None)).
Proof.
  assert (wf (board (mkBoard opposing_rook_corner None))) as Hwf
    by (apply wfb_wf; vm_compute; reflexivity).
  assert (one_king (board (mkBoard opposing_rook_corner None))) as H1
    by (apply one_kingb_one_king; vm_compute; reflexivity).
  assert (cell (board (mkBoard opposing_rook_corner None)) 7 4
          = Some (mkPiece King White (7, 4) false false)) as HK
    by (vm_compute; reflexivity).
  assert (cell (board (mkBoard opposing_rook_corner None)) 7
               (if 6 >? 4 then 7 else 0)
          = Some (mkPiece Rook Black (7, 7) false false)) as Hr
    by (vm_compute; reflexivity).
  exact (no_castling_with_opposing_rook 0 (mkBoard opposing_rook_corner None)
           (mkPiece King White (7, 4) false false) 7 4 7 6
           (mkPiece Rook Black (7, 7) false false)
           Hwf H1 HK eq_refl eq_refl Hr eq_refl).
Defined.

Lemma King_valid_unfold n K end_position g b g' :
  kind K = King ->
  is_valid_move (S n) K end_position g = Done b g' ->
  King_is_valid_move (is_king_in_check (S n)) K end_position g = Done b g'.
Proof.
  intros Hk. unfold is_valid_move, is_valid_move_with. now rewrite Hk.
Qed.

(** X8.  When [move_piece] completes a move of a king over two files on a
    well-formed board with one king of a colour, the king stood on file 4 of
    the row it stays on, and afterwards the king's square and the corner on
    the side of the move are empty, the king stands on the destination with
    [has_moved] set, and the rook of the mover's colour that stood on that
    corner stands on the square the king passed over, its [position] updated
    and its [has_moved] still unset. *)
Theorem completed_castling_places_rook n s sx sy ex ey c s' K :
  wf (board s) -> one_king (board s) ->
  cell (board s) sx sy = Some K -> kind K = King ->
  Z.abs (ey - sy) = 2 -> on_board ex ey = true ->
  move_piece (S n) (sx, sy) (ex, ey) c s = Done true s' ->
  let direction := if ey >? sy then 1 else -1 in
  let rook_y := if ey >? sy then 7 else 0 in
  ex = sx /\ sy = 4 /\
  cell (board s') sx 4 = None /\ cell (board s') sx rook_y = None /\
  (exists k, cell (board s') sx ey = Some k /\ kind k = King /\
             color k = c /\ position k = (sx, ey) /\ has_moved k = true) /\
  (exists r, cell (board s') sx (4 + direction) = Some r /\ kind r = Rook /\
             color r = c /\ position r = (sx, 4 + direction) /\
             has_moved r = false).
Proof.
  intros Hwf H1 HK Hkind Habs Hon H direction rook_y.
  destruct (move_piece_success n s sx sy ex ey c s' Hwf Hon H)
    as [piece [Hp [Hc [Hv [_ ->]]]]].
  rewrite HK in Hp. injection Hp as <-.
  pose proof (King_valid_unfold n K (ex, ey) _ _ _ Hkind (Hv n)) as HvK.
  destruct (King_castle_facts n _ K sx sy ex ey Hwf HK Hkind Habs HvK)
    as [-> [-> [Hfree [r0 [Hr0 Hk0]]]]].
  split; [reflexivity|]. split; [reflexivity|].
  pose proof Hwf as [Hs Hside].
  destruct (Hside (color K) sx 4 K HK eq_refl) as [Hpos _].
  pose proof (cell_Some_on_board _ _ _ _ HK) as Hos.
  apply on_board_iff in Hos as Hr.
  assert (has_moved K = false) as Hm.
  { unfold King_is_valid_move in HvK. rewrite Hpos in HvK.
    replace (Z.abs (ey - 4) <=? 1) with false in HvK
      by (symmetry; apply Z.leb_gt; lia).
    rewrite andb_false_r in HvK.
    destruct (has_moved K); [discriminate|reflexivity]. }
  assert ((if (if ey >? 4 then 1 else -1) =? 1 then 7 else 0) = rook_y)
    as Hry by (subst rook_y; now destruct (ey >? 4)).
  cbv zeta in Hr0. rewrite Hry in Hr0.
  assert (has_moved r0 = false) as Hmr.
  { rewrite (King_castle_eq n K sx ey _ Hs HK Hkind Hpos (Hside _) Hm Habs)
      in HvK.
    injection HvK as HvK.
    apply andb_true_iff in HvK as [HvK _].
    apply andb_true_iff in HvK as [HvK _].
    apply andb_true_iff in HvK as [_ HvK].
    rewrite Hry, Hr0 in HvK. now apply negb_true_iff in HvK. }
  assert (color r0 = c) as Hcr.
  { destruct (color_eqb (color r0) (color K)) eqn:E;
      [apply color_eqb_eq in E; congruence|].
    exfalso.
    assert (color r0 = opponent (color K)) as Hopp
      by (destruct (color r0), (color K); cbn in *; congruence).
    pose proof (castle_with_opposing_rook n _ K sx 4 sx ey r0 Hwf H1 HK Hkind
                  Habs Hr0 Hopp) as Hno.
    rewrite (Hv n) in Hno. discriminate. }
  cbn [board].
  assert (forall x y,
            cell (prepared_board (board s) K (sx, 4) (sx, ey) c) x y
            = if (sx =? x) && (4 + direction =? y)
              then Some (move r0 (sx, 4 + direction))
              else if (sx =? x) && (rook_y =? y) then None
              else fmap (clear_flag c) (cell (board s) x y)) as Hprep.
  { intros x y.
    pose proof (prepared_castle (board s) K sx 4 sx ey c r0 x y Hs Hkind Habs)
      as Hpc.
    cbv zeta in Hpc. rewrite Hry in Hpc. apply Hpc; [exact Hr0|exact Hk0|].
    apply on_board_iff. subst direction. destruct (ey >? 4); lia. }
  assert (ey = 6 \/ ey = 2) as Hey by lia.
  rewrite !cell_final by exact Hs.
  rewrite !Hprep. rewrite Hon, Hos. cbn [andb].
  rewrite !Z.eqb_refl. cbn [andb].
  assert (pos_eqb (sx, ey) (sx, 4) = false) as Hpe.
  { apply not_true_is_false. intros E. apply pos_eqb_eq in E.
    injection E as ->. lia. }
  rewrite Hpe. cbn [negb andb].
  destruct Hey as [-> | ->]; subst direction rook_y; cbn.
  - repeat split.
    + exists (moved_piece K (sx, 4) (sx, 6) c). split; [reflexivity|].
      unfold moved_piece. cbn. rewrite kind_flagged, color_flagged.
      now repeat split.
    + exists (move r0 (sx, 5)). split; [reflexivity|]. cbn. now repeat split.
  - repeat split.
    + exists (moved_piece K (sx, 4) (sx, 2) c). split; [reflexivity|].
      unfold moved_piece. cbn. rewrite kind_flagged, color_flagged.
      now repeat split.
    + exists (move r0 (sx, 3)). split; [reflexivity|]. cbn. now repeat split.
Qed.

Lemma completed_castling_places_rook_witness :
  cell (board (play 1 (7, 4) (7, 6) White (mkBoard castle_ready None))) 7 4
  = None /\
  cell (board (play 1 (7, 4) (7, 6) White (mkBoard castle_ready None))) 7 7
  = None /\
  (exists k,
     cell (board (play 1 (7, 4) (7, 6) White (mkBoard castle_ready None))) 7 6
     = Some k /\ kind k = King /\ color k = White /\
     position k = (7, 6) /\ has_moved k = true) /\
  (exists r,
     cell (board (play 1 (7, 4) (7, 6) White (mkBoard castle_ready None))) 7 5
     = Some r /\ kind r = Rook /\ color r = White /\
     position r = (7, 5) /\ has_moved r = false).
Proof.
  assert (move_piece 1 (7, 4) (7, 6) White (mkBoard castle_ready None)
          = Done true (play 1 (7, 4) (7, 6) White (mkBoard castle_ready None)))
    as H by (vm_compute; reflexivity).
  assert (wf (board (mkBoard castle_ready None))) as Hwf
    by (apply wfb_wf; vm_compute; reflexivity).
  assert (one_king (board (mkBoard castle_ready None))) as H1
    by (apply one_kingb_one_king; vm_compute; reflexivity).
  assert (cell (board (mkBoard castle_ready None)) 7 4
          = Some (mkPiece King White (7, 4) false false)) as HK
    by (vm_compute; reflexivity).
  exact (proj2 (proj2
           (completed_castling_places_rook 0 (mkBoard castle_ready None)
              7 4 7 6 White _ (mkPiece King White (7, 4) false false)
              Hwf H1 HK eq_refl eq_refl eq_refl H))).
Defined.

(** X10.  On a well-formed board [King.is_valid_move] rejects every
    destination that holds a piece of the king's own colour, a castling
    destination included. *)
Theorem king_never_takes_own_piece n g K sx sy ex ey t :
  wf g -> cell g sx sy = Some K -> kind K = King ->
  cell g ex ey = Some t -> color t = color K ->
  is_valid_move (S n) K (ex, ey) g = Done false g.
Proof.
  intros Hwf HK Hkind Ht Hcol.
  destruct (is_valid_move_pure g sx sy K (ex, ey) Hwf HK) as [v Hv].
  rewrite Hv. destruct v; [exfalso|reflexivity].
  specialize (Hv n). unfold is_valid_move, is_valid_move_with in Hv.
  rewrite Hkind in Hv.
  destruct (Hwf) as [Hs Hside].
  destruct (Hside (color K) sx sy K HK eq_refl) as [Hpos Hhome].
  destruct (Z.leb_spec (Z.abs (ey - sy)) 1) as [Hy|Hy].
  - unfold King_is_valid_move in Hv. rewrite Hpos in Hv.
    cbn [get_piece] in Hv. rewrite Ht, Hcol, color_eqb_refl in Hv.
    destruct ((Z.abs (ex - sx) <=? 1) && (Z.abs (ey - sy) <=? 1)) eqn:E;
      [discriminate|].
    apply andb_false_iff in E as [E|E];
      [|apply Z.leb_gt in E; lia].
    destruct (negb (has_moved K) && (sx =? ex) && (Z.abs (ey - sy) =? 2))
      eqn:E2; [|discriminate].
    apply andb_true_iff in E2 as [_ E2]. apply Z.eqb_eq in E2. lia.
  - assert (Z.abs (ey - sy) = 2) as Habs.
    { unfold King_is_valid_move in Hv. rewrite Hpos in Hv.
      replace (Z.abs (ey - sy) <=? 1) with false in Hv
        by (symmetry; apply Z.leb_gt; lia).
      rewrite andb_false_r in Hv.
      destruct (negb (has_moved K) && (sx =? ex) && (Z.abs (ey - sy) =? 2))
        eqn:E2; [|discriminate].
      apply andb_true_iff in E2 as [_ E2]. now apply Z.eqb_eq in E2. }
    destruct (King_castle_facts n g K sx sy ex ey Hwf HK Hkind Habs Hv)
      as [-> [-> _]].
    assert (has_moved K = false) as Hm.
    { unfold King_is_valid_move in Hv. rewrite Hpos in Hv.
      replace (Z.abs (ey - 4) <=? 1) with false in Hv
        by (symmetry; apply Z.leb_gt; lia).
      rewrite andb_false_r in Hv.
      destruct (has_moved K); [discriminate|reflexivity]. }
    rewrite (King_castle_eq n K sx ey g Hs HK Hkind Hpos (Hside _) Hm Habs)
      in Hv.
    injection Hv as Hv.
    apply andb_true_iff in Hv as [Hv _].
    apply andb_true_iff in Hv as [_ Hfree].
    assert (is_empty g (sx, ey) = false) as Hocc
      by (unfold is_empty; cbn [get_piece]; now rewrite Ht).
    assert (ey = 6 \/ ey = 2) as [-> | ->] by lia; cbn in Hfree.
    + change (py_range (4 + 1) 7 1) with [5; 6] in Hfree.
      cbn [forallb] in Hfree. rewrite Hocc, andb_false_r in Hfree.
      discriminate.
    + change (py_range (4 + -1) 0 (-1)) with [3; 2; 1] in Hfree.
      cbn [forallb] in Hfree. rewrite Hocc in Hfree.
      rewrite andb_false_r in Hfree. discriminate.
Qed.

Lemma king_never_takes_own_piece_witness :
  is_valid_move 1 (mkPiece King White (7, 4) false false) (7, 3)
                (board new_board)
  = Done false (board new_board).
Proof.
  assert (wf (board new_board)) as Hwf
    by (apply wfb_wf; vm_compute; reflexivity).
  assert (cell (board new_board) 7 4
          = Some (mkPiece King White (7, 4) false false)) as HK
    by (vm_compute; reflexivity).
  assert (cell (board new_board) 7 3
          = Some (mkPiece Queen White (7, 3) false false)) as Ht
    by (vm_compute; reflexivity).
  exact (king_never_takes_own_piece 0 (board new_board)
           (mkPiece King White (7, 4) false false) 7 4 7 3
           (mkPiece Queen White (7, 3) false false) Hwf HK eq_refl Ht eq_refl).
Defined.

(** ** Lines, diagonals and pawn steps *)

Lemma py_range_up_iff a b y : In y (py_range a b 1) <-> a <= y < b.
Proof.
  split; [apply py_range_up|].
  unfold py_range. change (0 <? 1) with true. cbv iota.
  rewrite Z.div_1_r. intros H. apply in_map_iff.
  exists (Z.to_nat (y - a)). split; [lia|]. apply in_seq. lia.
Qed.

Lemma py_range_down_iff a b y : In y (py_range a b (-1)) <-> b < y <= a.
Proof.
  split; [apply py_range_down|].
  unfold py_range. change (0 <? -1) with false. cbv iota.
  change (- -1) with 1. rewrite Z.div_1_r.
  intros H. apply in_map_iff.
  exists (Z.to_nat (a - y)). split; [lia|]. apply in_seq. lia.
Qed.

Lemma line_scan (f : Z -> bool) a b :
  forallb f (py_range (a + (if b >? a then 1 else -1)) b
                      (if b >? a then 1 else -1)) = true
  <-> (forall i, between a b i -> f i = true).
Proof.
  rewrite forallb_forall. unfold between.
  destruct (Z.gtb_spec b a) as [H|H].
  - split; intros Hf i Hi.
    + apply Hf. apply py_range_up_iff. lia.
    + apply py_range_up_iff in Hi. apply Hf. lia.
  - split; intros Hf i Hi.
    + apply Hf. apply py_range_down_iff. lia.
    + apply py_range_down_iff in Hi. apply Hf. lia.
Qed.

Lemma Rook_is_valid_move_iff p sx sy ex ey g :
  position p = (sx, sy) ->
  Rook_is_valid_move p (ex, ey) g = true <->
  (sx = ex /\ forall y, between sy ey y -> is_empty g (sx, y) = true)
  \/ (sy = ey /\ forall x, between sx ex x -> is_empty g (x, sy) = true).
Proof.
  intros Hpos. unfold Rook_is_valid_move. rewrite Hpos.
  destruct (Z.eqb_spec sx ex) as [Ex|Ex]; cbn [negb andb].
  - rewrite (line_scan (fun y => is_empty g (sx, y)) sy ey).
    split; [intros H; left; now split|].
    intros [[_ H]|[-> _]]; [exact H|].
    intros y Hy. unfold between in Hy. lia.
  - destruct (Z.eqb_spec sy ey) as [Ey|Ey]; cbn [negb].
    + rewrite (line_scan (fun x => is_empty g (x, sy)) sx ex).
      split; [intros H; right; now split|].
      intros [[E _]|[_ H]]; [contradiction|exact H].
    + split; [discriminate|]. intros [[E _]|[E _]]; contradiction.
Qed.

Lemma Bishop_is_valid_move_iff p sx sy ex ey g :
  position p = (sx, sy) ->
  Bishop_is_valid_move p (ex, ey) g = true <->
  Z.abs (ex - sx) = Z.abs (ey - sy) /\
  forall i, 1 <= i < Z.abs (ex - sx) ->
    is_empty g (sx + i * (if ex >? sx then 1 else -1),
                sy + i * (if ey >? sy then 1 else -1)) = true.
Proof.
  intros Hpos. unfold Bishop_is_valid_move. rewrite Hpos.
  replace (ex - sx >? 0) with (ex >? sx)
    by (destruct (Z.gtb_spec ex sx), (Z.gtb_spec (ex - sx) 0); lia).
  replace (ey - sy >? 0) with (ey >? sy)
    by (destruct (Z.gtb_spec ey sy), (Z.gtb_spec (ey - sy) 0); lia).
  destruct (Z.eqb_spec (Z.abs (ex - sx)) (Z.abs (ey - sy))) as [E|E];
    cbn [negb].
  - rewrite forallb_forall. split.
    + intros H. split; [exact E|]. intros i Hi. apply H.
      apply py_range_up_iff. lia.
    + intros [_ H] i Hi. apply py_range_up_iff in Hi. apply H. lia.
  - split; [discriminate|]. intros [E' _]. contradiction.
Qed.

(** X12.  [Rook.is_valid_move] accepts exactly the destinations on the
    rook's row or column for which every square strictly between the rook
    and the destination is empty; what stands on the destination, and
    whether the destination is a square of the board, plays no part, and
    the rook's own square is accepted. *)
Theorem rook_accepts_clear_lines p ex ey g :
  Rook_is_valid_move p (ex, ey) g = true <->
  (fst (position p) = ex /\
   forall y, between (snd (position p)) ey y ->
             is_empty g (fst (position p), y) = true)
  \/ (snd (position p) = ey /\
      forall x, between (fst (position p)) ex x ->
                is_empty g (x, snd (position p)) = true).
Proof.
  destruct (position p) as [sx sy] eqn:Hpos. cbn [fst snd].
  exact (Rook_is_valid_move_iff p sx sy ex ey g Hpos).
Qed.

(** X13.  [Bishop.is_valid_move] accepts exactly the destinations as many
    rows as files away for which every square strictly between the bishop
    and the destination, along the diagonal, is empty; the bishop's own
    square is accepted. *)
Theorem bishop_accepts_clear_diagonals p ex ey g :
  Bishop_is_valid_move p (ex, ey) g = true <->
  Z.abs (ex - fst (position p)) = Z.abs (ey - snd (position p)) /\
  forall i, 1 <= i < Z.abs (ex - fst (position p)) ->
    is_empty g
      (fst (position p) + i * (if ex >? fst (position p) then 1 else -1),
       snd (position p) + i * (if ey >? snd (position p) then 1 else -1))
    = true.
Proof.
  destruct (position p) as [sx sy] eqn:Hpos. cbn [fst snd].
  exact (Bishop_is_valid_move_iff p sx sy ex ey g Hpos).
Qed.

Lemma between_same a i : ~ between a a i.
Proof. unfold between. lia. Qed.

Lemma null_move_accepted fuel piece sx sy g :
  position piece = (sx, sy) ->
  kind piece = Rook \/ kind piece = Bishop \/ kind piece = Queen ->
  is_valid_move fuel piece (sx, sy) g = Done true g.
Proof.
  intros Hpos Hk.
  assert (forall q, position q = (sx, sy) ->
            Rook_is_valid_move q (sx, sy) g = true) as HR.
  { intros q Hq. apply (Rook_is_valid_move_iff q sx sy sx sy g Hq).
    left. split; [reflexivity|]. intros y Hy. now apply between_same in Hy. }
  assert (forall q, position q = (sx, sy) ->
            Bishop_is_valid_move q (sx, sy) g = true) as HB.
  { intros q Hq. apply (Bishop_is_valid_move_iff q sx sy sx sy g Hq).
    split; [now rewrite !Z.sub_diag|]. intros i Hi.
    rewrite Z.sub_diag in Hi. cbn in Hi. lia. }
  unfold is_valid_move, is_valid_move_with, gets.
  destruct Hk as [-> |[-> | ->]]; f_equal.
  - now apply HR.
  - now apply HB.
  - unfold Queen_is_valid_move. rewrite HR; [reflexivity|exact Hpos].
Qed.

Lemma prepared_slider g piece sx sy ex ey c :
  kind piece <> Pawn -> kind piece <> King ->
  prepared_board g piece (sx, sy) (ex, ey) c = clear_en_passant c g.
Proof.
  intros HP HK. unfold prepared_board.
  rewrite kind_flagged, kind_clear_flag.
  destruct (kind_eqb (kind piece) Pawn) eqn:E1;
    [apply kind_eqb_eq in E1; contradiction|].
  destruct (kind_eqb (kind piece) King) eqn:E2;
    [apply kind_eqb_eq in E2; contradiction|].
  reflexivity.
Qed.

(** X14.  A rook, bishop or queen accepts its own square as a destination,
    and [move_piece] from a square to itself takes the piece off the board:
    on a well-formed board, when the mover has a king that is not attacked
    once the piece is gone, the call returns [True] and leaves the board
    with the en-passant flags of the mover cleared and the square empty. *)
Theorem null_move_deletes_piece n s sx sy c piece :
  wf (board s) -> cell (board s) sx sy = Some piece -> color piece = c ->
  kind piece = Rook \/ kind piece = Bishop \/ kind piece = Queen ->
  let g' := set_cell (clear_en_passant c (board s)) sx sy None in
  find_king c g' <> None -> in_check c g' = false ->
  move_piece (S n) (sx, sy) (sx, sy) c s
  = Done true (mkBoard g' (Some (board s))).
Proof.
  intros Hwf Hp Hc Hk g' Hking Hchk.
  pose proof (cell_Some_on_board _ _ _ _ Hp) as Hon.
  destruct (wf_side _ Hwf (color piece) sx sy piece Hp eq_refl) as [Hpos _].
  assert (kind piece <> Pawn /\ kind piece <> King) as [HP HK]
    by (destruct Hk as [-> |[-> | ->]]; split; discriminate).
  assert (tentative_board (board s) piece (sx, sy) (sx, sy) c = g') as Hg5.
  { unfold tentative_board. cbn [fst snd].
    rewrite (prepared_slider _ _ _ _ _ _ _ HP HK). subst g'.
    assert (shape (clear_en_passant c (board s))) as Hs
      by (apply shape_clear_en_passant; apply Hwf).
    apply grid_ext; [repeat apply shape_set_cell; exact Hs
                    |apply shape_set_cell; exact Hs|].
    intros x y _.
    rewrite !cell_set_cell by (repeat apply shape_set_cell; exact Hs).
    destruct (on_board sx sy && (sx =? x) && (sy =? y)); reflexivity. }
  rewrite (move_piece_eq _ s sx sy sx sy c piece Hp Hc).
  unfold on_grid. cbn [board save_state last_state].
  destruct (move_attempt_eq n (board s) piece sx sy sx sy c Hwf Hp Hc Hon)
    as [v [Hv Heq]].
  rewrite Heq. clear Heq.
  specialize (Hv 0%nat).
  rewrite (null_move_accepted 1 piece sx sy (board s) Hpos Hk) in Hv.
  injection Hv as <-. cbv zeta.
  rewrite Hg5.
  destruct (find_king c g') as [kp|] eqn:Ek; [|congruence].
  assert (side_ok (opponent c) g') as Hok.
  { rewrite <- Hg5. apply side_ok_tentative; [apply Hwf|apply Hwf|exact Hp
                                              |exact Hc]. }
  rewrite <- (in_check_threatened c g' kp Hok Ek), Hchk.
  unfold final_board. rewrite Hg5.
  replace (pos_eqb (sx, sy) (sx, sy)) with true
    by (symmetry; now apply pos_eqb_eq).
  reflexivity.
Qed.

Lemma null_move_deletes_piece_witness :
  move_piece 1 (7, 0) (7, 0) White new_board
  = Done true
      (mkBoard (set_cell (clear_en_passant White (board new_board)) 7 0 None)
               (Some (board new_board))) /\
  cell (set_cell (clear_en_passant White (board new_board)) 7 0 None) 7 0
  = None.
Proof.
  assert (wf (board new_board)) as Hwf
    by (apply wfb_wf; vm_compute; reflexivity).
  assert (cell (board new_board) 7 0
          = Some (mkPiece Rook White (7, 0) false false)) as Hp
    by (vm_compute; reflexivity).
  assert (find_king White
            (set_cell (clear_en_passant White (board new_board)) 7 0 None)
          <> None) as Hk by (vm_compute; discriminate).
  assert (in_check White
            (set_cell (clear_en_passant White (board new_board)) 7 0 None)
          = false) as Hc by (vm_compute; reflexivity).
  split; [|vm_compute; reflexivity].
  exact (null_move_deletes_piece 0 new_board 7 0 White
           (mkPiece Rook White (7, 0) false false)
           Hwf Hp eq_refl (or_introl eq_refl) Hk Hc).
Defined.

(** X26.  A destination that [Pawn.is_valid_move] accepts lies one row
    ahead of the pawn at most one file aside, or two rows ahead on the
    pawn's file when the pawn stands on its start row and the square in
    between is empty; a destination on the pawn's file is empty, and for a
    destination on a neighbouring file either it holds a piece of the other
    colour or the square beside the pawn holds an opposing pawn that carries
    the en-passant flag.  A pawn never moves backwards or sideways and
    never onto its own square. *)
Theorem pawn_moves_forward p ex ey g :
  Pawn_is_valid_move p (ex, ey) g = true ->
  let sx := fst (position p) in
  let sy := snd (position p) in
  let direction := match color p with White => -1 | Black => 1 end in
  let start_row := match color p with White => 6 | Black => 1 end in
  ((ex = sx + direction /\ Z.abs (ey - sy) <= 1)
   \/ (ex = sx + 2 * direction /\ ey = sy /\ sx = start_row /\
       is_empty g (sx + direction, sy) = true)) /\
  (ey = sy -> is_empty g (ex, ey) = true) /\
  (ey <> sy ->
   (exists t, get_piece g (ex, ey) = Some t /\ color t <> color p)
   \/ (exists a, get_piece g (sx, ey) = Some a /\ kind a = Pawn /\
                 color a <> color p /\
                 can_be_captured_en_passant a = true)).
Proof.
  unfold Pawn_is_valid_move.
  destruct (position p) as [sx sy]. cbn [fst snd]. cbv zeta.
  set (d := match color p with White => -1 | Black => 1 end).
  set (r0 := match color p with White => 6 | Black => 1 end).
  destruct ((ey =? sy) && (ex =? sx + d) && is_empty g (ex, ey)) eqn:E1.
  { intros _. apply andb_true_iff in E1 as [E1 He].
    apply andb_true_iff in E1 as [Ey Ex]. apply Z.eqb_eq in Ex, Ey.
    split; [left; split; [exact Ex|lia]|].
    split; [intros _; exact He|]. intros Hne. contradiction. }
  destruct ((sx =? r0) && (ey =? sy) && (ex =? sx + 2 * d)
            && is_empty g (sx + d, sy) && is_empty g (ex, ey)) eqn:E2.
  { intros _. apply andb_true_iff in E2 as [E2 He].
    apply andb_true_iff in E2 as [E2 Hm]. apply andb_true_iff in E2 as [E2 Ex].
    apply andb_true_iff in E2 as [Es Ey]. apply Z.eqb_eq in Ex, Ey, Es.
    split; [right; now repeat split|].
    split; [intros _; exact He|]. intros Hne. contradiction. }
  destruct ((Z.abs (ey - sy) =? 1) && (ex =? sx + d)) eqn:E3;
    [|discriminate].
  apply andb_true_iff in E3 as [Ey Ex]. apply Z.eqb_eq in Ex, Ey.
  intros H. split; [left; split; [exact Ex|lia]|].
  split; [intros ->; rewrite Z.sub_diag in Ey; discriminate|].
  intros _.
  destruct (get_piece g (ex, ey)) as [t|].
  - destruct (negb (color_eqb (color t) (color p))) eqn:Et.
    + left. exists t. split; [reflexivity|].
      apply negb_true_iff in Et. intros Hc.
      apply (proj2 (color_eqb_eq _ _)) in Hc. congruence.
    + right. destruct (get_piece g (sx, ey)) as [a|]; [|discriminate].
      exists a. split; [reflexivity|].
      apply andb_true_iff in H as [H H3]. apply andb_true_iff in H as [H1 H2].
      apply kind_eqb_eq in H1. apply negb_true_iff in H2.
      split; [exact H1|]. split; [|exact H3].
      intros Hc. apply (proj2 (color_eqb_eq _ _)) in Hc. congruence.
  - right. destruct (get_piece g (sx, ey)) as [a|]; [|discriminate].
    exists a. split; [reflexivity|].
    apply andb_true_iff in H as [H H3]. apply andb_true_iff in H as [H1 H2].
    apply kind_eqb_eq in H1. apply negb_true_iff in H2.
    split; [exact H1|]. split; [|exact H3].
    intros Hc. apply (proj2 (color_eqb_eq _ _)) in Hc. congruence.
Qed.

Lemma pawn_moves_forward_witness :
  ((4 = 6 + -1 /\ Z.abs (4 - 4) <= 1)
   \/ (4 = 6 + 2 * -1 /\ 4 = 4 /\ 6 = 6 /\
       is_empty (board new_board) (6 + -1, 4) = true)) /\
  (4 = 4 -> is_empty (board new_board) (4, 4) = true) /\
  (4 <> 4 ->
   (exists t, get_piece (board new_board) (4, 4) = Some t /\
              color t <> White)
   \/ (exists a, get_piece (board new_board) (6, 4) = Some a /\
                 kind a = Pawn /\ color a <> White /\
                 can_be_captured_en_passant a = true)).
Proof.
  assert (Pawn_is_valid_move (mkPiece Pawn White (6, 4) false false) (4, 4)
            (board new_board) = true) as H by (vm_compute; reflexivity).
  exact (pawn_moves_forward (mkPiece Pawn White (6, 4) false false) 4 4
           (board new_board) H).
Defined.

(** X11.  [Pawn.is_valid_move] accepts a destination that holds a piece of
    the pawn's own colour in one case only: a diagonal step forward while
    the square beside the pawn, on the file of the destination, holds an
    opposing pawn that carries the en-passant flag. *)
Theorem pawn_onto_own_piece p sx sy ex ey g t :
  position p = (sx, sy) ->
  get_piece g (ex, ey) = Some t -> color t = color p ->
  Pawn_is_valid_move p (ex, ey) g = true <->
  Z.abs (ey - sy) = 1 /\
  ex = sx + match color p with White => -1 | Black => 1 end /\
  exists a, get_piece g (sx, ey) = Some a /\ kind a = Pawn /\
            color a = opponent (color p) /\
            can_be_captured_en_passant a = true.
Proof.
  intros Hpos Ht Hcol. unfold Pawn_is_valid_move. rewrite Hpos.
  unfold is_empty. rewrite Ht, Hcol, color_eqb_refl.
  rewrite !andb_false_r. cbn [negb].
  destruct (Z.eqb_spec (Z.abs (ey - sy)) 1) as [E1|E1]; cbn [andb].
  2:{ split; [discriminate|]. intros [E _]. contradiction. }
  destruct (Z.eqb_spec ex (sx + match color p with White => -1 | Black => 1 end))
    as [E2|E2].
  2:{ split; [discriminate|]. intros [_ [E _]]. contradiction. }
  destruct (get_piece g (sx, ey)) as [a|].
  2:{ split; [discriminate|]. intros [_ [_ [a [H _]]]]. discriminate. }
  split.
  - intros H. apply andb_true_iff in H as [H H3].
    apply andb_true_iff in H as [H1 H2].
    apply kind_eqb_eq in H1. apply negb_true_iff in H2.
    split; [exact E1|]. split; [exact E2|]. exists a.
    split; [reflexivity|]. split; [exact H1|]. split; [|exact H3].
    destruct (color a), (color p); cbn in *; congruence.
  - intros [_ [_ [a' [[= <-] [H1 [H2 H3]]]]]].
    rewrite H1, H2, H3. cbn. now destruct (color p).
Qed.

Lemma pawn_onto_own_piece_witness :
  Pawn_is_valid_move (mkPiece Pawn Black (4, 3) true false) (5, 4)
                     pawn_beside_flagged = true /\
  cell (board (play 1 (4, 3) (5, 4) Black (mkBoard pawn_beside_flagged None)))
       5 4 = Some (mkPiece Pawn Black (5, 4) true false) /\
  cell (board (play 1 (4, 3) (5, 4) Black (mkBoard pawn_beside_flagged None)))
       4 4 = Some (mkPiece Pawn White (4, 4) true true).
Proof.
  assert (get_piece pawn_beside_flagged (5, 4)
          = Some (mkPiece Knight Black (5, 4) true false)) as Ht
    by (vm_compute; reflexivity).
  split; [|split; vm_compute; reflexivity].
  apply (proj2 (pawn_onto_own_piece (mkPiece Pawn Black (4, 3) true false)
                  4 3 5 4 pawn_beside_flagged
                  (mkPiece Knight Black (5, 4) true false)
                  eq_refl Ht eq_refl)).
  split; [reflexivity|]. split; [reflexivity|].
  exists (mkPiece Pawn White (4, 4) true true).
  split; [vm_compute; reflexivity|]. now repeat split.
Defined.

(** ** Clicks *)

Lemma board_click mouse_x mouse_y :
  300 <= mouse_x -> 100 <= mouse_y <= 900 ->
  (mouse_x >=? 300) && ((mouse_y >=? 100) && (mouse_y <=? 900)) = true.
Proof.
  intros Hx Hy. rewrite !Z.geb_leb.
  rewrite !andb_true_iff, !Z.leb_le. lia.
Qed.

Lemma button_click mouse_x mouse_y :
  mouse_x < 300 ->
  (mouse_x >=? 300) && ((mouse_y >=? 100) && (mouse_y <=? 900)) = false.
Proof.
  intros Hx. rewrite Z.geb_leb.
  replace (300 <=? mouse_x) with false by (symmetry; apply Z.leb_gt; lia).
  reflexivity.
Qed.

Lemma undo_row undo_y : 500 <= undo_y < 600 -> undo_y / CELLSIZE = 5.
Proof.
  intros H. unfold CELLSIZE. symmetry.
  apply (Z.div_unique undo_y 100 5 (undo_y - 500)); lia.
Qed.

(** X16.  [main] treats a click with [mouse_y = 900] as a click on the
    board and computes row 8 for it.  With a piece of the side to move
    selected that accepts the square of row 8 under the click (a rook, queen
    or king on the last row does), [move_piece] is called with that
    destination and the program ends in [IndexError]. *)
Theorem click_on_bottom_edge_raises n gm mouse_x sx sy p :
  promoting_pawn gm = None -> selected_piece gm = Some (sx, sy) ->
  cell (board (chess gm)) sx sy = Some p -> color p = player_turn gm ->
  300 <= mouse_x ->
  is_valid_move (S n) p (8, (mouse_x - 300) / CELLSIZE) (board (chess gm))
  = Done true (board (chess gm)) ->
  exists gm', handle_click (S n) mouse_x 900 gm = Raised IndexError gm'.
Proof.
  intros Hpp Hsel Hp Hc Hx Hv.
  unfold handle_click. rewrite (board_click mouse_x 900 Hx ltac:(lia)).
  change ((900 - 100) / CELLSIZE) with 8.
  unfold handle_promotion. rewrite Hpp.
  unfold handle_square. rewrite Hsel. cbn [get_piece].
  rewrite (cell_off_board _ 8 _) by reflexivity.
  destruct (move_piece_off_grid_raises n (chess gm) sx sy 8 _ _ p Hp Hc
              (or_introl eq_refl) Hv) as [s' Hs'].
  rewrite Hs'. eauto.
Qed.

Lemma click_on_bottom_edge_raises_witness :
  exists gm',
    handle_click 1 350 900 (mkGame new_board (Some (7, 0)) White None None)
    = Raised IndexError gm'.
Proof.
  assert (cell (board new_board) 7 0
          = Some (mkPiece Rook White (7, 0) false false)) as Hp
    by (vm_compute; reflexivity).
  assert (is_valid_move 1 (mkPiece Rook White (7, 0) false false)
            (8, (350 - 300) / CELLSIZE) (board new_board)
          = Done true (board new_board)) as Hv
    by (vm_compute; reflexivity).
  assert (300 <= 350) as Hx by lia.
  exact (click_on_bottom_edge_raises 0
           (mkGame new_board (Some (7, 0)) White None None) 350 7 0
           (mkPiece Rook White (7, 0) false false)
           eq_refl eq_refl Hp eq_refl Hx Hv).
Defined.

(** X18.  In [main], a click on Step back after an attempt that
    [move_piece] answered with [False] gives back the board as it was before
    the attempt and passes the turn to the other side, although the side to
    move has made no move. *)
Theorem undo_after_rejected_attempt
    fuel gm mouse_x mouse_y undo_x undo_y sx sy p cb :
  let row := (mouse_y - 100) / CELLSIZE in
  let col := (mouse_x - 300) / CELLSIZE in
  promoting_pawn gm = None -> selected_piece gm = Some (sx, sy) ->
  cell (board (chess gm)) sx sy = Some p -> color p = player_turn gm ->
  300 <= mouse_x -> 100 <= mouse_y <= 900 ->
  (forall q, get_piece (board (chess gm)) (row, col) = Some q ->
             color q <> player_turn gm) ->
  move_piece fuel (sx, sy) (row, col) (player_turn gm) (chess gm)
  = Done false cb ->
  undo_x < 300 -> 500 <= undo_y < 600 ->
  exists gm1 gm2,
    handle_click fuel mouse_x mouse_y gm = Done tt gm1 /\
    player_turn gm1 = player_turn gm /\
    handle_click fuel undo_x undo_y gm1 = Done tt gm2 /\
    board (chess gm2) = board (chess gm) /\
    player_turn gm2 = opponent (player_turn gm).
Proof.
  intros row col Hpp Hsel Hp Hc Hx Hy Hown Hm Hux Huy.
  pose proof (move_piece_snapshot_any _ _ _ _ _ _ _ Hm) as Hsnap.
  cbn [get_piece] in Hsnap. rewrite Hp, Hc, color_eqb_refl in Hsnap.
  assert (board (chess gm) <> []) as Hne.
  { intros E. rewrite E in Hp. unfold cell in Hp.
    destruct (on_board sx sy); [|discriminate].
    now rewrite lookup_nil in Hp. }
  eexists. eexists. split; [|split; [|split; [|split]]].
  - unfold handle_click. rewrite (board_click _ _ Hx Hy).
    unfold handle_promotion. rewrite Hpp.
    unfold handle_square. rewrite Hsel.
    fold row col.
    destruct (get_piece (board (chess gm)) (row, col)) as [q|] eqn:Eq.
    + destruct (color_eqb (color q) (player_turn gm)) eqn:Ec.
      * apply color_eqb_eq in Ec. now destruct (Hown q eq_refl).
      * rewrite Hm. reflexivity.
    + rewrite Hm. reflexivity.
  - reflexivity.
  - unfold handle_click. rewrite (button_click _ undo_y Hux).
    rewrite (undo_row _ Huy). unfold handle_button.
    cbn [Z.eqb Pos.eqb chess last_state]. rewrite Hsnap. reflexivity.
  - cbn [chess]. unfold undo_move. rewrite Hsnap.
    destruct (board (chess gm)); [contradiction|reflexivity].
  - reflexivity.
Qed.

Lemma undo_after_rejected_attempt_witness :
  exists gm1 gm2,
    handle_click 1 350 550
      (mkGame (mkBoard king_in_check None) (Some (6, 0)) White None None)
    = Done tt gm1 /\
    player_turn gm1 = White /\
    handle_click 1 150 550 gm1 = Done tt gm2 /\
    board (chess gm2) = king_in_check /\
    player_turn gm2 = Black.
Proof.
  assert (cell king_in_check 6 0
          = Some (mkPiece Pawn White (6, 0) false false)) as Hp
    by (vm_compute; reflexivity).
  assert (forall q, get_piece king_in_check
                      ((550 - 100) / CELLSIZE, (350 - 300) / CELLSIZE)
                    = Some q -> color q <> White) as Hown
    by (intros q Hq; vm_compute in Hq; discriminate).
  assert (move_piece 1 (6, 0)
            ((550 - 100) / CELLSIZE, (350 - 300) / CELLSIZE) White
            (mkBoard king_in_check None)
          = Done false
              (play 1 (6, 0) (4, 0) White (mkBoard king_in_check None))) as Hm
    by (vm_compute; reflexivity).
  assert (300 <= 350) as Hx by lia.
  assert (100 <= 550 <= 900) as Hy by lia.
  assert (150 < 300) as Hux by lia.
  assert (500 <= 550 < 600) as Huy by lia.
  exact (undo_after_rejected_attempt 1
           (mkGame (mkBoard king_in_check None) (Some (6, 0)) White None None)
           350 550 150 550 6 0 (mkPiece Pawn White (6, 0) false false) _
           eq_refl eq_refl Hp eq_refl Hx Hy Hown Hm Hux Huy).
Defined.

(** X19.  Step back reaches one move back and no further: unless the
    snapshot slot holds an empty list, a second click on Step back right
    after the first changes neither the board nor the turn. *)
Theorem second_undo_changes_nothing gm :
  last_state (chess gm) <> Some [] ->
  handle_button 5 (handle_button 5 gm) = handle_button 5 gm.
Proof.
  intros H. unfold handle_button. cbn [Z.eqb Pos.eqb].
  destruct (last_state (chess gm)) as [g0|] eqn:E.
  - cbn [chess]. unfold undo_move. rewrite E.
    destruct g0 as [|r rs]; [contradiction|]. cbn [last_state]. reflexivity.
  - now rewrite E.
Qed.

Lemma second_undo_changes_nothing_witness :
  handle_button 5
    (handle_button 5
       (mkGame (play 1 (6, 4) (4, 4) White new_board) None Black None None))
  = handle_button 5
      (mkGame (play 1 (6, 4) (4, 4) White new_board) None Black None None).
Proof.
  apply (second_undo_changes_nothing
           (mkGame (play 1 (6, 4) (4, 4) White new_board) None Black None None)).
  vm_compute. discriminate.
Defined.

(** X22.  [draw_board] and the click handling of [main] agree on the
    squares: a click falls inside the rectangle in which [draw_board] paints
    the square [(row, col)] exactly when [main] computes [row] and [col] for
    it, and for a square of the eight rows, with no promotion pending, the
    click is handled as a click on that square. *)
Theorem click_on_drawn_square fuel gm row col mouse_x mouse_y :
  (collidepoint (fst (square_rect row col)) (snd (square_rect row col))
                mouse_x mouse_y = true
   <-> (mouse_y - 100) / CELLSIZE = row /\ (mouse_x - 300) / CELLSIZE = col)
  /\ (0 <= row < 8 -> 0 <= col ->
      collidepoint (fst (square_rect row col)) (snd (square_rect row col))
                   mouse_x mouse_y = true ->
      promoting_pawn gm = None ->
      handle_click fuel mouse_x mouse_y gm = handle_square fuel row col gm).
Proof.
  split.
  - unfold collidepoint, square_rect, CELLSIZE. cbn [fst snd].
    rewrite !andb_true_iff, !Z.leb_le, !Z.ltb_lt.
    Z.div_mod_to_equations. lia.
  - intros Hr Hc Hin Hpp.
    assert ((mouse_y - 100) / CELLSIZE = row
            /\ (mouse_x - 300) / CELLSIZE = col) as [Hrow Hcol].
    { revert Hin. unfold collidepoint, square_rect, CELLSIZE. cbn [fst snd].
      rewrite !andb_true_iff, !Z.leb_le, !Z.ltb_lt.
      Z.div_mod_to_equations. lia. }
    unfold collidepoint, square_rect, CELLSIZE in Hin. cbn [fst snd] in Hin.
    rewrite !andb_true_iff, !Z.leb_le, !Z.ltb_lt in Hin.
    unfold handle_click. rewrite board_click by lia.
    rewrite Hrow, Hcol. unfold handle_promotion. now rewrite Hpp.
Qed.

Lemma click_on_drawn_square_witness :
  handle_click 1 750 750 new_game = handle_square 1 6 4 new_game.
Proof.
  assert (0 <= 6 < 8) as Hr by lia.
  assert (0 <= 4) as Hc by lia.
  exact (proj2 (click_on_drawn_square 1 new_game 6 4 750 750)
               Hr Hc eq_refl eq_refl).
Defined.

Lemma collide_disjoint x y x' y' mouse_x mouse_y :
  collidepoint x y mouse_x mouse_y = true ->
  x + CELLSIZE <= x' \/ x' + CELLSIZE <= x \/
  y + CELLSIZE <= y' \/ y' + CELLSIZE <= y ->
  collidepoint x' y' mouse_x mouse_y = false.
Proof.
  unfold collidepoint, CELLSIZE.
  rewrite !andb_true_iff, !Z.leb_le, !Z.ltb_lt. intros H Hd.
  apply not_true_is_false. rewrite !andb_true_iff, !Z.leb_le, !Z.ltb_lt.
  lia.
Qed.

Lemma promotion_find k x y mouse_x mouse_y :
  In (k, (x, y)) promotion_choices ->
  collidepoint x y mouse_x mouse_y = true ->
  List.find (fun ch => collidepoint (fst (snd ch)) (snd (snd ch))
                         mouse_x mouse_y) promotion_choices
  = Some (k, (x, y)).
Proof.
  intros Hin Hc. unfold promotion_choices in *. cbn [In] in Hin.
  cbn [List.find fst snd].
  destruct Hin as [E|[E|[E|[E|[]]]]]; injection E as <- <- <-.
  - now rewrite Hc.
  - rewrite (collide_disjoint _ _ 600 400 _ _ Hc)
      by (unfold CELLSIZE; lia).
    now rewrite Hc.
  - rewrite (collide_disjoint _ _ 600 400 _ _ Hc)
      by (unfold CELLSIZE; lia).
    rewrite (collide_disjoint _ _ (600 + CELLSIZE) 400 _ _ Hc)
      by (unfold CELLSIZE; lia).
    now rewrite Hc.
  - rewrite (collide_disjoint _ _ 600 400 _ _ Hc)
      by (unfold CELLSIZE; lia).
    rewrite (collide_disjoint _ _ (600 + CELLSIZE) 400 _ _ Hc)
      by (unfold CELLSIZE; lia).
    rewrite (collide_disjoint _ _ 600 (400 + CELLSIZE) _ _ Hc)
      by (unfold CELLSIZE; lia).
    now rewrite Hc.
Qed.

(** X23.  With a promotion pending on a square of the board, a click inside
    the rectangle of a menu entry puts a new piece of the kind of that
    entry and of the promotion colour on the square, [has_moved] unset,
    ends the promotion and passes the turn; the four rectangles do not
    overlap, so the entry is the one clicked. *)
Theorem promotion_choice_replaces_pawn gm prow pcol pc k x y mouse_x mouse_y row col :
  promoting_pawn gm = Some (prow, pcol) -> promotion_color gm = Some pc ->
  on_board prow pcol = true ->
  In (k, (x, y)) promotion_choices ->
  collidepoint x y mouse_x mouse_y = true ->
  handle_promotion mouse_x mouse_y row col gm
  = Done (prow, pcol)
         (mkGame (mkBoard (set_cell (board (chess gm)) prow pcol
                                    (Some (new_piece k pc (prow, pcol))))
                          (last_state (chess gm)))
                 (selected_piece gm) (opponent (player_turn gm)) None None).
Proof.
  intros Hpp Hpc Hon Hin Hc. unfold handle_promotion.
  rewrite Hpp, (promotion_find k x y mouse_x mouse_y Hin Hc), Hpc.
  unfold store. apply on_board_iff in Hon.
  now rewrite !wrap_on_board by lia.
Qed.

Lemma promotion_choice_replaces_pawn_witness :
  handle_promotion 650 450 3 3
    (mkGame (mkBoard pawn_on_last_row None) None White (Some (0, 0))
            (Some White))
  = Done (0, 0)
         (mkGame (mkBoard (set_cell pawn_on_last_row 0 0
                             (Some (new_piece Queen White (0, 0))))
                          None)
                 None Black None None).
Proof.
  assert (In (Queen, (600, 400)) promotion_choices) as Hin by (left; reflexivity).
  exact (promotion_choice_replaces_pawn
           (mkGame (mkBoard pawn_on_last_row None) None White (Some (0, 0))
                   (Some White))
           0 0 White Queen 600 400 650 450 3 3
           eq_refl eq_refl eq_refl Hin eq_refl).
Defined.

Lemma promotion_miss mouse_x mouse_y :
  ~ (600 <= mouse_x < 800 /\ 400 <= mouse_y < 600) ->
  List.find (fun ch => collidepoint (fst (snd ch)) (snd (snd ch))
                         mouse_x mouse_y) promotion_choices = None.
Proof.
  intros H. unfold promotion_choices. cbn [List.find fst snd].
  assert (forall x y, 600 <= x -> x + 100 <= 800 -> 400 <= y ->
            y + 100 <= 600 -> collidepoint x y mouse_x mouse_y = false) as Hm.
  { intros x y H1 H2 H3 H4. apply not_true_is_false.
    unfold collidepoint, CELLSIZE.
    rewrite !andb_true_iff, !Z.leb_le, !Z.ltb_lt. lia. }
  rewrite !Hm by (unfold CELLSIZE; lia). reflexivity.
Qed.

(** X24.  A pending promotion does not stop play: a click on the board
    outside the promotion menu is handled as if no promotion were pending,
    so the side to move can complete a move with another piece; the turn
    then passes and the promotion stays pending. *)
Theorem pending_promotion_does_not_block fuel gm mouse_x mouse_y sel cb :
  let row := (mouse_y - 100) / CELLSIZE in
  let col := (mouse_x - 300) / CELLSIZE in
  selected_piece gm = Some sel ->
  300 <= mouse_x -> 100 <= mouse_y <= 900 ->
  ~ (600 <= mouse_x < 800 /\ 400 <= mouse_y < 600) ->
  (forall q, get_piece (board (chess gm)) (row, col) = Some q ->
             color q <> player_turn gm) ->
  move_piece fuel sel (row, col) (player_turn gm) (chess gm) = Done true cb ->
  isinstance (get_piece (board cb) (row, col)) Pawn
  && ((row =? 0) || (row =? 7)) = false ->
  handle_click fuel mouse_x mouse_y gm
  = Done tt (mkGame cb None (opponent (player_turn gm))
                    (promoting_pawn gm) (promotion_color gm)).
Proof.
  intros row col Hsel Hx Hy Hout Hown Hm Hlast.
  unfold handle_click. rewrite (board_click _ _ Hx Hy). fold row col.
  assert (handle_promotion mouse_x mouse_y row col gm = Done (row, col) gm)
    as ->.
  { unfold handle_promotion.
    destruct (promoting_pawn gm) as [[prow pcol]|]; [|reflexivity].
    now rewrite (promotion_miss _ _ Hout). }
  unfold handle_square. rewrite Hsel.
  destruct (get_piece (board (chess gm)) (row, col)) as [q|] eqn:Eq.
  - destruct (color_eqb (color q) (player_turn gm)) eqn:Ec.
    + apply color_eqb_eq in Ec. now destruct (Hown q eq_refl).
    + rewrite Hm, Hlast. reflexivity.
  - rewrite Hm, Hlast. reflexivity.
Qed.

Lemma pending_promotion_does_not_block_witness :
  handle_click 1 650 850
    (mkGame (mkBoard pawn_on_last_row None) (Some (7, 4)) White
            (Some (0, 0)) (Some White))
  = Done tt
      (mkGame (play 1 (7, 4) (7, 3) White (mkBoard pawn_on_last_row None))
              None Black (Some (0, 0)) (Some White)).
Proof.
  assert (300 <= 650) as Hx by lia.
  assert (100 <= 850 <= 900) as Hy by lia.
  assert (~ (600 <= 650 < 800 /\ 400 <= 850 < 600)) as Hout by lia.
  assert (forall q, get_piece pawn_on_last_row
                      ((850 - 100) / CELLSIZE, (650 - 300) / CELLSIZE)
                    = Some q -> color q <> White) as Hown
    by (intros q Hq; vm_compute in Hq; discriminate).
  assert (move_piece 1 (7, 4)
            ((850 - 100) / CELLSIZE, (650 - 300) / CELLSIZE) White
            (mkBoard pawn_on_last_row None)
          = Done true
              (play 1 (7, 4) (7, 3) White (mkBoard pawn_on_last_row None)))
    as Hm by (vm_compute; reflexivity).
  assert (isinstance
            (get_piece
               (board (play 1 (7, 4) (7, 3) White
                         (mkBoard pawn_on_last_row None)))
               ((850 - 100) / CELLSIZE, (650 - 300) / CELLSIZE)) Pawn
          && (((850 - 100) / CELLSIZE =? 0) || ((850 - 100) / CELLSIZE =? 7))
          = false) as Hlast by (vm_compute; reflexivity).
  exact (pending_promotion_does_not_block 1
           (mkGame (mkBoard pawn_on_last_row None) (Some (7, 4)) White
                   (Some (0, 0)) (Some White))
           650 850 (7, 4) _ eq_refl Hx Hy Hout Hown Hm Hlast).
Defined.

(** ** Image keys *)

(** X25.  Every key that [draw_board] looks up in [PIECE_IMAGES], the
    [get_image_key] of a piece, is one of the twelve names under which
    [load_images] stores an image, and pieces of different kind or colour
    have different keys; the key that [draw_promotion_choices] looks up for
    an entry of the promotion menu is the key of the piece that [main]
    creates for that entry. *)
Theorem image_keys_are_loaded :
  (forall p, In (get_image_key p) pieces) /\
  (forall p q, get_image_key p = get_image_key q ->
               kind p = kind q /\ color p = color q) /\
  (forall piece, In piece promotion_pieces ->
     exists k, promoted_kind piece = Some k /\
       forall c sq,
         get_image_key (new_piece k c sq) = promotion_key c piece /\
         In (promotion_key c piece) pieces).
Proof.
  split; [|split].
  - intros [k c ? ? ?]. unfold get_image_key, pieces. cbn [kind color].
    destruct k, c; cbn; tauto.
  - intros [k c ? ? ?] [k' c' ? ? ?]. unfold get_image_key.
    cbn [kind color]. destruct k, c, k', c'; cbn; intros H;
      try discriminate; now split.
  - intros piece Hin. unfold promotion_pieces in Hin. cbn [In] in Hin.
    destruct Hin as [<-|[<-|[<-|[<-|[]]]]]; eexists;
      (split; [reflexivity|]); intros [] sq; cbn; tauto.
Qed.

(** ** Captures of the mover's own pieces *)











